(** * Call-graph extraction from a Java parse tree (process.py)

    A shallow embedding of [process.py]: the program model ([ParmType],
    [FieldType], [Statement], [JavaMethod], [JavaClass], [JavaFileAst]), the
    listener [CollectListener] that rebuilds the model from the enter/exit
    callbacks of the ANTLR tree walker, the dot renderer and the per-file
    pipeline ([JavaCallGraph.process], [JavaCallGraph.create], [main]).

    Python objects are mutable and shared: the listener keeps references to
    the same [JavaClass] and [JavaMethod] objects in [_ast], [_deep_class]
    and [_current_method].  The embedding therefore keeps an object store
    (object identities are natural numbers) and the dictionaries hold
    identities, not copies. *)

Set Warnings "-register-all".
From stdpp Require Import gmap strings list pretty.
From Stdlib Require Import ZArith String Ascii.

Open Scope string_scope.
Open Scope list_scope.
Open Scope Z_scope.

(** ** Python values and exceptions *)

(** The exceptions the program can raise: [raise Exception(msg)] of the
    source, [KeyError] of a missing dictionary key ([d[k]], [d.pop(k)]),
    [AttributeError] of a method call on [None], [TypeError] of [len(None)]
    inside the runtime's [getChild], and [OSError] of an [open] that the
    file system refuses ([IsADirectoryError], [PermissionError]). *)
Inductive exn :=
| Exception (msg : string)
| KeyError
| AttributeError
| TypeError
| OSError.

Inductive result (A : Type) :=
| Return (a : A)
| Raise (e : exn).
Arguments Return {A} a.
Arguments Raise {A} e.

Definition rbind {A B} (m : result A) (k : A -> result B) : result B :=
  match m with
  | Return a => k a
  | Raise e => Raise e
  end.

Notation "'let!' x ':=' m 'in' k" := (rbind m (fun x => k))
  (at level 10, x name, m at level 100, k at level 200).
Notation "'let!' ' p ':=' m 'in' k" := (rbind m (fun 'p => k))
  (at level 10, p pattern, m at level 100, k at level 200).

(** [o.attr] where [o] may be [None]. *)
Definition getattr {A} (o : option A) : result A :=
  match o with
  | Some a => Return a
  | None => Raise AttributeError
  end.

(** [d[k]] on a dictionary lookup that may miss. *)
Definition getitem {A} (o : option A) : result A :=
  match o with
  | Some a => Return a
  | None => Raise KeyError
  end.

(** [for i in range(n): acc = body(i, acc)], stopping at the first
    exception. *)
Fixpoint for_range {A} (body : nat -> A -> result A) (range : list nat) (acc : A)
  : result A :=
  match range with
  | [] => Return acc
  | i :: rest => let! acc' := body i acc in for_range body rest acc'
  end.

(** A value that the source binds either to a [str] or to a list of [str]:
    the [implements] component of a class header. *)
Inductive str_or_list :=
| PyStr (s : string)
| PyList (l : list string).

(** ** Insertion-ordered dictionaries with string keys

    Python's [dict]: assignment to an existing key replaces the value in
    place, assignment to a new key appends the entry. *)
Section Dict.
Context {V : Type}.

Definition dict := list (string * V).

Fixpoint dict_get (k : string) (d : dict) : option V :=
  match d with
  | [] => None
  | (k', v) :: d' => if String.eqb k k' then Some v else dict_get k d'
  end.

Definition dict_contains (k : string) (d : dict) : bool :=
  match dict_get k d with
  | Some _ => true
  | None => false
  end.

Fixpoint dict_set (k : string) (v : V) (d : dict) : dict :=
  match d with
  | [] => [(k, v)]
  | (k', v') :: d' =>
      if String.eqb k k' then (k, v) :: d' else (k', v') :: dict_set k v d'
  end.

Definition dict_keys (d : dict) : list string := map fst d.
End Dict.
Arguments dict V : clear implicits.

(** ** The syntax tree delivered by the parser front-end

    What the program reads of a node of the ANTLR parse tree, a
    [ParserRuleContext] or a terminal node ([TerminalNodeImpl], which
    includes error nodes): its text, its children, its parent, the line
    and column of its start token, the line of its stop token, whether it
    is a [QualifiedNameContext] (for [ctx.qualifiedName()]), and whether
    it is a terminal node.  A rule context without children has
    [self.children = None] (the runtime creates the list with the first
    child); a terminal node has no children. *)
Inductive ParserRuleContext := Ctx {
  getText : string;
  children : list ParserRuleContext;
  parentCtx : option ParserRuleContext;
  start_line : Z;
  start_column : Z;
  stop_line : Z;
  isQualifiedName : bool;
  isTerminal : bool
}.

(** [ctx.getChild(i)].  [ParserRuleContext.getChild] is
    [self.children[i] if len(self.children) > i else None]: the child,
    [None] out of range, and [TypeError] from [len(None)] on a rule context
    without children.  [TerminalNodeImpl.getChild] returns [None]. *)
Definition getChild (ctx : ParserRuleContext) (i : nat)
  : result (option ParserRuleContext) :=
  match children ctx with
  | [] => if isTerminal ctx then Return None else Raise TypeError
  | cs => Return (cs !! i)
  end.

Definition getChildCount (ctx : ParserRuleContext) : nat :=
  List.length (children ctx).

(** [ctx.qualifiedName()]: the first child that is a qualified name. *)
Definition qualifiedName (ctx : ParserRuleContext) : option ParserRuleContext :=
  List.find isQualifiedName (children ctx).

(** [ctx.depth()]: the number of nodes on the parent chain, the node
    included. *)
Fixpoint depth (ctx : ParserRuleContext) : Z :=
  match parentCtx ctx with
  | None => 1
  | Some p => 1 + depth p
  end.

(** ** The program model *)

Module ParmType.
Record t := mk { name : string; type : string }.
End ParmType.

Module FieldType.
Record t := mk { type : string; define : string }.
End FieldType.

Module Statement.
Record t := mk { value : string; line : Z; column : Z }.
End Statement.

Module JavaMethod.
Record t := mk {
  name : string;
  start : Z;
  stop : Z;
  depth : Z;
  parameters : list ParmType.t;
  return_type : string;
  statements : list Statement.t
}.

Definition append_statement (s : Statement.t) (m : t) : t :=
  mk (name m) (start m) (stop m) (depth m) (parameters m) (return_type m)
     (statements m ++ [s]).
End JavaMethod.

(** A [JavaClass] object.  [methods] maps a method name to the identity of
    a [JavaMethod] object. *)
Module JavaClass.
Record t := mk {
  name : string;
  extends : string;
  implements : str_or_list;
  fields : list FieldType.t;
  methods : dict nat;
  statements : list Statement.t
}.

(** [JavaClass(name=..., extends=..., implements=...)]. *)
Definition init (name extends : string) (implements : str_or_list) : t :=
  mk name extends implements [] [] [].

Definition append_field (f : FieldType.t) (c : t) : t :=
  mk (name c) (extends c) (implements c) (fields c ++ [f]) (methods c)
     (statements c).

Definition append_statement (s : Statement.t) (c : t) : t :=
  mk (name c) (extends c) (implements c) (fields c) (methods c)
     (statements c ++ [s]).

Definition set_method (k : string) (m : nat) (c : t) : t :=
  mk (name c) (extends c) (implements c) (fields c)
     (dict_set k m (methods c)) (statements c).
End JavaClass.

(** A [JavaFileAst] object.  [classes] maps a class name to the identity of
    a [JavaClass] object. *)
Module JavaFileAst.
Record t := mk {
  package_name : string;
  imports : list string;
  classes : dict nat
}.

Definition init : t := mk "" [] [].
End JavaFileAst.

(** ** Logging

    The module logger.  The log holds the records that pass the level set
    by [logging.basicConfig(level=logging.INFO)]; a [logger.debug] record is
    dropped there, after its message has been built. *)
Inductive levelname := INFO | WARNING | ERROR.

Definition LogRecord : Type := levelname * string.

(** ** The listener *)

(** The state of a [CollectListener]: its four attributes, the store of
    the [JavaClass] and [JavaMethod] objects created so far (an identity
    below [next_class], [next_method] is allocated), and the records it has
    logged. *)
Record CollectListener := mkListener {
  _ast : JavaFileAst.t;
  _deep_class : gmap Z nat;
  _deep : Z;
  _current_method : option nat;
  class_objs : nat -> JavaClass.t;
  next_class : nat;
  method_objs : nat -> JavaMethod.t;
  next_method : nat;
  logged : list LogRecord
}.

(** [CollectListener()]. *)
Definition CollectListener_init : CollectListener :=
  mkListener JavaFileAst.init ∅ 0 None
             (fun _ => JavaClass.init "" "" (PyStr "")) 0%nat
             (fun _ => JavaMethod.mk "" 0 0 0 [] "" []) 0%nat
             [].

Definition set_ast (a : JavaFileAst.t) (s : CollectListener) : CollectListener :=
  mkListener a (_deep_class s) (_deep s) (_current_method s)
             (class_objs s) (next_class s) (method_objs s) (next_method s) (logged s).

Definition set_deep_class (m : gmap Z nat) (s : CollectListener) : CollectListener :=
  mkListener (_ast s) m (_deep s) (_current_method s)
             (class_objs s) (next_class s) (method_objs s) (next_method s) (logged s).

Definition set_deep (d : Z) (s : CollectListener) : CollectListener :=
  mkListener (_ast s) (_deep_class s) d (_current_method s)
             (class_objs s) (next_class s) (method_objs s) (next_method s) (logged s).

Definition set_current_method (m : option nat) (s : CollectListener) : CollectListener :=
  mkListener (_ast s) (_deep_class s) (_deep s) m
             (class_objs s) (next_class s) (method_objs s) (next_method s) (logged s).

(** Mutation of the [JavaClass] object [r]. *)
Definition update_class (r : nat) (f : JavaClass.t -> JavaClass.t) (s : CollectListener)
  : CollectListener :=
  mkListener (_ast s) (_deep_class s) (_deep s) (_current_method s)
             (fun r' => if Nat.eqb r' r then f (class_objs s r) else class_objs s r')
             (next_class s) (method_objs s) (next_method s) (logged s).

(** Mutation of the [JavaMethod] object [r]. *)
Definition update_method (r : nat) (f : JavaMethod.t -> JavaMethod.t) (s : CollectListener)
  : CollectListener :=
  mkListener (_ast s) (_deep_class s) (_deep s) (_current_method s)
             (class_objs s) (next_class s)
             (fun r' => if Nat.eqb r' r then f (method_objs s r) else method_objs s r')
             (next_method s) (logged s).

(** Creation of a [JavaClass] object: its identity is [next_class]. *)
Definition add_class (c : JavaClass.t) (s : CollectListener) : CollectListener :=
  mkListener (_ast s) (_deep_class s) (_deep s) (_current_method s)
             (fun r' => if Nat.eqb r' (next_class s) then c else class_objs s r')
             (S (next_class s)) (method_objs s) (next_method s) (logged s).

(** Creation of a [JavaMethod] object: its identity is [next_method]. *)
Definition add_method (m : JavaMethod.t) (s : CollectListener) : CollectListener :=
  mkListener (_ast s) (_deep_class s) (_deep s) (_current_method s)
             (class_objs s) (next_class s)
             (fun r' => if Nat.eqb r' (next_method s) then m else method_objs s r')
             (S (next_method s)) (logged s).

(** [logger.warning(msg)], [logger.info(msg)], [logger.error(msg)]. *)
Definition emit (l : levelname) (msg : string) (s : CollectListener) : CollectListener :=
  mkListener (_ast s) (_deep_class s) (_deep s) (_current_method s)
             (class_objs s) (next_class s) (method_objs s) (next_method s)
             (logged s ++ [(l, msg)]).

(** [logger.debug(msg)]: the record is below the threshold. *)
Definition logger_debug (msg : string) : result unit := Return tt.

(** [print_stage]: the caller builds [stage] (an f-string, which may
    raise), then the record goes to [logger.debug]. *)
Definition print_stage (self : CollectListener) (stage : result string) : result unit :=
  let! stage := stage in
  logger_debug ("deep=" +:+ pretty (_deep self) +:+ " - " +:+ stage).

(** [o.getText()] where [o] may be [None]. *)
Definition text_of (o : option ParserRuleContext) : result string :=
  let! c := getattr o in Return (getText c).

(** [ctx.getChild(i)] as the receiver of a method call. *)
Definition child (ctx : ParserRuleContext) (i : nat) : result ParserRuleContext :=
  let! o := getChild ctx i in getattr o.

(** [ctx.getChild(i).getText()]. *)
Definition child_text (ctx : ParserRuleContext) (i : nat) : result string :=
  let! o := getChild ctx i in text_of o.

(** ** Structural decoders *)

Definition parse_implements_block (self : CollectListener) (ctx : ParserRuleContext)
  : result (list string) :=
  let! _ := print_stage self (Return ("parse_implements_block: " +:+ getText ctx)) in
  let implements_child_count := getChildCount ctx in
  let result := [] in
  if Nat.eqb implements_child_count 1 then
    let! impl_class := child_text ctx 0 in
    Return (result ++ [impl_class])
  else if Nat.ltb 1 implements_child_count then
    for_range (fun i result =>
                 if Nat.eqb (i mod 2) 0 then
                   let! impl_class := child_text ctx i in
                   Return (result ++ [impl_class])
                 else Return result)
              (seq 0 implements_child_count) result
  else Return result.

Definition parse_class_block (self : CollectListener) (ctx : ParserRuleContext)
  : result (string * string * str_or_list) :=
  let! _ := print_stage self
              (let! c1 := child_text ctx 1 in
               Return ("parse_class_block: " +:+ c1)) in
  let child_count := getChildCount ctx in
  let class_name := "" in
  let extends := "" in
  let implements := PyStr "" in
  let! '(class_name, extends, implements) :=
    if Nat.eqb child_count 7 then
      let! class_name := child_text ctx 1 in
      let! c3 := child ctx 3 in
      let! extends := child_text c3 0 in
      let! c5 := child ctx 5 in
      let! implements := parse_implements_block self c5 in
      Return (class_name, extends, PyList implements)
    else if Nat.eqb child_count 5 then
      let! class_name := child_text ctx 1 in
      let! c3 := child_text ctx 2 in
      if String.eqb c3 "implements" then
        let! c := child ctx 3 in
        let! implements := parse_implements_block self c in
        Return (class_name, extends, PyList implements)
      else if String.eqb c3 "extends" then
        let! c := child ctx 3 in
        let! extends := child_text c 0 in
        Return (class_name, extends, implements)
      else Return (class_name, extends, implements)
    else if Nat.eqb child_count 3 then
      let! class_name := child_text ctx 1 in
      Return (class_name, extends, implements)
    else if Nat.eqb child_count 2 then
      let! r := getitem (_deep_class self !! _deep self) in
      Return (JavaClass.name (class_objs self r), extends, implements)
    else Return (class_name, extends, implements) in
  if String.eqb class_name "" then Raise (Exception "Class name is not found")
  else Return (class_name, extends, implements).

Definition parse_method_params_block (self : CollectListener) (ctx : ParserRuleContext)
  : result (list ParmType.t) :=
  let! _ := print_stage self (Return ("parse_method_params_block: " +:+ getText ctx)) in
  let params_exist_check := getChildCount ctx in
  let result := [] in
  if Nat.eqb params_exist_check 3 then
    let! c1 := child ctx 1 in
    let params_child_count := getChildCount c1 in
    if Nat.eqb params_child_count 1 then
      let! p := child c1 0 in
      let! param_type := child_text p 0 in
      let! param_name := child_text p 1 in
      Return (result ++ [ParmType.mk param_name param_type])
    else if Nat.ltb 1 params_child_count then
      for_range (fun i result =>
                   if Nat.eqb (i mod 2) 0 then
                     let! p := child c1 i in
                     let! param_type := child_text p 0 in
                     let! param_name := child_text p 1 in
                     Return (result ++ [ParmType.mk param_name param_type])
                   else Return result)
                (seq 0 params_child_count) result
    else Return result
  else Return result.

(** ** Listener callbacks

    A callback reads and mutates the listener and may raise: it maps the
    listener to the listener at the point where it returned or raised,
    and the outcome. *)
Definition M (A : Type) : Type := CollectListener -> CollectListener * result A.

Definition mbind {A B} (m : M A) (k : A -> M B) : M B :=
  fun self =>
    match m self with
    | (self', Return a) => k a self'
    | (self', Raise e) => (self', Raise e)
    end.

(** Evaluation of an expression over the current listener. *)
Definition eval {A} (f : CollectListener -> result A) : M A :=
  fun self => (self, f self).

(** A statement that mutates the listener. *)
Definition exec (f : CollectListener -> CollectListener) : M unit :=
  fun self => (f self, Return tt).

Definition alloc_class (c : JavaClass.t) : M nat :=
  fun self => (add_class c self, Return (next_class self)).

Definition alloc_method (m : JavaMethod.t) : M nat :=
  fun self => (add_method m self, Return (next_method self)).

Notation "'let*' x ':=' m 'in' k" := (mbind m (fun x => k))
  (at level 10, x name, m at level 100, k at level 200).
Notation "'let*' ' p ':=' m 'in' k" := (mbind m (fun 'p => k))
  (at level 10, p pattern, m at level 100, k at level 200).

(** [self._ast.classes[name] = r]. *)
Definition set_class (name : string) (r : nat) (a : JavaFileAst.t) : JavaFileAst.t :=
  JavaFileAst.mk (JavaFileAst.package_name a) (JavaFileAst.imports a)
                 (dict_set name r (JavaFileAst.classes a)).

(** [self._deep_class[self._deep]]. *)
Definition deep_class_at_deep (self : CollectListener) : result nat :=
  getitem (_deep_class self !! _deep self).

(** [self._ast.classes[name]]. *)
Definition classes_getitem (name : string) (self : CollectListener) : result nat :=
  getitem (dict_get name (JavaFileAst.classes (_ast self))).

Definition enterPackageDeclaration (ctx : ParserRuleContext) : M unit :=
  let* _ := eval (fun self => print_stage self
              (Return ("enterPackageDeclaration: " +:+ pretty (start_line ctx)
                       +:+ " " +:+ getText ctx))) in
  let* name := eval (fun _ => text_of (qualifiedName ctx)) in
  exec (fun self =>
          set_ast (JavaFileAst.mk name (JavaFileAst.imports (_ast self))
                                  (JavaFileAst.classes (_ast self))) self).

Definition exitPackageDeclaration (ctx : ParserRuleContext) : M unit :=
  eval (fun self => print_stage self
          (Return ("exitPackageDeclaration: " +:+ pretty (start_line ctx)
                   +:+ " " +:+ getText ctx))).

Definition enterImportDeclaration (ctx : ParserRuleContext) : M unit :=
  let* _ := eval (fun self => print_stage self
              (Return ("enterImportDeclaration: " +:+ pretty (start_line ctx)
                       +:+ " " +:+ getText ctx))) in
  let* name := eval (fun _ => text_of (qualifiedName ctx)) in
  exec (fun self =>
          set_ast (JavaFileAst.mk (JavaFileAst.package_name (_ast self))
                                  (JavaFileAst.imports (_ast self) ++ [name])
                                  (JavaFileAst.classes (_ast self))) self).

Definition enterClassDeclaration (ctx : ParserRuleContext) : M unit :=
  let* _ := eval (fun self => print_stage self
              (let! c1 := child_text ctx 1 in
               Return ("enterClassDeclaration: " +:+ pretty (start_line ctx)
                       +:+ " " +:+ c1))) in
  let* '(name, extends, implements) := eval (fun self => parse_class_block self ctx) in
  let* _ := exec (fun self => set_deep (_deep self + 1) self) in
  let* r := alloc_class (JavaClass.init name extends implements) in
  let* _ := exec (fun self => set_ast (set_class name r (_ast self)) self) in
  let* r' := eval (classes_getitem name) in
  exec (fun self => set_deep_class (<[_deep self := r']> (_deep_class self)) self).

Definition exitClassDeclaration (ctx : ParserRuleContext) : M unit :=
  let* _ := eval (fun self => print_stage self
              (let! c1 := child_text ctx 1 in
               Return ("exitClassDeclaration: " +:+ pretty (start_line ctx)
                       +:+ " " +:+ c1))) in
  let* _ := eval deep_class_at_deep in
  let* _ := exec (fun self => set_deep_class (delete (_deep self) (_deep_class self)) self) in
  exec (fun self => set_deep (_deep self - 1) self).

Definition enterFieldDeclaration (ctx : ParserRuleContext) : M unit :=
  let* _ := eval (fun self => print_stage self
              (Return ("enterFieldDeclaration: " +:+ pretty (start_line ctx)
                       +:+ " " +:+ getText ctx))) in
  let* '(class_name, _extends, _implements) := eval (fun self =>
              let! p1 := getattr (parentCtx ctx) in
              let! p2 := getattr (parentCtx p1) in
              let! p3 := getattr (parentCtx p2) in
              let! p4 := getattr (parentCtx p3) in
              parse_class_block self p4) in
  let* current_class := eval deep_class_at_deep in
  let* current_name := eval (fun self =>
              Return (JavaClass.name (class_objs self current_class))) in
  if negb (String.eqb class_name current_name) then
    eval (fun _ => Raise (Exception ("Class name is " +:+ class_name
                                     +:+ " is not equal " +:+ current_name)))
  else
    let* target := eval (classes_getitem current_name) in
    let* type_ := eval (fun _ => child_text ctx 0) in
    let* define_ := eval (fun _ => child_text ctx 1) in
    exec (update_class target (JavaClass.append_field (FieldType.mk type_ define_))).

Definition enterMethodDeclaration (ctx : ParserRuleContext) : M unit :=
  let* method_name := eval (fun _ => child_text ctx 1) in
  let* _ := eval (fun self => print_stage self
              (Return ("enterMethodDeclaration: " +:+ pretty (start_line ctx)
                       +:+ " " +:+ method_name))) in
  let* current_class := eval deep_class_at_deep in
  let* present := eval (fun self =>
              Return (dict_contains method_name
                        (JavaClass.methods (class_objs self current_class)))) in
  if negb present then
    let* return_type := eval (fun _ => child_text ctx 0) in
    let* parameters := eval (fun self =>
              let! c2 := child ctx 2 in
              parse_method_params_block self c2) in
    let* m := alloc_method (JavaMethod.mk method_name (start_line ctx) (stop_line ctx)
                                          (depth ctx) parameters return_type []) in
    let* current_name := eval (fun self =>
              Return (JavaClass.name (class_objs self current_class))) in
    let* target := eval (classes_getitem current_name) in
    let* _ := exec (update_class target (JavaClass.set_method method_name m)) in
    (* set current method *)
    let* target' := eval (classes_getitem current_name) in
    let* m' := eval (fun self =>
              getitem (dict_get method_name (JavaClass.methods (class_objs self target')))) in
    exec (set_current_method (Some m'))
  else
    exec (emit WARNING (method_name +:+ " is a overloading, ignore it in this version.")).

Definition exitMethodDeclaration (ctx : ParserRuleContext) : M unit :=
  let* _ := eval (fun self => print_stage self
              (let! c1 := child_text ctx 1 in
               Return ("exitMethodDeclaration: " +:+ pretty (start_line ctx)
                       +:+ " " +:+ c1))) in
  (* reset current method *)
  exec (set_current_method None).

Definition enterMethodCall (ctx : ParserRuleContext) : M unit :=
  let* _ := eval (fun self => print_stage self
              (Return ("enterMethodCall: " +:+ pretty (start_line ctx)
                       +:+ " " +:+ getText ctx))) in
  let* value := eval (fun _ => child_text ctx 0) in
  let statement := Statement.mk value (start_line ctx) (start_column ctx) in
  let* current_method := eval (fun self => Return (_current_method self)) in
  match current_method with
  | None =>
      let* current_class := eval deep_class_at_deep in
      let* current_name := eval (fun self =>
                Return (JavaClass.name (class_objs self current_class))) in
      let* target := eval (classes_getitem current_name) in
      exec (update_class target (JavaClass.append_statement statement))
  | Some m =>
      exec (update_method m (JavaMethod.append_statement statement))
  end.

Definition enterEnumDeclaration (ctx : ParserRuleContext) : M unit :=
  let* _ := eval (fun self => print_stage self
              (Return "enterEnumDeclaration as enterClassDeclaration")) in
  enterClassDeclaration ctx.

Definition exitEnumDeclaration (ctx : ParserRuleContext) : M unit :=
  let* _ := eval (fun self => print_stage self
              (Return "exitEnumDeclaration as exitClassDeclaration")) in
  exitClassDeclaration ctx.

(** ** The notification stream

    The callbacks of [CollectListener] that the tree walker invokes, in the
    order of its depth-first walk.  The callbacks the listener inherits
    unchanged from [JavaParserListener] do nothing and are left out. *)
Inductive notification :=
| EnterPackageDeclaration (ctx : ParserRuleContext)
| ExitPackageDeclaration (ctx : ParserRuleContext)
| EnterImportDeclaration (ctx : ParserRuleContext)
| EnterClassDeclaration (ctx : ParserRuleContext)
| ExitClassDeclaration (ctx : ParserRuleContext)
| EnterFieldDeclaration (ctx : ParserRuleContext)
| EnterMethodDeclaration (ctx : ParserRuleContext)
| ExitMethodDeclaration (ctx : ParserRuleContext)
| EnterMethodCall (ctx : ParserRuleContext)
| EnterEnumDeclaration (ctx : ParserRuleContext)
| ExitEnumDeclaration (ctx : ParserRuleContext).

Definition notify (n : notification) : M unit :=
  match n with
  | EnterPackageDeclaration ctx => enterPackageDeclaration ctx
  | ExitPackageDeclaration ctx => exitPackageDeclaration ctx
  | EnterImportDeclaration ctx => enterImportDeclaration ctx
  | EnterClassDeclaration ctx => enterClassDeclaration ctx
  | ExitClassDeclaration ctx => exitClassDeclaration ctx
  | EnterFieldDeclaration ctx => enterFieldDeclaration ctx
  | EnterMethodDeclaration ctx => enterMethodDeclaration ctx
  | ExitMethodDeclaration ctx => exitMethodDeclaration ctx
  | EnterMethodCall ctx => enterMethodCall ctx
  | EnterEnumDeclaration ctx => enterEnumDeclaration ctx
  | ExitEnumDeclaration ctx => exitEnumDeclaration ctx
  end.

(** [walker.walk(listener, tree)]: the callbacks in order, up to the first
    one that raises. *)
Fixpoint walk (stream : list notification) : M unit :=
  match stream with
  | [] => fun self => (self, Return tt)
  | n :: rest => let* _ := notify n in walk rest
  end.

(** ** The graph renderer *)

Definition dquote : string := String "034"%char EmptyString.
Definition newline : string := String "010"%char EmptyString.

(** [f'"{name}"']. *)
Definition node_stmt (name : string) : string := dquote +:+ name +:+ dquote.

(** [f'"{a}" -> "{b}";']. *)
Definition edge_stmt (a b : string) : string :=
  dquote +:+ a +:+ dquote +:+ " -> " +:+ dquote +:+ b +:+ dquote +:+ ";".

(** ['\n'.join(lines)]. *)
Definition join_lines (lines : list string) : string := String.concat newline lines.

Section Render.
(** The object store the model's identities refer to. *)
Variable class_of : nat -> JavaClass.t.
Variable method_of : nat -> JavaMethod.t.

(** The list [digraph] that [JavaFileAst.dot] builds, one [append] at a
    time. *)
Definition dot_digraph (ast : JavaFileAst.t) : list string :=
  let digraph := ["digraph " +:+ node_stmt "callGraph" +:+ " {"] in
  let digraph :=
    fold_left (fun digraph '(name, r) =>
      let class_ := class_of r in
      let digraph := digraph ++ [node_stmt name] in
      let digraph :=
        fold_left (fun digraph stmt =>
                     digraph ++ [edge_stmt name (Statement.value stmt)])
                  (JavaClass.statements class_) digraph in
      fold_left (fun digraph '(method_name, m) =>
        let method := method_of m in
        let digraph := digraph ++ [node_stmt method_name] in
        let digraph := digraph ++ [edge_stmt name method_name] in
        fold_left (fun digraph stmt =>
                     digraph ++ [edge_stmt method_name (Statement.value stmt)])
                  (JavaMethod.statements method) digraph)
        (JavaClass.methods class_) digraph)
      (JavaFileAst.classes ast) digraph in
  let digraph := digraph ++ ["}"] in
  digraph.

(** [JavaFileAst.dot]. *)
Definition dot (ast : JavaFileAst.t) : string := join_lines (dot_digraph ast).

(** The rendering as section 6 of the specification words it: per class
    a node statement, an edge per direct statement, then per method a
    node statement, the class-to-method edge and an edge per statement
    of the method. *)
Definition method_block (class_name : string) (entry : string * nat) : list string :=
  let method := method_of (snd entry) in
  [node_stmt (fst entry); edge_stmt class_name (fst entry)]
    ++ map (fun stmt => edge_stmt (fst entry) (Statement.value stmt))
           (JavaMethod.statements method).

Definition class_block (entry : string * nat) : list string :=
  let class_ := class_of (snd entry) in
  [node_stmt (fst entry)]
    ++ map (fun stmt => edge_stmt (fst entry) (Statement.value stmt))
           (JavaClass.statements class_)
    ++ flat_map (method_block (fst entry)) (JavaClass.methods class_).

Definition graph_statements (ast : JavaFileAst.t) : list string :=
  ["digraph " +:+ node_stmt "callGraph" +:+ " {"]
    ++ flat_map class_block (JavaFileAst.classes ast)
    ++ ["}"].

(** The number of statements recorded in the model: the direct ones of
    every class and the ones of every method. *)
Definition recorded_statements (ast : JavaFileAst.t) : nat :=
  list_sum (map (fun entry : string * nat =>
              let class_ := class_of (snd entry) in
              (List.length (JavaClass.statements class_)
               + list_sum (map (fun m : string * nat =>
                                  List.length (JavaMethod.statements (method_of (snd m))))
                               (JavaClass.methods class_)))%nat)
            (JavaFileAst.classes ast)).

Definition recorded_methods (ast : JavaFileAst.t) : nat :=
  list_sum (map (fun entry : string * nat =>
                   List.length (JavaClass.methods (class_of (snd entry))))
                (JavaFileAst.classes ast)).
End Render.

(** [listener.get_ast().dot]. *)
Definition get_ast_dot (listener : CollectListener) : string :=
  dot (class_objs listener) (method_objs listener) (_ast listener).

(** ** The per-file pipeline and the batch *)

(** What the file system holds at a path, as far as the program can
    tell: a regular file that can be written, with its content; something
    that is not a regular file and accepts writes (a device such as
    [/dev/null], also behind a symbolic link); or a path at which opening
    for writing is refused (a directory, a file without write permission,
    a free path in a directory that cannot be written), with whether a
    regular file is there.  A path that the file system does not hold is
    free: nothing is there, and a file can be created. *)
Inductive entry :=
| Regular (content : string)
| Special
| Refused (regular : bool).

(** The file system and the log of the process. *)
Record world := mkWorld {
  files : gmap string entry;
  log : list LogRecord
}.

(** [Path]: the path without its last suffix, and the suffix. *)
Record Path := mkPath { stem : string; suffix : string }.

Definition with_suffix (p : Path) (s : string) : Path := mkPath (stem p) s.
Definition str (p : Path) : string := stem p +:+ suffix p.

(** [p.is_file()]: the path exists and is a regular file. *)
Definition is_file (p : Path) (w : world) : bool :=
  match files w !! str p with
  | Some (Regular _) => true
  | Some (Refused regular) => regular
  | Some Special => false
  | None => false
  end.

(** [with open(path, mode='w') as f: f.write(content)]: a new or a
    regular file holds the content afterwards; what is written to another
    kind of file leaves the file system as it is. *)
Definition write_text (path content : string) (fs : gmap string entry)
  : result (gmap string entry) :=
  match fs !! path with
  | Some (Refused _) => Raise OSError
  | Some Special => Return fs
  | Some (Regular _) => Return (<[path := Regular content]> fs)
  | None => Return (<[path := Regular content]> fs)
  end.

(** A source file: its path and the notification stream that parsing and
    walking it delivers to the listener. *)
Record source_file := mkSource {
  src_path : Path;
  src_stream : list notification
}.

(** [JavaCallGraph.process]: walk, and only then write the rendering.  The
    records the listener logged go to the process log in either case. *)
Definition process (stream : list notification) (output_path : option string)
                   (w : world) : world * result unit :=
  let listener := CollectListener_init in
  let (listener, outcome) := walk stream listener in
  let w := mkWorld (files w) (log w ++ logged listener) in
  match outcome with
  | Raise e => (w, Raise e)
  | Return _ =>
      match output_path with
      | Some path =>
          if String.eqb path "" then (w, Return tt)
          else
            match write_text path (get_ast_dot listener) (files w) with
            | Return fs => (mkWorld fs (log w), Return tt)
            | Raise e => (w, Raise e)
            end
      | None => (w, Return tt)
      end
  end.

(** [JavaCallGraph.create].  [percent] is the f-string built in [main]. *)
Definition create (src : source_file) (output_path : Path) (percent : string)
                  (w : world) : world * result unit :=
  match process (src_stream src) (Some (str output_path)) w with
  | (w, Raise e) => (w, Raise e)
  | (w, Return _) =>
      if negb (is_file output_path w) then
        (mkWorld (files w)
                 (log w ++ [(ERROR, "[" +:+ percent +:+ "] create java callgraph failed for "
                                    +:+ str (src_path src))]),
         Return tt)
      else
        (mkWorld (files w)
                 (log w ++ [(INFO, "[" +:+ percent +:+ "] create java callgraph success for "
                                   +:+ str (src_path src))]),
         Return tt)
  end.

(** A task of [main]: the arguments of one call of [create]. *)
Record task := mkTask {
  task_src : source_file;
  task_output : Path;
  task_percent : string
}.

(** The executor job of a task: the call of [process] that [create] hands
    to a worker thread with [run_in_executor]. *)
Definition executor_job (t : task) (w : world) : world * result unit :=
  process (src_stream (task_src t)) (Some (str (task_output t))) w.

(** The jobs of cancelled tasks: a worker thread is not interrupted, so
    the job runs to its end; nobody awaits its outcome. *)
Fixpoint run_cancelled (tasks : list task) (w : world) : world :=
  match tasks with
  | [] => w
  | t :: rest => run_cancelled rest (fst (executor_job t w))
  end.

(** [asyncio.gather] of the tasks, as awaited by [main], and the end of
    [asyncio.run], for executor jobs that complete one after another in
    the order [tasks].  A [create] whose job has returned goes on to its
    report.  The first exception is raised in [main]; [asyncio.run] then
    cancels the calls of [create] that still wait for their job, which
    therefore report nothing, while the jobs themselves complete in their
    threads. *)
Fixpoint gather (tasks : list task) (w : world) : world * result unit :=
  match tasks with
  | [] => (w, Return tt)
  | t :: rest =>
      match create (task_src t) (task_output t) (task_percent t) w with
      | (w, Raise e) => (run_cancelled rest w, Raise e)
      | (w, Return _) => gather rest w
      end
  end.

(** [main]: one task per file of the batch.  [completion] lists the
    positions in [batch] of the tasks whose jobs run, in the order in
    which the jobs complete; a position it leaves out is a job that was
    cancelled while it waited in the queue of the executor, which can
    happen only after an exception has been raised. *)
Definition main (batch : list source_file) (completion : list nat) (w : world)
  : world * result unit :=
  let tasks :=
    imap (fun index src =>
            mkTask src (with_suffix (src_path src) ".dot")
                   (pretty (index + 1)%nat +:+ "/" +:+ pretty (List.length batch)))
         batch in
  gather (omap (fun i => tasks !! i) completion) w.

(** ** Auxiliary notions for stating the properties *)

(** The elements of a list at the even positions ([pick true]) or at the
    odd positions ([pick false]), in order. *)
Fixpoint pick {A} (even : bool) (l : list A) : list A :=
  match l with
  | [] => []
  | x :: l' => if even then x :: pick false l' else pick true l'
  end.

(** The states the listener is in after a processed notification: the
    ones a stream of callbacks that all returned leads to from a new
    listener. *)
Definition reachable (self : CollectListener) : Prop :=
  exists stream, walk stream CollectListener_init = (self, Return tt).

(** The number of entries of a dictionary under a key. *)
Definition entries_under {V} (k : string) (d : dict V) : nat :=
  List.length (List.filter (fun entry => String.eqb k (fst entry)) d).

(** The consistency of the listener's object graph: the class names
    registered in the model are distinct; an entry of the model refers to
    a created object that carries the entry's name; a created class has a
    non-empty name which is registered in the model, and distinct method
    names; the classes held per depth are created objects. *)
Record consistent (self : CollectListener) : Prop := mkConsistent {
  consistent_keys :
    NoDup (dict_keys (JavaFileAst.classes (_ast self)));
  consistent_entries : forall k r,
    dict_get k (JavaFileAst.classes (_ast self)) = Some r ->
    (r < next_class self)%nat /\ JavaClass.name (class_objs self r) = k;
  consistent_objects : forall r,
    (r < next_class self)%nat ->
    JavaClass.name (class_objs self r) <> ""
    /\ dict_contains (JavaClass.name (class_objs self r))
                     (JavaFileAst.classes (_ast self)) = true
    /\ NoDup (dict_keys (JavaClass.methods (class_objs self r)));
  consistent_open : forall d r,
    _deep_class self !! d = Some r -> (r < next_class self)%nat
}.

(** ** Sample trees

    Parse trees of small Java sources, as far as the listener reads them. *)
Module Sample.
Definition token (text : string) : ParserRuleContext :=
  Ctx text [] None 1 0 1 false true.

Definition node (text : string) (children : list ParserRuleContext)
                (parent : option ParserRuleContext) : ParserRuleContext :=
  Ctx text children parent 1 0 1 false false.

(** [class A {}] *)
Definition class_A : ParserRuleContext :=
  node "classA{}" [token "class"; token "A"; token "{}"] None.

(** [class B {}] *)
Definition class_B : ParserRuleContext :=
  node "classB{}" [token "class"; token "B"; token "{}"] None.

(** [class A<T> {}]: the type parameters are a fourth child. *)
Definition class_generic : ParserRuleContext :=
  node "classA<T>{}" [token "class"; token "A"; token "<T>"; token "{}"] None.

(** The two-child header [arguments classBody] of an anonymous class
    body. *)
Definition class_rest : ParserRuleContext :=
  node "(){}" [token "()"; token "{}"] None.

(** [A, B, C] as a type list. *)
Definition type_list : ParserRuleContext :=
  node "A,B,C" [token "A"; token ","; token "B"; token ","; token "C"] None.

(** [void m() {}] and [int m(int x) {}]. *)
Definition method_m : ParserRuleContext :=
  node "voidm(){}"
       [token "void"; token "m"; node "()" [token "("; token ")"] None; token "{}"]
       None.

Definition method_m_int : ParserRuleContext :=
  node "intm(intx){}"
       [token "int"; token "m";
        node "(intx)" [token "(";
                       node "intx" [node "intx" [token "int"; token "x"] None] None;
                       token ")"] None;
        token "{}"]
       None.

(** [foo()] *)
Definition call_foo : ParserRuleContext :=
  node "foo()" [token "foo"; token "("; token ")"] None.

(** [int x;] in the body of [class A]: the chain of parents is the
    member declaration, the class body declaration, the class body and
    the class declaration. *)
Definition body_A : ParserRuleContext := node "{intx;}" [] (Some class_A).
Definition body_decl_A : ParserRuleContext := node "intx;" [] (Some body_A).
Definition member_A : ParserRuleContext := node "intx;" [] (Some body_decl_A).
Definition field_x : ParserRuleContext :=
  node "intx;" [token "int"; token "x"; token ";"] (Some member_A).

(** [int x;] whose fourth ancestor is the header of [class B]. *)
Definition field_x_in_B : ParserRuleContext :=
  node "intx;" [token "int"; token "x"; token ";"]
       (Some (node "intx;" []
         (Some (node "intx;" []
           (Some (node "{intx;}" []
             (Some class_B))))))).

(** [class A { class A {} ... }]: the listener after the inner
    declaration of the same name has been entered and left. *)
Definition shadowed_stream : list notification :=
  [EnterClassDeclaration class_A; EnterClassDeclaration class_A;
   ExitClassDeclaration class_A].

Definition shadowed : CollectListener :=
  fst (walk shadowed_stream CollectListener_init).

(** [class A { void m() {} ... }] after the method has been left. *)
Definition after_method_stream : list notification :=
  [EnterClassDeclaration class_A; EnterMethodDeclaration method_m;
   ExitMethodDeclaration method_m].

Definition after_method : CollectListener :=
  fst (walk after_method_stream CollectListener_init).

(** [class A { ...] with the class open. *)
Definition in_class_A : CollectListener :=
  fst (walk [EnterClassDeclaration class_A] CollectListener_init).

Definition empty_world : world := mkWorld ∅ [].

Definition good_file : source_file :=
  mkSource (mkPath "src/Good" ".java")
           [EnterClassDeclaration class_B; ExitClassDeclaration class_B].

Definition bad_file : source_file :=
  mkSource (mkPath "src/Bad" ".java")
           [EnterClassDeclaration class_generic; ExitClassDeclaration class_generic].
End Sample.

(** ** Further notions for stating properties *)

(** The parameter that a parameter node decodes to: the type is the text
    of its first child, the name the text of its second. *)
Definition decode_parameter (p : ParserRuleContext) : result ParmType.t :=
  let! param_type := child_text p 0 in
  let! param_name := child_text p 1 in
  Return (ParmType.mk param_name param_type).

(** The results of [f] over a list, left to right, up to the first
    exception. *)
Fixpoint traverse {A B} (f : A -> result B) (l : list A) : result (list B) :=
  match l with
  | [] => Return []
  | x :: l' =>
      let! y := f x in
      let! ys := traverse f l' in
      Return (y :: ys)
  end.

(** The statement recorded for the call node [call] whose first child is
    [c0]. *)
Definition statement_of (call c0 : ParserRuleContext) : Statement.t :=
  Statement.mk (getText c0) (start_line call) (start_column call).

(** The class header that [enterFieldDeclaration] derives again:
    [self.parse_class_block(ctx.parentCtx.parentCtx.parentCtx.parentCtx)]. *)
Definition rederived_class_block (self : CollectListener) (ctx : ParserRuleContext)
  : result (string * string * str_or_list) :=
  let! p1 := getattr (parentCtx ctx) in
  let! p2 := getattr (parentCtx p1) in
  let! p3 := getattr (parentCtx p2) in
  let! p4 := getattr (parentCtx p3) in
  parse_class_block self p4.

(** The records of a log that were logged at level [ERROR]. *)
Definition errors_of (records : list LogRecord) : list LogRecord :=
  List.filter (fun record => match fst record with ERROR => true | _ => false end)
              records.

(** A notification that opens or closes no class: any but the entry and
    the exit of a class or enum declaration. *)
Definition class_free (n : notification) : bool :=
  match n with
  | EnterClassDeclaration _ | ExitClassDeclaration _
  | EnterEnumDeclaration _ | ExitEnumDeclaration _ => false
  | _ => true
  end.

(** What the declaration of a method gave to its object: all but the
    statements, which the calls of the body add. *)
Definition declared (m : JavaMethod.t) : JavaMethod.t :=
  JavaMethod.mk (JavaMethod.name m) (JavaMethod.start m) (JavaMethod.stop m)
                (JavaMethod.depth m) (JavaMethod.parameters m)
                (JavaMethod.return_type m) [].

(** The order of creation in the scope tracker and in the model: a
    class held at a greater depth was created later, and the class that
    the model holds under the name of a created class was not created
    before that class. *)
Record ordered (self : CollectListener) : Prop := mkOrdered {
  ordered_scope : forall d d' x x',
    d < d' ->
    _deep_class self !! d = Some x -> _deep_class self !! d' = Some x' -> (x < x')%nat;
  ordered_model : forall x t,
    (x < next_class self)%nat ->
    dict_get (JavaClass.name (class_objs self x)) (JavaFileAst.classes (_ast self)) = Some t ->
    (x <= t)%nat
}.

(** The output path of a source file, as [main] derives it. *)
Definition output_of (src : source_file) : Path := with_suffix (src_path src) ".dot".

(** A path at which a regular file can be created or overwritten: there
    is nothing at the path, or a regular file that accepts writes. *)
Definition writable (w : world) (path : string) : Prop :=
  match files w !! path with
  | None => True
  | Some (Regular _) => True
  | Some Special => False
  | Some (Refused _) => False
  end.

(** The consistency of the scope tracker: the depth is not negative and
    the depths that hold a class are 1 up to the current depth. *)
Definition scope_consistent (self : CollectListener) : Prop :=
  0 <= _deep self
  /\ forall d, is_Some (_deep_class self !! d) <-> 1 <= d <= _deep self.

(** More parse trees. *)
Module Scenario.
(** [class A extends B implements C, D {}] *)
Definition class_full : ParserRuleContext :=
  Sample.node "classAextendsBimplementsC,D{}"
    [Sample.token "class"; Sample.token "A"; Sample.token "extends";
     Sample.node "B" [Sample.token "B"] None; Sample.token "implements";
     Sample.node "C,D" [Sample.token "C"; Sample.token ","; Sample.token "D"] None;
     Sample.token "{}"]
    None.

(** [class A extends B {}] *)
Definition class_extends : ParserRuleContext :=
  Sample.node "classAextendsB{}"
    [Sample.token "class"; Sample.token "A"; Sample.token "extends";
     Sample.node "B" [Sample.token "B"] None; Sample.token "{}"]
    None.

(** The formal parameters [(int x, String y)]. *)
Definition params_two : ParserRuleContext :=
  Sample.node "(intx,Stringy)"
    [Sample.token "(";
     Sample.node "intx,Stringy"
       [Sample.node "intx" [Sample.token "int"; Sample.token "x"] None;
        Sample.token ",";
        Sample.node "Stringy" [Sample.token "String"; Sample.token "y"] None]
       None;
     Sample.token ")"]
    None.

(** [int add(int x, String y) {}] *)
Definition method_add : ParserRuleContext :=
  Sample.node "intadd(intx,Stringy){}"
    [Sample.token "int"; Sample.token "add"; params_two; Sample.token "{}"] None.

(** [bar()] *)
Definition call_bar : ParserRuleContext :=
  Sample.node "bar()" [Sample.token "bar"; Sample.token "("; Sample.token ")"] None.

(** [import a.b;] and [import c;] *)
Definition qualified (name : string) : ParserRuleContext :=
  Ctx name [Sample.token name] None 1 0 1 true false.

Definition import_of (name : string) : ParserRuleContext :=
  Sample.node ("import" +:+ name +:+ ";")
    [Sample.token "import"; qualified name; Sample.token ";"] None.

(** A new listener. *)
Definition fresh : CollectListener := CollectListener_init.

(** [class A { void m() {] with the method open. *)
Definition in_method_stream : list notification :=
  [EnterClassDeclaration Sample.class_A; EnterMethodDeclaration Sample.method_m].

Definition in_method : CollectListener :=
  fst (walk in_method_stream CollectListener_init).

(** A stream that raises at its second notification. *)
Definition failing_stream : list notification :=
  [EnterClassDeclaration Sample.class_A; EnterClassDeclaration Sample.class_generic;
   ExitClassDeclaration Sample.class_generic].

(** [class A { void m() {} class A {} int m(int x) {} }] *)
Definition m_then_inner_stream : list notification :=
  [EnterClassDeclaration Sample.class_A;
   EnterMethodDeclaration Sample.method_m; ExitMethodDeclaration Sample.method_m;
   EnterClassDeclaration Sample.class_A; ExitClassDeclaration Sample.class_A;
   EnterMethodDeclaration Sample.method_m_int; ExitMethodDeclaration Sample.method_m_int;
   ExitClassDeclaration Sample.class_A].

(** [class A { class A {} void m() {} int m(int x) {} }] *)
Definition inner_then_two_m_stream : list notification :=
  [EnterClassDeclaration Sample.class_A;
   EnterClassDeclaration Sample.class_A; ExitClassDeclaration Sample.class_A;
   EnterMethodDeclaration Sample.method_m; ExitMethodDeclaration Sample.method_m;
   EnterMethodDeclaration Sample.method_m_int; ExitMethodDeclaration Sample.method_m_int;
   ExitClassDeclaration Sample.class_A].

(** What follows the declaration of [void m() { foo(); }] in
    [class A { void m() { foo(); } class B {} int x;
               int add(int x, String y) { bar(); } ... }],
    and the listener after it. *)
Definition between_m : list notification :=
  [EnterMethodCall Sample.call_foo; ExitMethodDeclaration Sample.method_m;
   EnterClassDeclaration Sample.class_B; ExitClassDeclaration Sample.class_B;
   EnterFieldDeclaration Sample.field_x;
   EnterMethodDeclaration method_add; EnterMethodCall call_bar;
   ExitMethodDeclaration method_add].

Definition before_second_m : CollectListener :=
  fst (walk (EnterMethodDeclaration Sample.method_m :: between_m) Sample.in_class_A).

(** A rule context that has no children. *)
Definition childless : ParserRuleContext := Sample.node "" [] None.

(** A rule context with the single child [class]. *)
Definition class_alone : ParserRuleContext :=
  Sample.node "class" [Sample.token "class"] None.

(** [class A extends {}], where the type after [extends] is a rule
    context without children. *)
Definition class_extends_nothing : ParserRuleContext :=
  Sample.node "classAextends{}"
    [Sample.token "class"; Sample.token "A"; Sample.token "extends";
     childless; Sample.token "{}"]
    None.

(** [int x;] in the body of [class A<T>], whose header has four
    children. *)
Definition field_in_generic : ParserRuleContext :=
  Sample.node "intx;" [Sample.token "int"; Sample.token "x"; Sample.token ";"]
    (Some (Sample.node "intx;" []
      (Some (Sample.node "intx;" []
        (Some (Sample.node "{intx;}" []
          (Some Sample.class_generic))))))).

(** A field declaration in the body of [class A] that consists of the
    type alone. *)
Definition field_type_only : ParserRuleContext :=
  Sample.node "int" [Sample.token "int"] (Some Sample.member_A).

(** The file system in which [src/Good.dot] is not a regular file (a
    symbolic link to [/dev/null]). *)
Definition special_world : world := mkWorld {[ "src/Good.dot" := Special ]} [].
End Scenario.

(** * Properties *)

(** ** Monad and dictionary lemmas *)

Lemma print_stage_Return self s : print_stage self (Return s) = Return tt.
Proof. reflexivity. Qed.

Lemma getChild_lookup ctx i :
  children ctx <> [] -> getChild ctx i = Return (children ctx !! i).
Proof. unfold getChild. by destruct (children ctx). Qed.

Lemma getChild_Some ctx i c :
  getChild ctx i = Return (Some c) <-> children ctx !! i = Some c.
Proof.
  unfold getChild. destruct (children ctx) as [|c0 cs] eqn:Hcs.
  - destruct (isTerminal ctx); split; intros H; by simplify_eq.
  - split; [by intros [= ->] | by intros ->].
Qed.

Lemma getChild_None_short ctx i :
  children ctx <> [] -> (List.length (children ctx) <= i)%nat ->
  getChild ctx i = Return None.
Proof.
  intros Hne Hle. rewrite getChild_lookup by done. f_equal.
  by apply lookup_ge_None.
Qed.

Lemma child_text_Some ctx i c :
  getChild ctx i = Return (Some c) -> child_text ctx i = Return (getText c).
Proof. unfold child_text. by intros ->. Qed.

Lemma child_Some ctx i c :
  getChild ctx i = Return (Some c) -> child ctx i = Return c.
Proof. unfold child. by intros ->. Qed.

Lemma child_text_lookup ctx i c :
  children ctx !! i = Some c -> child_text ctx i = Return (getText c).
Proof. intros H. by apply child_text_Some, getChild_Some. Qed.

Lemma child_lookup ctx i c :
  children ctx !! i = Some c -> child ctx i = Return c.
Proof. intros H. by apply child_Some, getChild_Some. Qed.

Lemma dict_get_set_eq {V} k (v : V) d : dict_get k (dict_set k v d) = Some v.
Proof.
  induction d as [|[k' v'] d IH]; simpl.
  - by rewrite String.eqb_refl.
  - destruct (String.eqb k k') eqn:E; simpl; rewrite ?String.eqb_refl, ?E; done.
Qed.

Lemma dict_get_set_ne {V} k k' (v : V) d :
  k <> k' -> dict_get k' (dict_set k v d) = dict_get k' d.
Proof.
  intros Hne. induction d as [|[k0 v0] d IH]; simpl.
  - apply String.eqb_neq in Hne. rewrite String.eqb_sym in Hne. by rewrite Hne.
  - destruct (String.eqb k k0) eqn:E; simpl.
    + apply String.eqb_eq in E. subst k0.
      destruct (String.eqb k' k) eqn:E'; [|done].
      apply String.eqb_eq in E'. congruence.
    + by rewrite IH.
Qed.

Lemma dict_keys_set {V} k (v : V) d :
  dict_keys (dict_set k v d)
  = if dict_contains k d then dict_keys d else dict_keys d ++ [k].
Proof.
  unfold dict_contains. induction d as [|[k' v'] d IH]; simpl; [done|].
  destruct (String.eqb k k') eqn:E; simpl.
  - apply String.eqb_eq in E. by subst.
  - rewrite IH. by destruct (dict_get k d).
Qed.

Lemma dict_get_None_keys {V} k (d : dict V) :
  dict_get k d = None <-> k ∉ dict_keys d.
Proof.
  induction d as [|[k' v'] d IH]; simpl.
  - split; [intros _; apply not_elem_of_nil | done].
  - rewrite not_elem_of_cons. destruct (String.eqb k k') eqn:E.
    + apply String.eqb_eq in E. split; [done | intros [? _]; done].
    + apply String.eqb_neq in E. rewrite IH. tauto.
Qed.

Lemma dict_set_NoDup {V} k (v : V) d :
  NoDup (dict_keys d) -> NoDup (dict_keys (dict_set k v d)).
Proof.
  intros Hd. rewrite dict_keys_set. unfold dict_contains.
  destruct (dict_get k d) eqn:E; [done|].
  apply NoDup_app. split_and!; [done | | apply NoDup_singleton].
  intros x Hx Hx'. apply list_elem_of_singleton in Hx'. subst x.
  by apply dict_get_None_keys in E.
Qed.

Lemma entries_under_NoDup {V} k (d : dict V) :
  NoDup (dict_keys d) -> dict_contains k d = true -> entries_under k d = 1%nat.
Proof.
  unfold dict_contains, entries_under.
  induction d as [|[k' v'] d IH]; simpl; [done|].
  intros Hd Hk. apply NoDup_cons in Hd as [Hnot Hd].
  destruct (String.eqb k k') eqn:E; simpl.
  - apply String.eqb_eq in E. subst k'.
    apply dict_get_None_keys in Hnot.
    assert (List.filter (fun entry : string * V => String.eqb k (fst entry)) d = []) as ->;
      [|done].
    clear -Hnot. induction d as [|[k0 v0] d IH]; simpl in *; [done|].
    destruct (String.eqb k k0); [done | by apply IH].
  - by apply IH.
Qed.

(** ** The implements-list decoder *)

Lemma mod2_even n : Nat.eqb (n mod 2) 0 = Nat.even n.
Proof.
  induction (lt_wf n) as [n _ IH].
  destruct n as [|[|n]]; [done..|].
  rewrite Nat.even_succ_succ, <- IH by lia.
  replace (S (S n)) with (n + 1 * 2)%nat by lia.
  by rewrite Nat.Div0.mod_add.
Qed.

Lemma pick_length {A} (l : list A) :
  List.length (pick true l) = ((List.length l + 1) / 2)%nat
  /\ List.length (pick false l) = (List.length l / 2)%nat.
Proof.
  induction l as [|x l [IHt IHf]]; [done|].
  cbn [pick List.length]. rewrite IHt, IHf. split.
  - replace (S (List.length l) + 1)%nat with (List.length l + 1 * 2)%nat by lia.
    rewrite Nat.div_add by lia. lia.
  - by replace (S (List.length l)) with (List.length l + 1)%nat by lia.
Qed.

Lemma pick_lookup {A} (l : list A) j :
  pick true l !! j = l !! (2 * j)%nat
  /\ pick false l !! j = l !! (2 * j + 1)%nat.
Proof.
  revert j. induction l as [|x l IH]; intros j; [done|]. simpl. split.
  - destruct j as [|j]; [done|]. simpl.
    replace (j + S (j + 0))%nat with (S (2 * j)) by lia. simpl.
    destruct (IH j) as [_ ->]. f_equal. lia.
  - replace (j + (j + 0) + 1)%nat with (S (2 * j)) by lia. simpl.
    by destruct (IH j) as [-> _].
Qed.

(** The loop of [parse_implements_block] over the positions that remain,
    when [pre] has been scanned. *)
Lemma implements_loop ctx pre suf acc :
  children ctx = pre ++ suf ->
  for_range (fun i result =>
               if Nat.eqb (i mod 2) 0 then
                 let! impl_class := child_text ctx i in
                 Return (result ++ [impl_class])
               else Return result)
            (seq (List.length pre) (List.length suf)) acc
  = Return (acc ++ map getText (pick (Nat.even (List.length pre)) suf)).
Proof.
  revert pre acc. induction suf as [|c suf IH]; intros pre acc Hcs.
  - cbn. by rewrite app_nil_r.
  - assert (child_text ctx (List.length pre) = Return (getText c)) as Hc.
    { apply child_text_lookup. rewrite Hcs. by rewrite list_lookup_middle. }
    specialize (IH (pre ++ [c])). rewrite length_app in IH.
    cbn [List.length] in IH.
    rewrite Nat.add_1_r in IH. rewrite Nat.even_succ, <- Nat.negb_even in IH.
    cbn [List.length seq for_range pick]. rewrite mod2_even.
    destruct (Nat.even (List.length pre)); cbn [negb] in IH.
    + rewrite Hc. cbn [rbind].
      rewrite IH by (by rewrite <- app_assoc).
      cbn [map]. by rewrite <- app_assoc.
    + cbn [rbind]. by rewrite IH by (by rewrite <- app_assoc).
Qed.

Lemma parse_implements_block_even self ctx :
  parse_implements_block self ctx = Return (map getText (pick true (children ctx))).
Proof.
  unfold parse_implements_block. rewrite print_stage_Return. simpl.
  unfold getChildCount.
  destruct (children ctx) as [|c0 [|c1 cs]] eqn:Hcs; [done | |].
  - simpl. by rewrite (child_text_lookup ctx 0 c0) by (by rewrite Hcs).
  - replace (Nat.eqb (List.length (c0 :: c1 :: cs)) 1) with false by done.
    replace (Nat.ltb 1 (List.length (c0 :: c1 :: cs))) with true by done.
    rewrite <- Hcs.
    pose proof (implements_loop ctx [] (children ctx) [] eq_refl) as H.
    simpl in H. by rewrite H.
Qed.

(** C4.  The decoded implements list holds the texts of the children at the
    even positions 0, 2, 4, ..., in source order: entry [j] is the text of
    child [2 * j], and there are [ceil(k / 2)] entries for [k] children; a
    single child gives the singleton of its text. *)
Theorem parse_implements_block_spec (self : CollectListener) (ctx : ParserRuleContext) :
  exists decoded : list string,
    parse_implements_block self ctx = Return decoded
    /\ List.length decoded = ((getChildCount ctx + 1) / 2)%nat
    /\ (forall j : nat, decoded !! j = getText <$> children ctx !! (2 * j)%nat)
    /\ match children ctx with
       | [c] => decoded = [getText c]
       | _ => True
       end.
Proof.
  exists (map getText (pick true (children ctx))). split_and!.
  - apply parse_implements_block_even.
  - rewrite length_map. apply pick_length.
  - intros j. rewrite list_lookup_fmap.
    by destruct (pick_lookup (children ctx) j) as [-> _].
  - by destruct (children ctx) as [|c [|c' cs]].
Qed.

Example parse_implements_block_type_list :
  parse_implements_block CollectListener_init Sample.type_list = Return ["A"; "B"; "C"].
Proof. vm_compute; reflexivity. Qed.

(** ** The class-header decoder *)

Lemma parse_class_block_3 self ctx c0 c1 c2 :
  children ctx = [c0; c1; c2] ->
  getText c1 <> "" ->
  parse_class_block self ctx = Return (getText c1, "", PyStr "").
Proof.
  intros Hcs Hne. unfold parse_class_block, getChildCount, child_text, child, getChild.
  rewrite Hcs. simpl. apply String.eqb_neq in Hne. by rewrite Hne.
Qed.

(** C2.  On the three-child header of [class A {}] the decoder returns the
    name ["A"], the empty string for [extends], and for [implements] the
    empty string it was initialised with, which is not the empty list. *)
Theorem parse_class_block_three_children_implements :
  parse_class_block CollectListener_init Sample.class_A = Return ("A", "", PyStr "")
  /\ PyStr "" <> PyList [].
Proof. split; [reflexivity | discriminate]. Qed.

(** ** The graph renderer *)

Lemma fold_left_append {A B} (body : list B -> A -> list B) (f : A -> list B) :
  (forall d x, body d x = d ++ f x) ->
  forall l d, fold_left body l d = d ++ flat_map f l.
Proof.
  intros Hbody l. induction l as [|x l IH]; intros d; simpl.
  - by rewrite app_nil_r.
  - by rewrite IH, Hbody, <- app_assoc.
Qed.

Lemma flat_map_singleton {A B} (g : A -> B) (l : list A) :
  flat_map (fun x => [g x]) l = map g l.
Proof. induction l as [|x l IH]; simpl; by rewrite ?IH. Qed.

Lemma dot_digraph_graph_statements class_of method_of ast :
  dot_digraph class_of method_of ast = graph_statements class_of method_of ast.
Proof.
  unfold dot_digraph, graph_statements.
  rewrite (fold_left_append _ (class_block class_of method_of)).
  { by rewrite <- app_assoc. }
  intros d [name r]. unfold class_block. cbn [fst snd].
  rewrite (fold_left_append _ (method_block method_of name)).
  - rewrite (fold_left_append _ (fun stmt => [edge_stmt name (Statement.value stmt)]))
      by done.
    rewrite flat_map_singleton. by rewrite <- !app_assoc.
  - intros d' [method_name m]. unfold method_block. cbn [fst snd].
    rewrite (fold_left_append _
               (fun stmt => [edge_stmt method_name (Statement.value stmt)])) by done.
    rewrite flat_map_singleton. by rewrite <- !app_assoc.
Qed.

Lemma length_flat_map_sum {A B} (f : A -> list B) (l : list A) :
  List.length (flat_map f l) = list_sum (map (fun x => List.length (f x)) l).
Proof.
  induction l as [|x l IH]; simpl; [done|]. by rewrite length_app, IH.
Qed.

Lemma length_method_blocks method_of name (ms : dict nat) :
  list_sum (map (fun x => List.length (method_block method_of name x)) ms)
  = (2 * List.length ms
     + list_sum (map (fun m : string * nat =>
                        List.length (JavaMethod.statements (method_of (snd m)))) ms))%nat.
Proof.
  induction ms as [|[mn m] ms IHm]; [done|].
  rewrite !map_cons. change (list_sum (?x :: ?l)) with (x + list_sum l)%nat.
  rewrite IHm. unfold method_block.
  rewrite length_app, length_map. cbn [List.length snd]. lia.
Qed.

Lemma length_graph_statements class_of method_of ast :
  List.length (graph_statements class_of method_of ast)
  = (2 + List.length (JavaFileAst.classes ast)
     + 2 * recorded_methods class_of ast
     + recorded_statements class_of method_of ast)%nat.
Proof.
  unfold graph_statements, recorded_methods, recorded_statements.
  rewrite !length_app, length_flat_map_sum. cbn [List.length].
  induction (JavaFileAst.classes ast) as [|[name r] cs IH]; [done|].
  rewrite !map_cons. change (list_sum (?x :: ?l)) with (x + list_sum l)%nat.
  cbn [List.length fst snd] in *.
  unfold class_block at 1. cbn [fst snd].
  rewrite !length_app, length_map, length_flat_map_sum. cbn [List.length].
  rewrite length_method_blocks. lia.
Qed.

(** C8.  The rendered text is the line [digraph "callGraph" {], then per
    class in recorded order its node statement, one edge per direct
    statement and per method in recorded order the node statement, the
    class-to-method edge and one edge per statement of the method, then
    [}]; the lines are joined by newlines.  Nothing is deduplicated: there
    is one edge line per recorded statement, besides the two lines of each
    method, the line of each class and the two delimiters. *)
Theorem dot_format (class_of : nat -> JavaClass.t) (method_of : nat -> JavaMethod.t)
                   (ast : JavaFileAst.t) :
  dot class_of method_of ast = join_lines (graph_statements class_of method_of ast)
  /\ List.length (graph_statements class_of method_of ast)
     = (2 + List.length (JavaFileAst.classes ast)
        + 2 * recorded_methods class_of ast
        + recorded_statements class_of method_of ast)%nat.
Proof.
  split.
  - unfold dot. by rewrite dot_digraph_graph_statements.
  - apply length_graph_statements.
Qed.

(** ** The per-file pipeline *)

Lemma process_writes_finished_model stream path w listener :
  walk stream CollectListener_init = (listener, Return tt) ->
  path <> "" ->
  process stream (Some path) w
  = match write_text path (get_ast_dot listener) (files w) with
    | Return fs => (mkWorld fs (log w ++ logged listener), Return tt)
    | Raise e => (mkWorld (files w) (log w ++ logged listener), Raise e)
    end.
Proof.
  intros Hwalk Hpath. unfold process. rewrite Hwalk.
  apply String.eqb_neq in Hpath. rewrite Hpath. cbn [files log].
  by destruct (write_text _ _ _).
Qed.

(** C9.  When the traversal of a file raises, [process] raises the same
    exception and leaves every file as it was: the rendering is written
    only after the walk has returned, so no output is written for a model
    that is not finished. *)
Theorem process_no_partial_output (stream : list notification)
    (output_path : option string) (w : world) (listener : CollectListener) (e : exn) :
  walk stream CollectListener_init = (listener, Raise e) ->
  files (fst (process stream output_path w)) = files w
  /\ snd (process stream output_path w) = Raise e.
Proof. intros Hwalk. unfold process. by rewrite Hwalk. Qed.

Lemma process_no_partial_output_witness :
  walk (src_stream Sample.bad_file) CollectListener_init
  = (fst (walk (src_stream Sample.bad_file) CollectListener_init),
     Raise (Exception "Class name is not found"))
  /\ files (fst (process (src_stream Sample.bad_file) (Some "src/Bad.dot")
                         Sample.empty_world))
     = files Sample.empty_world
  /\ snd (process (src_stream Sample.bad_file) (Some "src/Bad.dot") Sample.empty_world)
     = Raise (Exception "Class name is not found").
Proof.
  split; [reflexivity|].
  apply (process_no_partial_output (src_stream Sample.bad_file) (Some "src/Bad.dot")
           Sample.empty_world
           (fst (walk (src_stream Sample.bad_file) CollectListener_init))
           (Exception "Class name is not found")).
  reflexivity.
Defined.

Lemma create_propagates src output_path percent w listener e :
  walk (src_stream src) CollectListener_init = (listener, Raise e) ->
  create src output_path percent w
  = (mkWorld (files w) (log w ++ logged listener), Raise e).
Proof. intros Hwalk. unfold create, process. by rewrite Hwalk. Qed.

(** C1.  A batch of two files, [src/Bad.java] whose class header has four
    children and [src/Good.java], in a file system without these outputs.
    Whichever job completes first, the exception of the bad file leaves
    [create] and [gather] and is raised in [main], and no record at level
    [ERROR] reports the failure; the job of the good file completes in
    either order, so that [src/Good.dot] is the one file written.  When
    the good file completes first its success is reported before [main]
    raises. *)
Theorem main_failure_is_not_caught :
  snd (main [Sample.bad_file; Sample.good_file] [0; 1]%nat Sample.empty_world)
  = Raise (Exception "Class name is not found")
  /\ errors_of (log (fst (main [Sample.bad_file; Sample.good_file] [0; 1]%nat
                               Sample.empty_world))) = []
  /\ files (fst (main [Sample.bad_file; Sample.good_file] [0; 1]%nat Sample.empty_world))
     = {[ "src/Good.dot" :=
            Regular (get_ast_dot (fst (walk (src_stream Sample.good_file)
                                            CollectListener_init))) ]}
  /\ snd (main [Sample.bad_file; Sample.good_file] [1; 0]%nat Sample.empty_world)
     = Raise (Exception "Class name is not found")
  /\ log (fst (main [Sample.bad_file; Sample.good_file] [1; 0]%nat Sample.empty_world))
     = [(INFO, "[2/2] create java callgraph success for src/Good.java")]
  /\ files (fst (main [Sample.bad_file; Sample.good_file] [1; 0]%nat Sample.empty_world))
     = {[ "src/Good.dot" :=
            Regular (get_ast_dot (fst (walk (src_stream Sample.good_file)
                                            CollectListener_init))) ]}.
Proof. split_and!; vm_compute; reflexivity. Qed.

(** ** Consistency of the listener *)

Lemma dict_contains_set {V} k k' (v : V) d :
  dict_contains k d = true -> dict_contains k (dict_set k' v d) = true.
Proof.
  unfold dict_contains. intros H.
  destruct (decide (k' = k)) as [->|Hne].
  - by rewrite dict_get_set_eq.
  - by rewrite dict_get_set_ne.
Qed.

Lemma dict_contains_set_eq {V} k (v : V) d : dict_contains k (dict_set k v d) = true.
Proof. unfold dict_contains. by rewrite dict_get_set_eq. Qed.

Lemma consistent_init : consistent CollectListener_init.
Proof.
  constructor; simpl.
  - apply NoDup_nil_2.
  - done.
  - intros r Hr. lia.
  - intros d r Hd. by rewrite lookup_empty in Hd.
Qed.

(** Mutations that touch none of the constrained parts. *)
Lemma consistent_set_current_method m self :
  consistent self -> consistent (set_current_method m self).
Proof. intros [? ? ? ?]. by constructor. Qed.

Lemma consistent_set_deep d self : consistent self -> consistent (set_deep d self).
Proof. intros [? ? ? ?]. by constructor. Qed.

Lemma consistent_emit l msg self : consistent self -> consistent (emit l msg self).
Proof. intros [? ? ? ?]. by constructor. Qed.

Lemma consistent_update_method r f self :
  consistent self -> consistent (update_method r f self).
Proof. intros [? ? ? ?]. by constructor. Qed.

Lemma consistent_add_method m self :
  consistent self -> consistent (add_method m self).
Proof. intros [? ? ? ?]. by constructor. Qed.

Lemma consistent_set_ast a self :
  JavaFileAst.classes a = JavaFileAst.classes (_ast self) ->
  consistent self -> consistent (set_ast a self).
Proof. intros Ha [? ? ? ?]. constructor; simpl; by rewrite ?Ha. Qed.

Lemma consistent_insert_open d r self :
  (r < next_class self)%nat ->
  consistent self ->
  consistent (set_deep_class (<[d := r]> (_deep_class self)) self).
Proof.
  intros Hr [? ? ? Hopen]. constructor; simpl; try done.
  intros d' r' Hd'. destruct (decide (d = d')) as [->|Hne].
  - rewrite lookup_insert_eq in Hd'. by simplify_eq.
  - rewrite lookup_insert_ne in Hd' by done. eauto.
Qed.

Lemma consistent_delete_open d self :
  consistent self ->
  consistent (set_deep_class (delete d (_deep_class self)) self).
Proof.
  intros [? ? ? Hopen]. constructor; simpl; try done.
  intros d' r' Hd'. destruct (decide (d = d')) as [->|Hne].
  - by rewrite lookup_delete_eq in Hd'.
  - rewrite lookup_delete_ne in Hd' by done. eauto.
Qed.

Lemma consistent_update_class r f self :
  (forall c, JavaClass.name (f c) = JavaClass.name c) ->
  (forall c, NoDup (dict_keys (JavaClass.methods c)) ->
             NoDup (dict_keys (JavaClass.methods (f c)))) ->
  consistent self -> consistent (update_class r f self).
Proof.
  intros Hname Hmeth [Hkeys Hent Hobj Hopen]. constructor; simpl; try done.
  - intros k r' Hk. destruct (Hent k r' Hk) as [? ?]. split; [done|].
    destruct (Nat.eqb r' r) eqn:E; [|done].
    apply Nat.eqb_eq in E. subst r'. by rewrite Hname.
  - intros r' Hr'. destruct (Nat.eqb r' r) eqn:E; [|by apply Hobj].
    apply Nat.eqb_eq in E. subst r'. rewrite Hname.
    destruct (Hobj r Hr') as (? & ? & ?). split_and!; auto.
Qed.

(** Creation of a class under [name] and its registration in the model. *)
Lemma consistent_register_class name extends implements self :
  name <> "" ->
  consistent self ->
  consistent
    (set_ast (set_class name (next_class self) (_ast self))
             (add_class (JavaClass.init name extends implements) self)).
Proof.
  intros Hname [Hkeys Hent Hobj Hopen]. constructor; simpl.
  - by apply dict_set_NoDup.
  - intros k r Hk. destruct (decide (name = k)) as [->|Hne].
    + rewrite dict_get_set_eq in Hk. simplify_eq.
      rewrite Nat.eqb_refl. split; [lia | done].
    + rewrite dict_get_set_ne in Hk by done.
      destruct (Hent k r Hk) as [Hr Hk']. split; [lia|].
      destruct (Nat.eqb r (next_class self)) eqn:E; [|done].
      apply Nat.eqb_eq in E. lia.
  - intros r Hr. destruct (Nat.eqb r (next_class self)) eqn:E.
    + simpl. split_and!; [done | apply dict_contains_set_eq | apply NoDup_nil_2].
    + apply Nat.eqb_neq in E. destruct (Hobj r) as (? & ? & ?); [lia|].
      split_and!; [done | by apply dict_contains_set | done].
  - intros d r Hd. specialize (Hopen d r Hd). lia.
Qed.

Lemma parse_class_block_name self ctx name extends implements :
  parse_class_block self ctx = Return (name, extends, implements) -> name <> "".
Proof.
  unfold parse_class_block.
  destruct (print_stage self _); [|done]. cbn [rbind].
  match goal with
  | |- rbind ?X _ = _ -> _ => destruct X as [[[n e] i]|]; [|done]
  end.
  cbn [rbind]. destruct (String.eqb n "") eqn:E; [done|].
  intros ?. simplify_eq. by apply String.eqb_neq.
Qed.

(** Inversion of a callback that returned: the steps of the callback are
    unfolded and the outcomes of its failing operations are split. *)
Ltac run_callback H :=
  cbv beta iota zeta delta
    [mbind eval exec alloc_class alloc_method
     enterPackageDeclaration exitPackageDeclaration enterImportDeclaration
     enterClassDeclaration exitClassDeclaration enterFieldDeclaration
     enterMethodDeclaration exitMethodDeclaration enterMethodCall
     enterEnumDeclaration exitEnumDeclaration] in H;
  repeat case_match; simplify_eq.

Lemma classes_getitem_registered name r self a :
  classes_getitem name (set_ast (set_class name r (_ast self)) a) = Return r.
Proof. unfold classes_getitem. simpl. by rewrite dict_get_set_eq. Qed.

Lemma enterClassDeclaration_consistent ctx self self' :
  consistent self -> enterClassDeclaration ctx self = (self', Return tt) -> consistent self'.
Proof.
  intros Hc H. run_callback H.
  match goal with
  | H : classes_getitem _ _ = Return _ |- _ =>
      change (_ast (add_class ?c ?s)) with (_ast s) in H;
      rewrite classes_getitem_registered in H; simplify_eq
  end.
  apply consistent_insert_open; [simpl; lia|].
  apply (consistent_register_class _ _ _ (set_deep (_deep self + 1) self)).
  - eapply parse_class_block_name; eauto.
  - by apply consistent_set_deep.
Qed.

Lemma exitClassDeclaration_consistent ctx self self' :
  consistent self -> exitClassDeclaration ctx self = (self', Return tt) -> consistent self'.
Proof.
  intros Hc H. run_callback H.
  by apply consistent_set_deep, consistent_delete_open.
Qed.

Lemma enterFieldDeclaration_consistent ctx self self' :
  consistent self -> enterFieldDeclaration ctx self = (self', Return tt) -> consistent self'.
Proof.
  intros Hc H. run_callback H.
  by apply consistent_update_class.
Qed.

Lemma enterMethodDeclaration_consistent ctx self self' :
  consistent self -> enterMethodDeclaration ctx self = (self', Return tt) -> consistent self'.
Proof.
  intros Hc H. run_callback H.
  - apply consistent_set_current_method, consistent_update_class; [done | |].
    + intros c Hnd. simpl. by apply dict_set_NoDup.
    + by apply consistent_add_method.
  - by apply consistent_emit.
Qed.

Lemma enterMethodCall_consistent ctx self self' :
  consistent self -> enterMethodCall ctx self = (self', Return tt) -> consistent self'.
Proof.
  intros Hc H. run_callback H.
  - by apply consistent_update_method.
  - by apply consistent_update_class.
Qed.

Lemma notify_consistent n self self' :
  consistent self -> notify n self = (self', Return tt) -> consistent self'.
Proof.
  intros Hc H. destruct n as [ctx|ctx|ctx|ctx|ctx|ctx|ctx|ctx|ctx|ctx|ctx]; cbn [notify] in H.
  - run_callback H. by apply consistent_set_ast.
  - by run_callback H.
  - run_callback H. by apply consistent_set_ast.
  - eauto using enterClassDeclaration_consistent.
  - eauto using exitClassDeclaration_consistent.
  - eauto using enterFieldDeclaration_consistent.
  - eauto using enterMethodDeclaration_consistent.
  - run_callback H. by apply consistent_set_current_method.
  - eauto using enterMethodCall_consistent.
  - unfold enterEnumDeclaration, mbind at 1, eval in H. rewrite print_stage_Return in H.
    eauto using enterClassDeclaration_consistent.
  - unfold exitEnumDeclaration, mbind at 1, eval in H. rewrite print_stage_Return in H.
    eauto using exitClassDeclaration_consistent.
Qed.

Lemma walk_consistent stream self self' :
  consistent self -> walk stream self = (self', Return tt) -> consistent self'.
Proof.
  revert self. induction stream as [|n stream IH]; intros self Hc H.
  - cbn in H. by simplify_eq.
  - cbn [walk] in H. unfold mbind in H.
    destruct (notify n self) as [self1 [[]|e]] eqn:Hn; [|done].
    eauto using notify_consistent.
Qed.

Lemma reachable_consistent self : reachable self -> consistent self.
Proof. intros [stream H]. eauto using walk_consistent, consistent_init. Qed.

(** ** Class declarations *)

Lemma parse_class_block_2 self ctx c0 c1 r :
  children ctx = [c0; c1] ->
  _deep_class self !! _deep self = Some r ->
  JavaClass.name (class_objs self r) <> "" ->
  parse_class_block self ctx = Return (JavaClass.name (class_objs self r), "", PyStr "").
Proof.
  intros Hcs Hr Hne. unfold parse_class_block, getChildCount, child_text, child, getChild.
  rewrite Hcs. simpl. rewrite Hr. simpl.
  apply String.eqb_neq in Hne. by rewrite Hne.
Qed.

Lemma enterClassDeclaration_Return self ctx name extends implements :
  parse_class_block self ctx = Return (name, extends, implements) ->
  enterClassDeclaration ctx self
  = (set_deep_class (<[_deep self + 1 := next_class self]> (_deep_class self))
       (set_ast (set_class name (next_class self) (_ast self))
          (add_class (JavaClass.init name extends implements)
             (set_deep (_deep self + 1) self))),
     Return tt).
Proof.
  intros Hp. unfold enterClassDeclaration, mbind, eval, exec, alloc_class.
  assert (exists t, child_text ctx 1 = Return t) as [t Ht].
  { unfold parse_class_block in Hp. destruct (child_text ctx 1); [eauto | done]. }
  rewrite Ht, Hp. cbn [rbind print_stage logger_debug].
  change (_ast (add_class ?c ?s)) with (_ast s).
  change (_ast (set_deep ?c ?s)) with (_ast s).
  by rewrite classes_getitem_registered.
Qed.




(** C10.  A two-child class header that arrives while a class is open
    takes its name from that class, read before the depth is incremented;
    a new class without fields, methods or statements is registered under
    that name in place of the previous entry and at the new depth, and no
    entry of the model refers to the enclosing class any more. *)
Theorem enterClassDeclaration_two_children
    (self : CollectListener) (ctx c0 c1 : ParserRuleContext) (r : nat) :
  reachable self ->
  children ctx = [c0; c1] ->
  _deep_class self !! _deep self = Some r ->
  exists self',
    parse_class_block self ctx = Return (JavaClass.name (class_objs self r), "", PyStr "")
    /\ enterClassDeclaration ctx self = (self', Return tt)
    /\ _deep self' = _deep self + 1
    /\ _deep_class self' !! _deep self' = Some (next_class self)
    /\ dict_get (JavaClass.name (class_objs self r)) (JavaFileAst.classes (_ast self'))
       = Some (next_class self)
    /\ dict_keys (JavaFileAst.classes (_ast self'))
       = dict_keys (JavaFileAst.classes (_ast self))
    /\ class_objs self' (next_class self)
       = JavaClass.init (JavaClass.name (class_objs self r)) "" (PyStr "")
    /\ class_objs self' r = class_objs self r
    /\ (forall k, dict_get k (JavaFileAst.classes (_ast self')) <> Some r).
Proof.
  intros Hreach Hcs Hr.
  destruct (reachable_consistent self Hreach) as [Hkeys Hent Hobj Hopen].
  pose proof (Hopen _ _ Hr) as Hlt.
  destruct (Hobj r Hlt) as (Hne & Hin & _).
  pose proof (parse_class_block_2 self ctx c0 c1 r Hcs Hr Hne) as Hp.
  eexists. split; [done|]. split; [by apply enterClassDeclaration_Return|].
  simpl. split_and!.
  - done.
  - apply lookup_insert_eq.
  - apply dict_get_set_eq.
  - rewrite dict_keys_set. by rewrite Hin.
  - by rewrite Nat.eqb_refl.
  - destruct (Nat.eqb r (next_class self)) eqn:E; [|done].
    apply Nat.eqb_eq in E. lia.
  - intros k Hk. destruct (decide (JavaClass.name (class_objs self r) = k)) as [Heq|Hneq].
    + rewrite <- Heq, dict_get_set_eq in Hk. simplify_eq. lia.
    + rewrite dict_get_set_ne in Hk by done.
      destruct (Hent k r Hk) as [_ ?]. done.
Qed.

Lemma enterClassDeclaration_two_children_witness :
  reachable Sample.in_class_A
  /\ children Sample.class_rest = [Sample.token "()"; Sample.token "{}"]
  /\ _deep_class Sample.in_class_A !! _deep Sample.in_class_A = Some 0%nat
  /\ exists self',
    parse_class_block Sample.in_class_A Sample.class_rest
    = Return (JavaClass.name (class_objs Sample.in_class_A 0%nat), "", PyStr "")
    /\ enterClassDeclaration Sample.class_rest Sample.in_class_A = (self', Return tt)
    /\ _deep self' = _deep Sample.in_class_A + 1
    /\ _deep_class self' !! _deep self' = Some (next_class Sample.in_class_A)
    /\ dict_get (JavaClass.name (class_objs Sample.in_class_A 0%nat))
                (JavaFileAst.classes (_ast self'))
       = Some (next_class Sample.in_class_A)
    /\ dict_keys (JavaFileAst.classes (_ast self'))
       = dict_keys (JavaFileAst.classes (_ast Sample.in_class_A))
    /\ class_objs self' (next_class Sample.in_class_A)
       = JavaClass.init (JavaClass.name (class_objs Sample.in_class_A 0%nat)) "" (PyStr "")
    /\ class_objs self' 0%nat = class_objs Sample.in_class_A 0%nat
    /\ (forall k, dict_get k (JavaFileAst.classes (_ast self')) <> Some 0%nat).
Proof.
  assert (reachable Sample.in_class_A) as Hreach.
  { exists [EnterClassDeclaration Sample.class_A]. vm_compute; reflexivity. }
  split; [exact Hreach|]. split; [vm_compute; reflexivity|]. split; [vm_compute; reflexivity|].
  apply (enterClassDeclaration_two_children Sample.in_class_A Sample.class_rest
           (Sample.token "()") (Sample.token "{}") 0%nat Hreach);
    vm_compute; reflexivity.
Defined.

(** ** Method declarations and method calls *)

Lemma classes_getitem_open self r :
  consistent self ->
  _deep_class self !! _deep self = Some r ->
  exists target,
    dict_get (JavaClass.name (class_objs self r)) (JavaFileAst.classes (_ast self))
    = Some target
    /\ JavaClass.name (class_objs self target) = JavaClass.name (class_objs self r).
Proof.
  intros [Hkeys Hent Hobj Hopen] Hr.
  destruct (Hobj r (Hopen _ _ Hr)) as (_ & Hin & _).
  unfold dict_contains in Hin.
  destruct (dict_get _ _) as [target|] eqn:E; [|done].
  exists target. split; [done|]. by destruct (Hent _ _ E).
Qed.

Lemma walk_sequence s1 s2 self :
  walk (s1 ++ s2) self
  = match walk s1 self with
    | (self1, Return _) => walk s2 self1
    | (self1, Raise e) => (self1, Raise e)
    end.
Proof.
  revert self. induction s1 as [|n s1 IH]; intros self; [done|].
  cbn [app walk]. unfold mbind.
  destruct (notify n self) as [self1 [[]|e]]; [apply IH | done].
Qed.

Lemma enterMethodDeclaration_skip self ctx c1 r :
  getChild ctx 1 = Return (Some c1) ->
  _deep_class self !! _deep self = Some r ->
  dict_contains (getText c1) (JavaClass.methods (class_objs self r)) = true ->
  enterMethodDeclaration ctx self
  = (emit WARNING (getText c1 +:+ " is a overloading, ignore it in this version.") self,
     Return tt).
Proof.
  intros Hc1 Hr Hin.
  unfold enterMethodDeclaration, mbind, eval, exec, deep_class_at_deep.
  rewrite (child_text_Some _ _ _ Hc1). cbn [rbind print_stage logger_debug].
  rewrite Hr. cbn [getitem]. by rewrite Hin.
Qed.

Lemma exitMethodDeclaration_Return self ctx c1 :
  getChild ctx 1 = Return (Some c1) ->
  exitMethodDeclaration ctx self = (set_current_method None self, Return tt).
Proof.
  intros Hc1. unfold exitMethodDeclaration, mbind, eval, exec.
  by rewrite (child_text_Some _ _ _ Hc1).
Qed.

Lemma enterMethodDeclaration_fresh self ctx c0 c1 c2 r target params :
  getChild ctx 0 = Return (Some c0) ->
  getChild ctx 1 = Return (Some c1) ->
  getChild ctx 2 = Return (Some c2) ->
  _deep_class self !! _deep self = Some r ->
  dict_contains (getText c1) (JavaClass.methods (class_objs self r)) = false ->
  parse_method_params_block self c2 = Return params ->
  dict_get (JavaClass.name (class_objs self r)) (JavaFileAst.classes (_ast self))
  = Some target ->
  enterMethodDeclaration ctx self
  = (set_current_method (Some (next_method self))
       (update_class target (JavaClass.set_method (getText c1) (next_method self))
          (add_method (JavaMethod.mk (getText c1) (start_line ctx) (stop_line ctx)
                                     (depth ctx) params (getText c0) [])
             self)),
     Return tt).
Proof.
  intros Hc0 Hc1 Hc2 Hr Hnew Hp Ht.
  unfold enterMethodDeclaration, mbind, eval, exec, alloc_method, deep_class_at_deep,
    classes_getitem.
  rewrite (child_text_Some _ _ _ Hc1). cbn [rbind print_stage logger_debug].
  rewrite Hr. cbn [getitem]. rewrite Hnew. cbn [negb].
  rewrite (child_text_Some _ _ _ Hc0), (child_Some _ _ _ Hc2). cbn [rbind]. rewrite Hp.
  cbn [add_method update_class _ast class_objs].
  rewrite Ht. cbn [getitem]. rewrite Nat.eqb_refl.
  cbn [JavaClass.set_method JavaClass.methods].
  by rewrite dict_get_set_eq.
Qed.

Lemma walk_calls_in_method calls firsts self m :
  _current_method self = Some m ->
  Forall2 (fun call c0 => getChild call 0 = Return (Some c0)) calls firsts ->
  exists self',
    walk (map EnterMethodCall calls) self = (self', Return tt)
    /\ method_objs self' m
       = JavaMethod.mk (JavaMethod.name (method_objs self m))
                       (JavaMethod.start (method_objs self m))
                       (JavaMethod.stop (method_objs self m))
                       (JavaMethod.depth (method_objs self m))
                       (JavaMethod.parameters (method_objs self m))
                       (JavaMethod.return_type (method_objs self m))
                       (JavaMethod.statements (method_objs self m)
                        ++ zip_with statement_of calls firsts)
    /\ class_objs self' = class_objs self
    /\ _ast self' = _ast self
    /\ _current_method self' = Some m
    /\ _deep self' = _deep self
    /\ _deep_class self' = _deep_class self
    /\ next_method self' = next_method self
    /\ logged self' = logged self.
Proof.
  intros Hm H. revert self Hm.
  induction H as [|call c0 calls firsts Hc0 _ IH]; intros self Hm.
  - exists self. cbn [map walk zip_with]. rewrite app_nil_r.
    split_and!; try done. by destruct (method_objs self m).
  - destruct (IH (update_method m (JavaMethod.append_statement (statement_of call c0)) self))
      as (self' & Hw & Hobj & Hcls & Hast & Hcur & Hd & Hdc & Hnm & Hlog); [done|].
    exists self'. split_and!; try done.
    + cbn [map walk notify]. unfold mbind at 1.
      unfold enterMethodCall, mbind, eval, exec.
      rewrite print_stage_Return, (child_text_Some _ _ _ Hc0), Hm. exact Hw.
    + rewrite Hobj. cbn [update_method method_objs]. rewrite Nat.eqb_refl.
      cbn [JavaMethod.append_statement JavaMethod.name JavaMethod.start JavaMethod.stop
           JavaMethod.depth JavaMethod.parameters JavaMethod.return_type
           JavaMethod.statements zip_with].
      by rewrite <- app_assoc.
Qed.

Lemma walk_calls_in_class calls firsts self r target :
  _current_method self = None ->
  _deep_class self !! _deep self = Some r ->
  dict_get (JavaClass.name (class_objs self r)) (JavaFileAst.classes (_ast self))
  = Some target ->
  Forall2 (fun call c0 => getChild call 0 = Return (Some c0)) calls firsts ->
  exists self',
    walk (map EnterMethodCall calls) self = (self', Return tt)
    /\ JavaClass.statements (class_objs self' target)
       = JavaClass.statements (class_objs self target)
         ++ zip_with statement_of calls firsts
    /\ JavaClass.methods (class_objs self' target)
       = JavaClass.methods (class_objs self target)
    /\ method_objs self' = method_objs self
    /\ next_method self' = next_method self
    /\ _ast self' = _ast self
    /\ _current_method self' = None
    /\ logged self' = logged self.
Proof.
  intros Hm Hr Ht H. revert self Hm Hr Ht.
  induction H as [|call c0 calls firsts Hc0 _ IH]; intros self Hm Hr Ht.
  - exists self. cbn [map walk zip_with]. by rewrite app_nil_r.
  - destruct (IH (update_class target
                    (JavaClass.append_statement (statement_of call c0)) self))
      as (self' & Hw & Hst & Hme & Hobj & Hnm & Hast & Hcur & Hlog); [done | done | |].
    { cbn [update_class class_objs _ast].
      destruct (Nat.eqb r target) eqn:E; [|done].
      apply Nat.eqb_eq in E. subst r. exact Ht. }
    exists self'. split_and!; try done.
    + cbn [map walk notify]. unfold mbind at 1.
      unfold enterMethodCall, mbind, eval, exec, deep_class_at_deep, classes_getitem.
      rewrite print_stage_Return, (child_text_Some _ _ _ Hc0), Hm, Hr.
      cbn [getitem]. rewrite Ht. cbn [getitem]. exact Hw.
    + rewrite Hst. cbn [update_class class_objs]. rewrite Nat.eqb_refl.
      cbn [JavaClass.append_statement JavaClass.statements zip_with].
      by rewrite <- app_assoc.
    + rewrite Hme. cbn [update_class class_objs]. by rewrite Nat.eqb_refl.
Qed.

(** ** The depths of the scope tracker *)

Lemma enterClassDeclaration_Raise self ctx e :
  parse_class_block self ctx = Raise e ->
  enterClassDeclaration ctx self = (self, Raise e).
Proof.
  intros Hp. unfold enterClassDeclaration, mbind, eval.
  destruct (child_text ctx 1) as [t|e1] eqn:Ht.
  - cbn [rbind print_stage logger_debug]. by rewrite Hp.
  - unfold parse_class_block in Hp. rewrite Ht in Hp.
    cbn [rbind print_stage] in *. by simplify_eq.
Qed.

Lemma enterClassDeclaration_inv ctx self self' :
  enterClassDeclaration ctx self = (self', Return tt) ->
  exists name extends implements,
    parse_class_block self ctx = Return (name, extends, implements)
    /\ self' = set_deep_class (<[_deep self + 1 := next_class self]> (_deep_class self))
                 (set_ast (set_class name (next_class self) (_ast self))
                    (add_class (JavaClass.init name extends implements)
                       (set_deep (_deep self + 1) self))).
Proof.
  intros H. destruct (parse_class_block self ctx) as [[[n e] i]|e] eqn:Hp.
  - rewrite (enterClassDeclaration_Return _ _ _ _ _ Hp) in H. simplify_eq. eauto.
  - rewrite (enterClassDeclaration_Raise _ _ _ Hp) in H. simplify_eq.
Qed.

Lemma enterClassDeclaration_scope ctx self self' :
  scope_consistent self ->
  enterClassDeclaration ctx self = (self', Return tt) -> scope_consistent self'.
Proof.
  intros [Hd Hdom] H. apply enterClassDeclaration_inv in H as (n & e & i & _ & ->).
  split; simpl; [lia|]. intros d.
  destruct (decide (_deep self + 1 = d)) as [<-|Hne].
  - rewrite lookup_insert_eq. split; [lia | eauto].
  - rewrite lookup_insert_ne by done. rewrite Hdom. lia.
Qed.

Lemma exitClassDeclaration_scope ctx self self' :
  scope_consistent self ->
  exitClassDeclaration ctx self = (self', Return tt) -> scope_consistent self'.
Proof.
  intros [Hd Hdom] H. run_callback H.
  match goal with
  | H : deep_class_at_deep _ = Return _ |- _ =>
      unfold deep_class_at_deep in H;
      destruct (_deep_class self !! _deep self) eqn:Hopen; [|done]
  end.
  assert (1 <= _deep self) by (apply (Hdom (_deep self)); eauto).
  split; simpl; [lia|]. intros d.
  destruct (decide (_deep self = d)) as [<-|Hne].
  - rewrite lookup_delete_eq. split; [by intros [? ?] | lia].
  - rewrite lookup_delete_ne by done. rewrite Hdom. lia.
Qed.

Lemma notify_scope n self self' :
  scope_consistent self -> notify n self = (self', Return tt) -> scope_consistent self'.
Proof.
  intros Hs H. destruct n as [ctx|ctx|ctx|ctx|ctx|ctx|ctx|ctx|ctx|ctx|ctx]; cbn [notify] in H.
  - by run_callback H.
  - by run_callback H.
  - by run_callback H.
  - eauto using enterClassDeclaration_scope.
  - eauto using exitClassDeclaration_scope.
  - by run_callback H.
  - by run_callback H.
  - by run_callback H.
  - by run_callback H.
  - unfold enterEnumDeclaration, mbind at 1, eval in H. rewrite print_stage_Return in H.
    eauto using enterClassDeclaration_scope.
  - unfold exitEnumDeclaration, mbind at 1, eval in H. rewrite print_stage_Return in H.
    eauto using exitClassDeclaration_scope.
Qed.

Lemma walk_scope stream self self' :
  scope_consistent self -> walk stream self = (self', Return tt) -> scope_consistent self'.
Proof.
  revert self. induction stream as [|n stream IH]; intros self Hs H.
  - cbn in H. by simplify_eq.
  - cbn [walk] in H. unfold mbind in H.
    destruct (notify n self) as [self1 [[]|e]] eqn:Hn; [|done].
    eauto using notify_scope.
Qed.

Lemma reachable_scope self : reachable self -> scope_consistent self.
Proof.
  intros [stream H]. eapply walk_scope; [|exact H].
  split; simpl; [lia|]. intros d. rewrite lookup_empty. split; [by intros [? ?] | lia].
Qed.

(** ** The order of creation *)

Lemma exitClassDeclaration_inv ctx self self' :
  exitClassDeclaration ctx self = (self', Return tt) ->
  self' = set_deep (_deep self - 1)
            (set_deep_class (delete (_deep self) (_deep_class self)) self).
Proof. intros H. by run_callback H. Qed.

Lemma notify_class_free n self self' :
  class_free n = true ->
  notify n self = (self', Return tt) ->
  _deep self' = _deep self
  /\ _deep_class self' = _deep_class self
  /\ JavaFileAst.classes (_ast self') = JavaFileAst.classes (_ast self)
  /\ next_class self' = next_class self
  /\ forall x, JavaClass.name (class_objs self' x) = JavaClass.name (class_objs self x).
Proof.
  intros Hfree H.
  assert (forall target f (s : CollectListener) x,
            (forall c, JavaClass.name (f c) = JavaClass.name c) ->
            JavaClass.name (class_objs (update_class target f s) x)
            = JavaClass.name (class_objs s x)) as Hupd.
  { intros target f s x Hf. cbn [update_class class_objs].
    destruct (Nat.eqb x target) eqn:E; [|done].
    apply Nat.eqb_eq in E. subst. apply Hf. }
  destruct n as [ctx|ctx|ctx|ctx|ctx|ctx|ctx|ctx|ctx|ctx|ctx]; try done; cbn [notify] in H;
    run_callback H; split_and!; try done; intros x;
    cbn [set_current_method class_objs]; by rewrite ?Hupd.
Qed.

Lemma ordered_init : ordered CollectListener_init.
Proof.
  constructor; simpl.
  - intros d d' x x' _ Hd. by rewrite lookup_empty in Hd.
  - intros x t Hx. lia.
Qed.

Lemma ordered_class_free n self self' :
  class_free n = true ->
  notify n self = (self', Return tt) ->
  ordered self -> ordered self'.
Proof.
  intros Hfree H [Hscope Hmodel].
  destruct (notify_class_free n self self' Hfree H) as (Hd & Hdc & Hcl & Hnc & Hname).
  constructor.
  - rewrite Hdc. exact Hscope.
  - intros x t. rewrite Hcl, Hnc, Hname. apply Hmodel.
Qed.

Lemma ordered_enter name extends implements self :
  consistent self -> scope_consistent self -> ordered self ->
  ordered
    (set_deep_class (<[_deep self + 1 := next_class self]> (_deep_class self))
       (set_ast (set_class name (next_class self) (_ast self))
          (add_class (JavaClass.init name extends implements)
             (set_deep (_deep self + 1) self)))).
Proof.
  intros [_ Hent _ Hopen] [_ Hdom] [Hscope Hmodel]. constructor; simpl.
  - intros d d' x x' Hlt Hx Hx'.
    destruct (decide (_deep self + 1 = d')) as [<-|Hne'].
    + rewrite lookup_insert_eq in Hx'. simplify_eq.
      rewrite lookup_insert_ne in Hx by lia. eauto.
    + rewrite lookup_insert_ne in Hx' by done.
      assert (1 <= d' <= _deep self) by (apply Hdom; eauto).
      rewrite lookup_insert_ne in Hx by lia. eauto.
  - intros x t Hx.
    destruct (Nat.eqb x (next_class self)) eqn:E.
    + apply Nat.eqb_eq in E. subst x. cbn [JavaClass.init JavaClass.name].
      rewrite dict_get_set_eq. intros ?. simplify_eq. lia.
    + apply Nat.eqb_neq in E.
      destruct (decide (name = JavaClass.name (class_objs self x))) as [->|Hne].
      * rewrite dict_get_set_eq. intros ?. simplify_eq. lia.
      * rewrite dict_get_set_ne by done. apply Hmodel. lia.
Qed.

Lemma ordered_exit self :
  ordered self ->
  ordered (set_deep (_deep self - 1)
             (set_deep_class (delete (_deep self) (_deep_class self)) self)).
Proof.
  intros [Hscope Hmodel]. constructor; simpl; [|done].
  intros d d' x x' Hlt Hx Hx'.
  apply lookup_delete_Some in Hx as [_ Hx]. apply lookup_delete_Some in Hx' as [_ Hx'].
  eauto.
Qed.

Lemma notify_class_step n self self' :
  class_free n = false ->
  notify n self = (self', Return tt) ->
  (exists name extends implements,
     self' = set_deep_class (<[_deep self + 1 := next_class self]> (_deep_class self))
               (set_ast (set_class name (next_class self) (_ast self))
                  (add_class (JavaClass.init name extends implements)
                     (set_deep (_deep self + 1) self))))
  \/ self' = set_deep (_deep self - 1)
               (set_deep_class (delete (_deep self) (_deep_class self)) self).
Proof.
  intros Hfree H.
  destruct n as [ctx|ctx|ctx|ctx|ctx|ctx|ctx|ctx|ctx|ctx|ctx]; try done; cbn [notify] in H;
    try (unfold enterEnumDeclaration, exitEnumDeclaration, mbind at 1, eval at 1 in H;
         rewrite print_stage_Return in H).
  - apply enterClassDeclaration_inv in H as (name & e & i & _ & ->). left. eauto.
  - apply exitClassDeclaration_inv in H as ->. by right.
  - apply enterClassDeclaration_inv in H as (name & e & i & _ & ->). left. eauto.
  - apply exitClassDeclaration_inv in H as ->. by right.
Qed.

Lemma notify_ordered n self self' :
  consistent self -> scope_consistent self -> ordered self ->
  notify n self = (self', Return tt) -> ordered self'.
Proof.
  intros Hc Hs Ho H.
  destruct (class_free n) eqn:Hfree; [eauto using ordered_class_free|].
  destruct (notify_class_step n self self' Hfree H) as [(name & e & i & ->) | ->].
  - by apply ordered_enter.
  - by apply ordered_exit.
Qed.

Lemma walk_ordered stream self self' :
  consistent self -> scope_consistent self -> ordered self ->
  walk stream self = (self', Return tt) -> ordered self'.
Proof.
  revert self. induction stream as [|n stream IH]; intros self Hc Hs Ho H.
  - cbn in H. by simplify_eq.
  - cbn [walk] in H. unfold mbind in H.
    destruct (notify n self) as [self1 [[]|e]] eqn:Hn; [|done].
    eauto using notify_consistent, notify_scope, notify_ordered.
Qed.

Lemma scope_consistent_init : scope_consistent CollectListener_init.
Proof.
  split; simpl; [lia|]. intros d. rewrite lookup_empty. split; [by intros [? ?] | lia].
Qed.

Lemma reachable_ordered self : reachable self -> ordered self.
Proof.
  intros [stream H].
  eapply walk_ordered;
    [apply consistent_init | apply scope_consistent_init | apply ordered_init | exact H].
Qed.

(** A class object keeps its name, and stays a created object. *)
Lemma notify_name n self self' r :
  notify n self = (self', Return tt) ->
  (r < next_class self)%nat ->
  JavaClass.name (class_objs self' r) = JavaClass.name (class_objs self r)
  /\ (r < next_class self')%nat.
Proof.
  intros H Hr.
  destruct (class_free n) eqn:Hfree.
  { destruct (notify_class_free n self self' Hfree H) as (_ & _ & _ & -> & Hname).
    by rewrite Hname. }
  destruct (notify_class_step n self self' Hfree H) as [(name & e & i & ->) | ->]; simpl.
  - destruct (Nat.eqb r (next_class self)) eqn:E; [apply Nat.eqb_eq in E; lia|].
    split; [done | lia].
  - done.
Qed.

(** The class [r], created before, is held by the scope tracker at no
    depth at which it was not held before. *)
Lemma notify_held n self self' r d :
  notify n self = (self', Return tt) ->
  (r < next_class self)%nat ->
  _deep_class self' !! d = Some r -> _deep_class self !! d = Some r.
Proof.
  intros H Hr Hd.
  destruct (class_free n) eqn:Hfree.
  { destruct (notify_class_free n self self' Hfree H) as (_ & Hdc & _). by rewrite <- Hdc. }
  destruct (notify_class_step n self self' Hfree H) as [(name & e & i & ->) | ->];
    simpl in Hd.
  - apply lookup_insert_Some in Hd as [[_ ?]|[_ ?]]; [lia | done].
  - by apply lookup_delete_Some in Hd as [_ ?].
Qed.

(** The class [r], created before, is held by the model under a name
    only if it was held under that name before. *)
Lemma notify_registered n self self' r k :
  notify n self = (self', Return tt) ->
  (r < next_class self)%nat ->
  dict_get k (JavaFileAst.classes (_ast self')) = Some r ->
  dict_get k (JavaFileAst.classes (_ast self)) = Some r.
Proof.
  intros H Hr Hk.
  destruct (class_free n) eqn:Hfree.
  { destruct (notify_class_free n self self' Hfree H) as (_ & _ & Hcl & _).
    by rewrite <- Hcl. }
  destruct (notify_class_step n self self' Hfree H) as [(name & e & i & ->) | ->];
    simpl in Hk; [|done].
  destruct (decide (name = k)) as [->|Hne].
  - rewrite dict_get_set_eq in Hk. simplify_eq. lia.
  - by rewrite dict_get_set_ne in Hk.
Qed.

(** The class at the present depth whose name is registered for [r] is
    [r] itself, when [r] is held by the scope tracker and by the model. *)
Lemma current_is_registered self r cur d0 :
  consistent self -> scope_consistent self -> ordered self ->
  _deep_class self !! d0 = Some r ->
  _deep_class self !! _deep self = Some cur ->
  dict_get (JavaClass.name (class_objs self cur)) (JavaFileAst.classes (_ast self))
  = Some r ->
  cur = r.
Proof.
  intros [_ _ _ Hopen] [_ Hdom] [Hscope Hmodel] Hr Hcur Hreg.
  assert (1 <= d0 <= _deep self) as Hd0 by (apply Hdom; eauto).
  destruct (decide (d0 = _deep self)) as [->|Hne]; [congruence|].
  assert (r < cur)%nat by (apply (Hscope d0 (_deep self)); [lia | done | done]).
  assert (cur <= r)%nat by (apply Hmodel; eauto).
  lia.
Qed.

(** One notification keeps an entry of the methods of [r] and what the
    method was declared with, as long as the scope tracker and the model
    hold [r]. *)
Lemma notify_entry_kept n self self' r d0 k m0 :
  consistent self -> scope_consistent self -> ordered self ->
  notify n self = (self', Return tt) ->
  _deep_class self !! d0 = Some r ->
  dict_get (JavaClass.name (class_objs self r)) (JavaFileAst.classes (_ast self)) = Some r ->
  dict_get k (JavaClass.methods (class_objs self r)) = Some m0 ->
  (m0 < next_method self)%nat ->
  dict_get k (JavaClass.methods (class_objs self' r)) = Some m0
  /\ (m0 < next_method self')%nat
  /\ declared (method_objs self' m0) = declared (method_objs self m0).
Proof.
  intros Hc Hs Ho H Hr Hmodel Hk Hm0.
  assert (r < next_class self)%nat as Hcreated by (destruct Hc; eauto).
  assert (forall target f (s : CollectListener),
            (forall c, JavaClass.methods (f c) = JavaClass.methods c) ->
            JavaClass.methods (class_objs (update_class target f s) r)
            = JavaClass.methods (class_objs s r)) as Hupd.
  { intros target f s Hf. cbn [update_class class_objs].
    destruct (Nat.eqb r target) eqn:E; [|done].
    apply Nat.eqb_eq in E. subst. apply Hf. }
  destruct (class_free n) eqn:Hfree.
  - destruct n as [ctx|ctx|ctx|ctx|ctx|ctx|ctx|ctx|ctx|ctx|ctx]; try done;
      cbn [notify] in H.
    + by run_callback H.
    + by run_callback H.
    + by run_callback H.
    + run_callback H. by rewrite Hupd.
    + run_callback H; [|done].
      repeat match goal with
      | H : classes_getitem _ _ = Return _ |- _ =>
          unfold classes_getitem in H; cbn [add_method update_class _ast class_objs] in H
      | H : deep_class_at_deep _ = Return _ |- _ => unfold deep_class_at_deep in H
      | H : getitem ?o = Return _ |- _ =>
          let E := fresh "E" in destruct o eqn:E; cbn [getitem] in H; simplify_eq
      end.
      cbn [set_current_method update_class add_method class_objs method_objs next_method].
      split_and!.
      * destruct (Nat.eqb r _) eqn:Etarget; [|done].
        apply Nat.eqb_eq in Etarget. subst.
        match goal with
        | Hcur : _deep_class self !! _deep self = Some ?cur,
          Hreg : dict_get (JavaClass.name (class_objs self ?cur)) _ = Some _ |- _ =>
            pose proof (current_is_registered self _ cur d0 Hc Hs Ho Hr Hcur Hreg); subst
        end.
        cbn [JavaClass.set_method JavaClass.methods]. rewrite dict_get_set_ne; [done|].
        intros ->.
        match goal with
        | Hnew : negb (dict_contains _ _) = true |- _ =>
            apply negb_true_iff in Hnew; unfold dict_contains in Hnew; by rewrite Hk in Hnew
        end.
      * lia.
      * destruct (Nat.eqb m0 (next_method self)) eqn:E'; [|done].
        apply Nat.eqb_eq in E'. lia.
    + by run_callback H.
    + run_callback H.
      * cbn [update_method class_objs method_objs next_method]. split_and!; [done | done |].
        destruct (Nat.eqb m0 _) eqn:E'; [|done]. apply Nat.eqb_eq in E'. by subst.
      * by rewrite Hupd.
  - destruct (notify_class_step n self self' Hfree H) as [(name & e & i & ->) | ->];
      simpl; [|done].
    destruct (Nat.eqb r (next_class self)) eqn:E; [apply Nat.eqb_eq in E; lia | done].
Qed.

Lemma walk_back stream self self' r d k :
  walk stream self = (self', Return tt) ->
  (r < next_class self)%nat ->
  JavaClass.name (class_objs self' r) = JavaClass.name (class_objs self r)
  /\ (r < next_class self')%nat
  /\ (_deep_class self' !! d = Some r -> _deep_class self !! d = Some r)
  /\ (dict_get k (JavaFileAst.classes (_ast self')) = Some r ->
      dict_get k (JavaFileAst.classes (_ast self)) = Some r).
Proof.
  revert self. induction stream as [|n stream IH]; intros self H Hcreated.
  - cbn in H. by simplify_eq.
  - cbn [walk] in H. unfold mbind in H.
    destruct (notify n self) as [self1 [[]|e]] eqn:Hn; [|done].
    destruct (notify_name n self self1 r Hn Hcreated) as [Hname Hcreated1].
    destruct (IH self1 H Hcreated1) as (Hname' & Hcreated' & Hheld & Hreg).
    split_and!; [congruence | done | |].
    + intros Hd. eauto using notify_held.
    + intros Hk. eauto using notify_registered.
Qed.

(** A stream of notifications keeps an entry of the methods of [r] and
    what the method was declared with, when the scope tracker and the
    model hold [r] at its end. *)
Lemma walk_entry_kept stream self self' r d0 k m0 :
  consistent self -> scope_consistent self -> ordered self ->
  (r < next_class self)%nat ->
  walk stream self = (self', Return tt) ->
  _deep_class self' !! d0 = Some r ->
  dict_get (JavaClass.name (class_objs self r)) (JavaFileAst.classes (_ast self')) = Some r ->
  dict_get k (JavaClass.methods (class_objs self r)) = Some m0 ->
  (m0 < next_method self)%nat ->
  dict_get k (JavaClass.methods (class_objs self' r)) = Some m0
  /\ declared (method_objs self' m0) = declared (method_objs self m0).
Proof.
  revert self. induction stream as [|n stream IH];
    intros self Hc Hs Ho Hcreated H Hr Hmodel Hk Hm0.
  - cbn in H. by simplify_eq.
  - cbn [walk] in H. unfold mbind in H.
    destruct (notify n self) as [self1 [[]|e]] eqn:Hn; [|done].
    destruct (notify_name n self self1 r Hn Hcreated) as [Hname Hcreated1].
    destruct (walk_back stream self1 self' r d0 (JavaClass.name (class_objs self r))
                H Hcreated1) as (_ & _ & Hheld & Hreg).
    pose proof (notify_held n self self1 r d0 Hn Hcreated (Hheld Hr)) as Hr0.
    pose proof (notify_registered n self self1 r _ Hn Hcreated (Hreg Hmodel)) as Hmodel0.
    destruct (notify_entry_kept n self self1 r d0 k m0 Hc Hs Ho Hn Hr0 Hmodel0 Hk Hm0)
      as (Hk1 & Hm1 & Hdecl1).
    destruct (IH self1) as (Hk' & Hdecl');
      eauto using notify_consistent, notify_scope, notify_ordered.
    + by rewrite Hname.
    + split; [done | congruence].
Qed.
(** ** Two declarations of one name *)

(** C3.  First, a method declaration whose name is already a key of the
    [methods] of the class object that the scope tracker holds at the
    present depth creates no method object, changes neither the store nor
    the model nor the current-method pointer, logs a warning and returns,
    so that the walk goes on; that class object has exactly one entry of
    that name.  Second, take a declaration under a name that the class at
    the present depth does not have yet, any notifications after it, and
    a second declaration of the same name that arrives with the same
    class object at the present depth while the model holds that object
    under its name.  Then the second declaration is skipped with a
    warning and creates no object, and the class has exactly one entry of
    that name: the method object of the first declaration, with what the
    first declaration gave it. *)
Theorem enterMethodDeclaration_duplicate :
  (forall (self : CollectListener) (ctx c1 : ParserRuleContext) (r : nat),
     reachable self ->
     getChild ctx 1 = Return (Some c1) ->
     _deep_class self !! _deep self = Some r ->
     dict_contains (getText c1) (JavaClass.methods (class_objs self r)) = true ->
     exists self',
       enterMethodDeclaration ctx self = (self', Return tt)
       /\ next_method self' = next_method self
       /\ method_objs self' = method_objs self
       /\ class_objs self' = class_objs self
       /\ _ast self' = _ast self
       /\ _current_method self' = _current_method self
       /\ logged self'
          = logged self
            ++ [(WARNING, getText c1 +:+ " is a overloading, ignore it in this version.")]
       /\ (forall rest, walk (EnterMethodDeclaration ctx :: rest) self = walk rest self')
       /\ entries_under (getText c1) (JavaClass.methods (class_objs self' r)) = 1%nat)
  /\ (forall (self self2 : CollectListener) (first second c0 c1 c2 d1 : ParserRuleContext)
             (r : nat) (params : list ParmType.t) (between : list notification),
        reachable self ->
        _deep_class self !! _deep self = Some r ->
        getChild first 0 = Return (Some c0) ->
        getChild first 1 = Return (Some c1) ->
        getChild first 2 = Return (Some c2) ->
        dict_contains (getText c1) (JavaClass.methods (class_objs self r)) = false ->
        parse_method_params_block self c2 = Return params ->
        walk (EnterMethodDeclaration first :: between) self = (self2, Return tt) ->
        _deep_class self2 !! _deep self2 = Some r ->
        dict_get (JavaClass.name (class_objs self r)) (JavaFileAst.classes (_ast self2))
        = Some r ->
        getChild second 1 = Return (Some d1) ->
        getText d1 = getText c1 ->
        exists self',
          enterMethodDeclaration second self2 = (self', Return tt)
          /\ (forall rest,
                walk (EnterMethodDeclaration first :: between
                      ++ EnterMethodDeclaration second :: rest) self
                = walk rest self')
          /\ dict_get (JavaClass.name (class_objs self r))
                      (JavaFileAst.classes (_ast self'))
             = Some r
          /\ entries_under (getText c1) (JavaClass.methods (class_objs self' r)) = 1%nat
          /\ dict_get (getText c1) (JavaClass.methods (class_objs self' r))
             = Some (next_method self)
          /\ declared (method_objs self' (next_method self))
             = JavaMethod.mk (getText c1) (start_line first) (stop_line first)
                             (depth first) params (getText c0) []
          /\ next_method self' = next_method self2
          /\ method_objs self' = method_objs self2
          /\ logged self'
             = logged self2
               ++ [(WARNING, getText c1 +:+ " is a overloading, ignore it in this version.")]).
Proof.
  split.
  - intros self ctx c1 r Hreach Hc1 Hr Hin.
    destruct (reachable_consistent self Hreach) as [Hkeys Hent Hobj Hopen].
    pose proof (enterMethodDeclaration_skip self ctx c1 r Hc1 Hr Hin) as Hrun.
    eexists. split; [exact Hrun|]. split_and!; try reflexivity.
    + intros rest. cbn [walk notify]. unfold mbind at 1. by rewrite Hrun.
    + cbn [emit class_objs]. apply entries_under_NoDup; [|done].
      apply Hobj. eauto.
  - intros self self2 first second c0 c1 c2 d1 r params between
           Hreach Hr Hc0 Hc1 Hc2 Hnew Hp Hwalk Hr2 Hmodel2 Hd1 Hname.
    pose proof (reachable_consistent self Hreach) as Hc.
    pose proof (reachable_scope self Hreach) as Hs.
    pose proof (reachable_ordered self Hreach) as Ho.
    assert (r < next_class self)%nat as Hcreated by (destruct Hc; eauto).
    assert (dict_get (JavaClass.name (class_objs self r)) (JavaFileAst.classes (_ast self))
            = Some r) as Hmodel.
    { by apply (walk_back _ _ _ r 0 (JavaClass.name (class_objs self r)) Hwalk Hcreated). }
    pose proof (enterMethodDeclaration_fresh self first c0 c1 c2 r r params
                  Hc0 Hc1 Hc2 Hr Hnew Hp Hmodel) as Henter.
    set (self1 := set_current_method (Some (next_method self))
         (update_class r (JavaClass.set_method (getText c1) (next_method self))
            (add_method (JavaMethod.mk (getText c1) (start_line first) (stop_line first)
                                       (depth first) params (getText c0) [])
               self))) in *.
    assert (walk between self1 = (self2, Return tt)) as Hbetween.
    { cbn [walk notify] in Hwalk. unfold mbind at 1 in Hwalk. by rewrite Henter in Hwalk. }
    assert (class_objs self1 r
            = JavaClass.set_method (getText c1) (next_method self) (class_objs self r))
      as Hclass1.
    { subst self1. cbn [set_current_method update_class class_objs].
      by rewrite Nat.eqb_refl. }
    assert (consistent self1) as Hc1'.
    { by apply (notify_consistent (EnterMethodDeclaration first) self). }
    assert (scope_consistent self1) as Hs1.
    { by apply (notify_scope (EnterMethodDeclaration first) self). }
    assert (ordered self1) as Ho1.
    { by apply (notify_ordered (EnterMethodDeclaration first) self). }
    assert (dict_get (JavaClass.name (class_objs self1 r))
                     (JavaFileAst.classes (_ast self2)) = Some r) as Hmodel1.
    { by rewrite Hclass1. }
    assert (dict_get (getText c1) (JavaClass.methods (class_objs self1 r))
            = Some (next_method self)) as Hentry1.
    { rewrite Hclass1. cbn [JavaClass.set_method JavaClass.methods]. apply dict_get_set_eq. }
    assert (next_method self < next_method self1)%nat as Hnext1.
    { subst self1. cbn [set_current_method update_class add_method next_method]. lia. }
    destruct (walk_entry_kept between self1 self2 r (_deep self2) (getText c1)
                (next_method self) Hc1' Hs1 Ho1 Hcreated Hbetween Hr2 Hmodel1 Hentry1 Hnext1)
      as [Hentry Hdeclared].
    assert (consistent self2) as Hc2'.
    { apply (walk_consistent _ _ _ Hc Hwalk). }
    assert (dict_contains (getText d1) (JavaClass.methods (class_objs self2 r)) = true)
      as Hin.
    { unfold dict_contains. by rewrite Hname, Hentry. }
    pose proof (enterMethodDeclaration_skip self2 second d1 r Hd1 Hr2 Hin) as Hskip.
    rewrite Hname in Hskip.
    eexists. split; [exact Hskip|]. split_and!; try reflexivity.
    + intros rest. change (EnterMethodDeclaration first :: between
                           ++ EnterMethodDeclaration second :: rest)
        with ((EnterMethodDeclaration first :: between)
              ++ EnterMethodDeclaration second :: rest).
      rewrite walk_sequence, Hwalk. cbn [walk notify]. unfold mbind at 1.
      by rewrite Hskip.
    + exact Hmodel2.
    + cbn [emit class_objs]. apply entries_under_NoDup.
      * destruct Hc2' as [_ _ Hobj Hopen]. apply Hobj. eauto.
      * unfold dict_contains. by rewrite Hentry.
    + exact Hentry.
    + cbn [emit method_objs]. rewrite Hdeclared.
      subst self1. cbn [set_current_method update_class add_method method_objs].
      by rewrite Nat.eqb_refl.
Qed.

Lemma enterMethodDeclaration_duplicate_witness :
  (reachable Sample.after_method
   /\ getChild Sample.method_m_int 1 = Return (Some (Sample.token "m"))
   /\ _deep_class Sample.after_method !! _deep Sample.after_method = Some 0%nat
   /\ dict_contains "m" (JavaClass.methods (class_objs Sample.after_method 0%nat)) = true
   /\ exists self',
       enterMethodDeclaration Sample.method_m_int Sample.after_method = (self', Return tt)
       /\ next_method self' = next_method Sample.after_method
       /\ method_objs self' = method_objs Sample.after_method
       /\ class_objs self' = class_objs Sample.after_method
       /\ _ast self' = _ast Sample.after_method
       /\ _current_method self' = _current_method Sample.after_method
       /\ logged self'
          = logged Sample.after_method
            ++ [(WARNING, "m is a overloading, ignore it in this version.")]
       /\ (forall rest,
             walk (EnterMethodDeclaration Sample.method_m_int :: rest) Sample.after_method
             = walk rest self')
       /\ entries_under "m" (JavaClass.methods (class_objs self' 0%nat)) = 1%nat)
  /\ (reachable Sample.in_class_A
      /\ _deep_class Sample.in_class_A !! _deep Sample.in_class_A = Some 0%nat
      /\ dict_contains "m" (JavaClass.methods (class_objs Sample.in_class_A 0%nat)) = false
      /\ walk (EnterMethodDeclaration Sample.method_m :: Scenario.between_m)
              Sample.in_class_A
         = (Scenario.before_second_m, Return tt)
      /\ _deep_class Scenario.before_second_m !! _deep Scenario.before_second_m
         = Some 0%nat
      /\ dict_get (JavaClass.name (class_objs Sample.in_class_A 0%nat))
                  (JavaFileAst.classes (_ast Scenario.before_second_m))
         = Some 0%nat
      /\ exists self',
          enterMethodDeclaration Sample.method_m_int Scenario.before_second_m
          = (self', Return tt)
          /\ (forall rest,
                walk (EnterMethodDeclaration Sample.method_m :: Scenario.between_m
                      ++ EnterMethodDeclaration Sample.method_m_int :: rest)
                     Sample.in_class_A
                = walk rest self')
          /\ dict_get "A" (JavaFileAst.classes (_ast self')) = Some 0%nat
          /\ entries_under "m" (JavaClass.methods (class_objs self' 0%nat)) = 1%nat
          /\ dict_get "m" (JavaClass.methods (class_objs self' 0%nat)) = Some 0%nat
          /\ declared (method_objs self' 0%nat)
             = JavaMethod.mk "m" 1 1 (depth Sample.method_m) [] "void" []
          /\ next_method self' = next_method Scenario.before_second_m
          /\ method_objs self' = method_objs Scenario.before_second_m
          /\ logged self'
             = logged Scenario.before_second_m
               ++ [(WARNING, "m is a overloading, ignore it in this version.")]).
Proof.
  assert (reachable Sample.after_method) as Hafter.
  { exists Sample.after_method_stream. vm_compute; reflexivity. }
  assert (reachable Sample.in_class_A) as Hin.
  { exists [EnterClassDeclaration Sample.class_A]. vm_compute; reflexivity. }
  split.
  - split; [exact Hafter|]. do 3 (split; [vm_compute; reflexivity|]).
    apply (proj1 enterMethodDeclaration_duplicate Sample.after_method Sample.method_m_int
             (Sample.token "m") 0%nat Hafter); vm_compute; reflexivity.
  - split; [exact Hin|]. do 5 (split; [vm_compute; reflexivity|]).
    apply (proj2 enterMethodDeclaration_duplicate Sample.in_class_A
             Scenario.before_second_m
             Sample.method_m Sample.method_m_int
             (Sample.token "void") (Sample.token "m")
             (Sample.node "()" [Sample.token "("; Sample.token ")"] None)
             (Sample.token "m") 0%nat [] Scenario.between_m Hin);
      vm_compute; reflexivity.
Defined.

(** C3, the class of the model.  A class with two method declarations of
    one name need not end with exactly one entry of that name, and the
    first declaration need not be the one that is kept.  In
    [class A { void m() {} class A {} int m(int x) {} }] the second
    declaration is skipped with a warning, but the class that the model
    holds under [A] is the inner one and has no method [m].  In
    [class A { class A {} void m() {} int m(int x) {} }] both declarations
    are registered in the inner class, whose methods the scope tracker's
    class never sees: two method objects are created, no warning is
    logged, and the entry under [m] is the second declaration. *)
Lemma enterMethodDeclaration_duplicate_counterexample :
  (exists listener,
     walk Scenario.m_then_inner_stream CollectListener_init = (listener, Return tt)
     /\ logged listener = [(WARNING, "m is a overloading, ignore it in this version.")]
     /\ JavaFileAst.classes (_ast listener) = [("A", 1%nat)]
     /\ entries_under "m" (JavaClass.methods (class_objs listener 1%nat)) = 0%nat
     /\ entries_under "m" (JavaClass.methods (class_objs listener 1%nat)) <> 1%nat)
  /\ (exists listener,
        walk Scenario.inner_then_two_m_stream CollectListener_init = (listener, Return tt)
        /\ logged listener = []
        /\ next_method listener = 2%nat
        /\ JavaFileAst.classes (_ast listener) = [("A", 1%nat)]
        /\ dict_get "m" (JavaClass.methods (class_objs listener 1%nat)) = Some 1%nat
        /\ JavaMethod.return_type (method_objs listener 1%nat) = "int"
        /\ JavaMethod.return_type (method_objs listener 1%nat)
           <> getText (Sample.token "void")).
Proof.
  split.
  - exists (fst (walk Scenario.m_then_inner_stream CollectListener_init)).
    split_and!; try (vm_compute; reflexivity). vm_compute. discriminate.
  - exists (fst (walk Scenario.inner_then_two_m_stream CollectListener_init)).
    split_and!; try (vm_compute; reflexivity). vm_compute. discriminate.
Qed.

(** ** Method calls *)

Lemma child_text_cases ctx i :
  (exists c, getChild ctx i = Return (Some c) /\ child_text ctx i = Return (getText c))
  \/ (getChild ctx i = Return None /\ child_text ctx i = Raise AttributeError)
  \/ (getChild ctx i = Raise TypeError /\ child_text ctx i = Raise TypeError).
Proof.
  unfold child_text, getChild.
  destruct (children ctx) as [|c0 cs] eqn:E.
  - destruct (isTerminal ctx); [right; left | right; right]; done.
  - destruct ((c0 :: cs) !! i) as [c|]; [left; by exists c | right; left; done].
Qed.

(** C5.  A method call whose node has a first child builds the statement
    from the text of that child and the start position of the node.  With
    a current method the statement is appended to that method.  Without
    one, and with a class registered at the present depth, it is appended
    to the class that the model holds under the name of the registered
    class, a class of that name; with no class registered the callback
    raises [KeyError] and changes nothing.  A call node without a first
    child raises and changes nothing. *)
Theorem enterMethodCall_attribution (self : CollectListener) (ctx : ParserRuleContext) :
  reachable self ->
  match getChild ctx 0 with
  | Raise e => enterMethodCall ctx self = (self, Raise e)
  | Return None => enterMethodCall ctx self = (self, Raise AttributeError)
  | Return (Some c0) =>
      match _current_method self with
      | Some m =>
          exists self',
            enterMethodCall ctx self = (self', Return tt)
            /\ self' = update_method m
                         (JavaMethod.append_statement
                            (Statement.mk (getText c0) (start_line ctx) (start_column ctx)))
                         self
            /\ JavaMethod.statements (method_objs self' m)
               = JavaMethod.statements (method_objs self m)
                 ++ [Statement.mk (getText c0) (start_line ctx) (start_column ctx)]
      | None =>
          match _deep_class self !! _deep self with
          | Some r =>
              exists self' target,
                dict_get (JavaClass.name (class_objs self r))
                         (JavaFileAst.classes (_ast self))
                = Some target
                /\ JavaClass.name (class_objs self target)
                   = JavaClass.name (class_objs self r)
                /\ enterMethodCall ctx self = (self', Return tt)
                /\ self' = update_class target
                             (JavaClass.append_statement
                                (Statement.mk (getText c0) (start_line ctx)
                                              (start_column ctx)))
                             self
                /\ JavaClass.statements (class_objs self' target)
                   = JavaClass.statements (class_objs self target)
                     ++ [Statement.mk (getText c0) (start_line ctx) (start_column ctx)]
          | None => enterMethodCall ctx self = (self, Raise KeyError)
          end
      end
  end.
Proof.
  intros Hreach. pose proof (reachable_consistent self Hreach) as Hc.
  destruct (child_text_cases ctx 0) as [(c0 & Hc0 & Ht) | [[Hc0 Ht] | [Hc0 Ht]]];
    rewrite Hc0.
  - destruct (_current_method self) as [m|] eqn:Hm.
    + eexists. split_and!; [|reflexivity|].
      * unfold enterMethodCall, mbind, eval, exec.
        rewrite print_stage_Return, Ht, Hm. reflexivity.
      * cbn [update_method method_objs]. by rewrite Nat.eqb_refl.
    + destruct (_deep_class self !! _deep self) as [r|] eqn:Hr.
      * destruct (classes_getitem_open self r Hc Hr) as (target & Htarget & Hn).
        eexists _, target. split_and!; [done|done| |reflexivity|].
        -- unfold enterMethodCall, mbind, eval, exec, deep_class_at_deep, classes_getitem.
           rewrite print_stage_Return, Ht, Hm, Hr. cbn [getitem].
           rewrite Htarget. reflexivity.
        -- cbn [update_class class_objs]. by rewrite Nat.eqb_refl.
      * unfold enterMethodCall, mbind, eval, exec, deep_class_at_deep.
        rewrite print_stage_Return, Ht, Hm, Hr. reflexivity.
  - unfold enterMethodCall, mbind, eval, exec. by rewrite print_stage_Return, Ht.
  - unfold enterMethodCall, mbind, eval, exec. by rewrite print_stage_Return, Ht.
Qed.

Lemma enterMethodCall_attribution_witness :
  reachable Sample.shadowed
  /\ exists self' target,
       dict_get (JavaClass.name (class_objs Sample.shadowed 0%nat))
                (JavaFileAst.classes (_ast Sample.shadowed))
       = Some target
       /\ JavaClass.name (class_objs Sample.shadowed target)
          = JavaClass.name (class_objs Sample.shadowed 0%nat)
       /\ enterMethodCall Sample.call_foo Sample.shadowed = (self', Return tt)
       /\ self' = update_class target
                    (JavaClass.append_statement (Statement.mk "foo" 1 0))
                    Sample.shadowed
       /\ JavaClass.statements (class_objs self' target)
          = JavaClass.statements (class_objs Sample.shadowed target)
            ++ [Statement.mk "foo" 1 0].
Proof.
  assert (reachable Sample.shadowed) as Hreach.
  { exists Sample.shadowed_stream. vm_compute; reflexivity. }
  split; [exact Hreach|].
  exact (enterMethodCall_attribution Sample.shadowed Sample.call_foo Hreach).
Defined.

(** C5, shared names, calls outside a class, calls without a callee.  In
    [class A { class A {} { foo(); } }] the class open at the present
    depth is the outer one (object 0); the statement of the initializer
    block is not appended to it but to the inner class (object 1), which
    the model holds under the same name.  A call that arrives while no
    method and no class is open raises [KeyError], and a call node that is
    a rule context without children raises [TypeError]; neither appends a
    statement. *)
Lemma enterMethodCall_open_class_counterexample :
  (reachable Sample.shadowed
   /\ _current_method Sample.shadowed = None
   /\ _deep_class Sample.shadowed !! _deep Sample.shadowed = Some 0%nat
   /\ exists self',
        enterMethodCall Sample.call_foo Sample.shadowed = (self', Return tt)
        /\ JavaClass.statements (class_objs self' 0%nat) = []
        /\ JavaClass.statements (class_objs self' 0%nat)
           <> JavaClass.statements (class_objs Sample.shadowed 0%nat)
              ++ [Statement.mk "foo" 1 0]
        /\ JavaClass.statements (class_objs self' 1%nat) = [Statement.mk "foo" 1 0])
  /\ (reachable Scenario.fresh
      /\ _current_method Scenario.fresh = None
      /\ _deep_class Scenario.fresh !! _deep Scenario.fresh = None
      /\ enterMethodCall Sample.call_foo Scenario.fresh = (Scenario.fresh, Raise KeyError))
  /\ (reachable Scenario.in_method
      /\ getChild Scenario.childless 0 = Raise TypeError
      /\ enterMethodCall Scenario.childless Scenario.in_method
         = (Scenario.in_method, Raise TypeError)).
Proof.
  split_and!.
  - exists Sample.shadowed_stream; vm_compute; reflexivity.
  - vm_compute; reflexivity.
  - vm_compute; reflexivity.
  - exists (fst (enterMethodCall Sample.call_foo Sample.shadowed)).
    split; [vm_compute; reflexivity|].
    split_and!; [vm_compute; reflexivity | | vm_compute; reflexivity].
    vm_compute. discriminate.
  - exists []. vm_compute; reflexivity.
  - vm_compute; reflexivity.
  - vm_compute; reflexivity.
  - vm_compute; reflexivity.
  - exists Scenario.in_method_stream. vm_compute; reflexivity.
  - vm_compute; reflexivity.
  - vm_compute; reflexivity.
Qed.

(** ** Field declarations *)

Lemma child_text_Raise ctx i e :
  child_text ctx i = Raise e -> e = AttributeError \/ e = TypeError.
Proof.
  destruct (child_text_cases ctx i) as [(c & _ & Ht) | [[_ Ht] | [_ Ht]]];
    rewrite Ht; intros [= <-]; auto.
Qed.

Lemma enterFieldDeclaration_unfold self ctx :
  enterFieldDeclaration ctx self
  = match rederived_class_block self ctx with
    | Raise e => (self, Raise e)
    | Return (class_name, _, _) =>
        match _deep_class self !! _deep self with
        | None => (self, Raise KeyError)
        | Some r =>
            if negb (String.eqb class_name (JavaClass.name (class_objs self r))) then
              (self, Raise (Exception ("Class name is " +:+ class_name +:+ " is not equal "
                                       +:+ JavaClass.name (class_objs self r))))
            else
              match dict_get (JavaClass.name (class_objs self r))
                             (JavaFileAst.classes (_ast self)) with
              | None => (self, Raise KeyError)
              | Some target =>
                  match child_text ctx 0 with
                  | Raise e => (self, Raise e)
                  | Return type_ =>
                      match child_text ctx 1 with
                      | Raise e => (self, Raise e)
                      | Return define_ =>
                          (update_class target
                             (JavaClass.append_field (FieldType.mk type_ define_)) self,
                           Return tt)
                      end
                  end
              end
        end
    end.
Proof.
  unfold enterFieldDeclaration, rederived_class_block, mbind, eval, exec,
    deep_class_at_deep, classes_getitem.
  rewrite print_stage_Return.
  destruct (let! p1 := getattr (parentCtx ctx) in _) as [[[class_name ?] ?]|e]; [|done].
  destruct (_deep_class self !! _deep self) as [r|]; [|done]. cbn [getitem].
  destruct (negb _); [done|].
  destruct (dict_get _ _) as [target|]; [|done]. cbn [getitem].
  destruct (child_text ctx 0); [|done].
  by destruct (child_text ctx 1).
Qed.

(** C7.  A field declaration decodes the header of its fourth ancestor
    again.  When the decoder raises, the callback raises the same
    exception; when the decoder returns a name and no class is registered
    at the present depth, it raises [KeyError].  With a class registered
    at the present depth, the callback raises the exception
    [Class name is ... is not equal ...] exactly when the name returned by
    the decoder differs from the name of the registered class.  When the
    names agree, the model holds a class of that name under the name, and
    the field whose type is the text of the first child of the declaration
    and whose declarator is the text of its second child is appended to
    that class; when the first or the second child is missing, the
    callback raises instead.  A callback that raises leaves the listener
    as it was. *)
Theorem enterFieldDeclaration_check (self : CollectListener) (ctx : ParserRuleContext) :
  reachable self ->
  (forall e, rederived_class_block self ctx = Raise e ->
     enterFieldDeclaration ctx self = (self, Raise e))
  /\ (forall class_name extends implements,
        rederived_class_block self ctx = Return (class_name, extends, implements) ->
        _deep_class self !! _deep self = None ->
        enterFieldDeclaration ctx self = (self, Raise KeyError))
  /\ (forall class_name extends implements r,
        rederived_class_block self ctx = Return (class_name, extends, implements) ->
        _deep_class self !! _deep self = Some r ->
        (class_name <> JavaClass.name (class_objs self r) ->
         enterFieldDeclaration ctx self
         = (self, Raise (Exception ("Class name is " +:+ class_name +:+ " is not equal "
                                    +:+ JavaClass.name (class_objs self r)))))
        /\ (snd (enterFieldDeclaration ctx self)
            = Raise (Exception ("Class name is " +:+ class_name +:+ " is not equal "
                                +:+ JavaClass.name (class_objs self r)))
            <-> class_name <> JavaClass.name (class_objs self r))
        /\ (class_name = JavaClass.name (class_objs self r) ->
            exists target,
              dict_get (JavaClass.name (class_objs self r))
                       (JavaFileAst.classes (_ast self))
              = Some target
              /\ JavaClass.name (class_objs self target)
                 = JavaClass.name (class_objs self r)
              /\ (forall c0 c1,
                    getChild ctx 0 = Return (Some c0) ->
                    getChild ctx 1 = Return (Some c1) ->
                    exists self',
                      enterFieldDeclaration ctx self = (self', Return tt)
                      /\ self' = update_class target
                                   (JavaClass.append_field
                                      (FieldType.mk (getText c0) (getText c1)))
                                   self
                      /\ JavaClass.fields (class_objs self' target)
                         = JavaClass.fields (class_objs self target)
                           ++ [FieldType.mk (getText c0) (getText c1)])
              /\ (forall e, child_text ctx 0 = Raise e ->
                    enterFieldDeclaration ctx self = (self, Raise e))
              /\ (forall c0 e,
                    getChild ctx 0 = Return (Some c0) ->
                    child_text ctx 1 = Raise e ->
                    enterFieldDeclaration ctx self = (self, Raise e)))).
Proof.
  intros Hreach. pose proof (reachable_consistent self Hreach) as Hc.
  rewrite enterFieldDeclaration_unfold. split_and!.
  - by intros e ->.
  - by intros class_name extends implements -> ->.
  - intros class_name extends implements r -> Hr. rewrite Hr.
    destruct (classes_getitem_open self r Hc Hr) as (target & Ht & Hname).
    rewrite Ht.
    destruct (String.eqb_spec class_name (JavaClass.name (class_objs self r)))
      as [Heq|Hne]; cbn [negb].
    + split_and!; [done | |].
      * split; [|done]. intros Hraise.
        destruct (child_text ctx 0) as [t|e0] eqn:E0.
        -- destruct (child_text ctx 1) as [d|e1] eqn:E1; [done|].
           cbn [snd] in Hraise.
           destruct (child_text_Raise _ _ _ E1) as [-> | ->]; discriminate.
        -- cbn [snd] in Hraise.
           destruct (child_text_Raise _ _ _ E0) as [-> | ->]; discriminate.
      * intros _. exists target. split_and!; [done | done | | |].
        -- intros c0 c1 Hc0 Hc1.
           rewrite (child_text_Some _ _ _ Hc0), (child_text_Some _ _ _ Hc1).
           eexists. split_and!; [reflexivity | reflexivity |].
           cbn [update_class class_objs]. by rewrite Nat.eqb_refl.
        -- by intros e ->.
        -- intros c0 e Hc0 ->. by rewrite (child_text_Some _ _ _ Hc0).
    + split_and!; [done | done | done].
Qed.

Lemma enterFieldDeclaration_check_witness :
  reachable Sample.in_class_A
  /\ rederived_class_block Sample.in_class_A Sample.field_x = Return ("A", "", PyStr "")
  /\ _deep_class Sample.in_class_A !! _deep Sample.in_class_A = Some 0%nat
  /\ "A" = JavaClass.name (class_objs Sample.in_class_A 0%nat)
  /\ getChild Sample.field_x 0 = Return (Some (Sample.token "int"))
  /\ getChild Sample.field_x 1 = Return (Some (Sample.token "x"))
  /\ exists target,
       dict_get (JavaClass.name (class_objs Sample.in_class_A 0%nat))
                (JavaFileAst.classes (_ast Sample.in_class_A))
       = Some target
       /\ JavaClass.name (class_objs Sample.in_class_A target)
          = JavaClass.name (class_objs Sample.in_class_A 0%nat)
       /\ exists self',
            enterFieldDeclaration Sample.field_x Sample.in_class_A = (self', Return tt)
            /\ self' = update_class target
                         (JavaClass.append_field (FieldType.mk "int" "x"))
                         Sample.in_class_A
            /\ JavaClass.fields (class_objs self' target)
               = JavaClass.fields (class_objs Sample.in_class_A target)
                 ++ [FieldType.mk "int" "x"].
Proof.
  assert (reachable Sample.in_class_A) as Hreach.
  { exists [EnterClassDeclaration Sample.class_A]. vm_compute; reflexivity. }
  split; [exact Hreach|]. do 5 (split; [vm_compute; reflexivity|]).
  destruct (enterFieldDeclaration_check Sample.in_class_A Sample.field_x Hreach)
    as (_ & _ & H).
  destruct (H "A" "" (PyStr "") 0%nat eq_refl eq_refl) as (_ & _ & Hagree).
  destruct (Hagree eq_refl) as (target & Ht & Hn & Happend & _).
  exists target. split; [exact Ht|]. split; [exact Hn|].
  exact (Happend (Sample.token "int") (Sample.token "x") eq_refl eq_refl).
Defined.

(** C7, shared names and the other ways to fail.  In
    [class A { class A {} int x; }] the scope tracker holds the outer
    class (object 0) and the name decoded again agrees with it; the field
    is not appended to that class but to the inner one (object 1), which
    the model holds under the same name.  The callback also raises where
    no name differs: for a field of [class A<T>], whose header the decoder
    rejects; for a field that arrives while no class is registered; and
    for a field declaration without a second child in a class whose name
    agrees. *)
Lemma enterFieldDeclaration_open_class_counterexample :
  (reachable Sample.shadowed
   /\ _deep_class Sample.shadowed !! _deep Sample.shadowed = Some 0%nat
   /\ JavaClass.name (class_objs Sample.shadowed 0%nat) = "A"
   /\ exists self',
        enterFieldDeclaration Sample.field_x Sample.shadowed = (self', Return tt)
        /\ JavaClass.fields (class_objs self' 0%nat) = []
        /\ JavaClass.fields (class_objs self' 0%nat)
           <> JavaClass.fields (class_objs Sample.shadowed 0%nat)
              ++ [FieldType.mk "int" "x"]
        /\ JavaClass.fields (class_objs self' 1%nat) = [FieldType.mk "int" "x"])
  /\ (reachable Sample.in_class_A
      /\ rederived_class_block Sample.in_class_A Scenario.field_in_generic
         = Raise (Exception "Class name is not found")
      /\ enterFieldDeclaration Scenario.field_in_generic Sample.in_class_A
         = (Sample.in_class_A, Raise (Exception "Class name is not found")))
  /\ (reachable Scenario.fresh
      /\ rederived_class_block Scenario.fresh Sample.field_x = Return ("A", "", PyStr "")
      /\ _deep_class Scenario.fresh !! _deep Scenario.fresh = None
      /\ enterFieldDeclaration Sample.field_x Scenario.fresh
         = (Scenario.fresh, Raise KeyError))
  /\ (reachable Sample.in_class_A
      /\ rederived_class_block Sample.in_class_A Scenario.field_type_only
         = Return ("A", "", PyStr "")
      /\ _deep_class Sample.in_class_A !! _deep Sample.in_class_A = Some 0%nat
      /\ JavaClass.name (class_objs Sample.in_class_A 0%nat) = "A"
      /\ enterFieldDeclaration Scenario.field_type_only Sample.in_class_A
         = (Sample.in_class_A, Raise AttributeError)).
Proof.
  assert (reachable Sample.in_class_A) as Hreach.
  { exists [EnterClassDeclaration Sample.class_A]. vm_compute; reflexivity. }
  split_and!; try exact Hreach; try (vm_compute; reflexivity).
  - exists Sample.shadowed_stream; vm_compute; reflexivity.
  - exists (fst (enterFieldDeclaration Sample.field_x Sample.shadowed)).
    split; [vm_compute; reflexivity|].
    split_and!; [vm_compute; reflexivity | | vm_compute; reflexivity].
    vm_compute. discriminate.
  - exists []. vm_compute; reflexivity.
Qed.

Example enterFieldDeclaration_mismatch :
  enterFieldDeclaration Sample.field_x_in_B Sample.in_class_A
  = (Sample.in_class_A, Raise (Exception "Class name is B is not equal A")).
Proof. vm_compute; reflexivity. Qed.
(** * Further properties *)

(** ** More on the class-header decoder *)

(** X1.  A class header with at least two children whose number of
    children is none of 2, 3, 5 and 7 is not decoded: [parse_class_block]
    raises [Exception('Class name is not found')]. *)
Theorem parse_class_block_unrecognised (self : CollectListener) (ctx : ParserRuleContext) :
  (2 <= getChildCount ctx)%nat ->
  getChildCount ctx <> 2%nat -> getChildCount ctx <> 3%nat ->
  getChildCount ctx <> 5%nat -> getChildCount ctx <> 7%nat ->
  parse_class_block self ctx = Raise (Exception "Class name is not found").
Proof.
  intros Hge H2 H3 H5 H7. unfold parse_class_block.
  destruct (children ctx !! 1%nat) as [c1|] eqn:Hc1.
  - rewrite (child_text_lookup _ _ _ Hc1).
    cbn [rbind print_stage logger_debug].
    apply Nat.eqb_neq in H2, H3, H5, H7. by rewrite H2, H3, H5, H7.
  - apply lookup_ge_None in Hc1. unfold getChildCount in Hge. lia.
Qed.

Lemma parse_class_block_unrecognised_witness :
  (2 <= getChildCount Sample.class_generic)%nat
  /\ getChildCount Sample.class_generic <> 2%nat
  /\ getChildCount Sample.class_generic <> 3%nat
  /\ getChildCount Sample.class_generic <> 5%nat
  /\ getChildCount Sample.class_generic <> 7%nat
  /\ parse_class_block Scenario.fresh Sample.class_generic
     = Raise (Exception "Class name is not found").
Proof.
  assert (getChildCount Sample.class_generic = 4%nat) as Hn by reflexivity.
  split; [rewrite Hn; lia|]. do 4 (split; [rewrite Hn; lia|]).
  apply (parse_class_block_unrecognised Scenario.fresh Sample.class_generic);
    rewrite Hn; lia.
Defined.

(** X2.  On a node with fewer than two children [parse_class_block]
    raises before the number of children is looked at, because the
    message for [print_stage] reads the text of the second child:
    [AttributeError] when the node has one child or is a terminal node,
    whose [getChild] gives [None], and [TypeError] when it is a rule
    context without children, on which [getChild] takes the length of
    [None]. *)
Theorem parse_class_block_short (self : CollectListener) (ctx : ParserRuleContext) :
  (getChildCount ctx < 2)%nat ->
  parse_class_block self ctx
  = Raise (match children ctx with
           | [] => if isTerminal ctx then AttributeError else TypeError
           | _ :: _ => AttributeError
           end).
Proof.
  intros Hlt. unfold parse_class_block, child_text, getChild, getChildCount in *.
  destruct (children ctx) as [|c0 [|c1 cs]]; [| done |simpl in Hlt; lia].
  by destruct (isTerminal ctx).
Qed.

Lemma parse_class_block_short_witness :
  ((getChildCount Scenario.childless < 2)%nat
   /\ parse_class_block Scenario.fresh Scenario.childless = Raise TypeError)
  /\ ((getChildCount Scenario.class_alone < 2)%nat
      /\ parse_class_block Scenario.fresh Scenario.class_alone = Raise AttributeError).
Proof.
  assert (getChildCount Scenario.childless = 0%nat) as Hn by reflexivity.
  assert (getChildCount Scenario.class_alone = 1%nat) as Hm by reflexivity.
  split; (split; [rewrite ?Hn, ?Hm; lia|]).
  - apply (parse_class_block_short Scenario.fresh Scenario.childless). rewrite Hn; lia.
  - apply (parse_class_block_short Scenario.fresh Scenario.class_alone). rewrite Hm; lia.
Defined.

(** X3.  A seven-child header decodes to the text of child 1 as name, the
    text of the first child of child 3 as [extends], and the texts of the
    children of child 5 at the even positions as [implements]. *)
Theorem parse_class_block_seven
    (self : CollectListener) (ctx c0 c1 c2 c3 c4 c5 c6 d : ParserRuleContext)
    (ds : list ParserRuleContext) :
  children ctx = [c0; c1; c2; c3; c4; c5; c6] ->
  children c3 = d :: ds ->
  getText c1 <> "" ->
  parse_class_block self ctx
  = Return (getText c1, getText d, PyList (map getText (pick true (children c5)))).
Proof.
  intros Hcs Hc3 Hne. unfold parse_class_block, getChildCount, child_text, child, getChild.
  rewrite Hcs. cbn [lookup list_lookup text_of getattr rbind print_stage logger_debug
                    List.length Nat.eqb].
  rewrite Hc3. cbn [lookup list_lookup text_of getattr rbind].
  rewrite parse_implements_block_even. cbn [rbind].
  apply String.eqb_neq in Hne. by rewrite Hne.
Qed.

Lemma parse_class_block_seven_witness :
  children Scenario.class_full
  = [Sample.token "class"; Sample.token "A"; Sample.token "extends";
     Sample.node "B" [Sample.token "B"] None; Sample.token "implements";
     Sample.node "C,D" [Sample.token "C"; Sample.token ","; Sample.token "D"] None;
     Sample.token "{}"]
  /\ children (Sample.node "B" [Sample.token "B"] None) = [Sample.token "B"]
  /\ getText (Sample.token "A") <> ""
  /\ parse_class_block Scenario.fresh Scenario.class_full
     = Return ("A", "B", PyList ["C"; "D"]).
Proof.
  split; [reflexivity|]. split; [reflexivity|]. split; [discriminate|].
  apply (parse_class_block_seven Scenario.fresh Scenario.class_full
           (Sample.token "class") (Sample.token "A") (Sample.token "extends")
           (Sample.node "B" [Sample.token "B"] None) (Sample.token "implements")
           (Sample.node "C,D" [Sample.token "C"; Sample.token ","; Sample.token "D"] None)
           (Sample.token "{}") (Sample.token "B") []);
    [reflexivity | reflexivity | discriminate].
Defined.

(** X4.  A five-child header decodes to the text of child 1 as name; when
    the text of child 2 is [implements], child 3 is decoded as the
    implements list; when it is [extends], the first child of child 3
    gives [extends], and a child 3 without children raises
    ([AttributeError] when it is a terminal node, [TypeError] when it is
    a rule context); with any other text neither is set. *)
Theorem parse_class_block_five
    (self : CollectListener) (ctx c0 c1 c2 c3 c4 : ParserRuleContext) :
  children ctx = [c0; c1; c2; c3; c4] ->
  getText c1 <> "" ->
  parse_class_block self ctx
  = if String.eqb (getText c2) "implements" then
      Return (getText c1, "", PyList (map getText (pick true (children c3))))
    else if String.eqb (getText c2) "extends" then
      match children c3 with
      | d :: _ => Return (getText c1, getText d, PyStr "")
      | [] => Raise (if isTerminal c3 then AttributeError else TypeError)
      end
    else Return (getText c1, "", PyStr "").
Proof.
  intros Hcs Hne. unfold parse_class_block, getChildCount.
  rewrite (child_text_lookup ctx 1 c1), (child_text_lookup ctx 2 c2),
    (child_lookup ctx 3 c3) by (by rewrite Hcs).
  rewrite Hcs. cbn [rbind print_stage logger_debug List.length Nat.eqb].
  apply String.eqb_neq in Hne.
  destruct (String.eqb (getText c2) "implements").
  - rewrite parse_implements_block_even. cbn [rbind]. by rewrite Hne.
  - destruct (String.eqb (getText c2) "extends").
    + unfold child_text, getChild. destruct (children c3) as [|d ds].
      * by destruct (isTerminal c3).
      * cbn [lookup list_lookup text_of getattr rbind]. by rewrite Hne.
    + cbn [rbind]. by rewrite Hne.
Qed.

Lemma parse_class_block_five_witness :
  (children Scenario.class_extends
   = [Sample.token "class"; Sample.token "A"; Sample.token "extends";
      Sample.node "B" [Sample.token "B"] None; Sample.token "{}"]
   /\ getText (Sample.token "A") <> ""
   /\ parse_class_block Scenario.fresh Scenario.class_extends
      = Return ("A", "B", PyStr ""))
  /\ (children Scenario.class_extends_nothing
      = [Sample.token "class"; Sample.token "A"; Sample.token "extends";
         Scenario.childless; Sample.token "{}"]
      /\ parse_class_block Scenario.fresh Scenario.class_extends_nothing
         = Raise TypeError).
Proof.
  split.
  - split; [reflexivity|]. split; [discriminate|].
    exact (parse_class_block_five Scenario.fresh Scenario.class_extends
             (Sample.token "class") (Sample.token "A") (Sample.token "extends")
             (Sample.node "B" [Sample.token "B"] None) (Sample.token "{}")
             eq_refl ltac:(discriminate)).
  - split; [reflexivity|].
    exact (parse_class_block_five Scenario.fresh Scenario.class_extends_nothing
             (Sample.token "class") (Sample.token "A") (Sample.token "extends")
             Scenario.childless (Sample.token "{}")
             eq_refl ltac:(discriminate)).
Defined.

(** X5.  A two-child header met when no class is registered at the
    present depth raises [KeyError]. *)
Theorem parse_class_block_two_without_class
    (self : CollectListener) (ctx c0 c1 : ParserRuleContext) :
  children ctx = [c0; c1] ->
  _deep_class self !! _deep self = None ->
  parse_class_block self ctx = Raise KeyError.
Proof.
  intros Hcs Hnone. unfold parse_class_block, getChildCount, child_text, child, getChild.
  rewrite Hcs. cbn [lookup list_lookup text_of getattr rbind print_stage logger_debug
                    List.length Nat.eqb].
  by rewrite Hnone.
Qed.

Lemma parse_class_block_two_without_class_witness :
  children Sample.class_rest = [Sample.token "()"; Sample.token "{}"]
  /\ _deep_class Scenario.fresh !! _deep Scenario.fresh = None
  /\ parse_class_block Scenario.fresh Sample.class_rest = Raise KeyError.
Proof.
  split; [reflexivity|]. split; [reflexivity|].
  apply (parse_class_block_two_without_class Scenario.fresh Sample.class_rest
           (Sample.token "()") (Sample.token "{}")); reflexivity.
Defined.

(** X6.  Whenever [parse_class_block] returns, the name is not empty, the
    node has 2, 3, 5 or 7 children, and unless it has 2 the name is the
    text of child 1. *)
Theorem parse_class_block_returns_name
    (self : CollectListener) (ctx : ParserRuleContext)
    (name extends : string) (implements : str_or_list) :
  parse_class_block self ctx = Return (name, extends, implements) ->
  name <> ""
  /\ (getChildCount ctx = 2%nat \/ getChildCount ctx = 3%nat
      \/ getChildCount ctx = 5%nat \/ getChildCount ctx = 7%nat)
  /\ (getChildCount ctx <> 2%nat -> getText <$> children ctx !! 1%nat = Some name).
Proof.
  intros Hp. split; [by eapply parse_class_block_name|].
  unfold parse_class_block in Hp.
  destruct (child_text_cases ctx 1) as [(c1 & Hc1 & Ht) | [[Hc1 Ht] | [Hc1 Ht]]];
    rewrite ?Ht in Hp; [|done|done].
  apply getChild_Some in Hc1. rewrite Hc1.
  cbn [rbind print_stage logger_debug fmap option_fmap option_map] in *.
  split.
  - destruct (Nat.eqb (getChildCount ctx) 7) eqn:E7; [apply Nat.eqb_eq in E7; auto|].
    destruct (Nat.eqb (getChildCount ctx) 5) eqn:E5; [apply Nat.eqb_eq in E5; auto|].
    destruct (Nat.eqb (getChildCount ctx) 3) eqn:E3; [apply Nat.eqb_eq in E3; auto|].
    destruct (Nat.eqb (getChildCount ctx) 2) eqn:E2; [apply Nat.eqb_eq in E2; auto|].
    done.
  - intros H2. apply Nat.eqb_neq in H2. rewrite H2 in Hp.
    match type of Hp with
    | rbind ?X _ = _ =>
        assert (forall n e i, X = Return (n, e, i) -> n = getText c1 \/ n = "") as Hname
    end.
    { intros n e i HX.
      repeat (first
        [ match type of HX with
          | (if ?b then _ else _) = _ => destruct b
          | rbind ?Y _ = _ => destruct Y; cbn [rbind] in HX
          end
        | progress simplify_eq ]); auto. }
    match type of Hp with
    | rbind ?X _ = _ => destruct X as [[[n e] i]|] eqn:HX; [|done]
    end.
    cbn [rbind] in Hp. destruct (String.eqb n "") eqn:En; [done|]. simplify_eq.
    destruct (Hname _ _ _ eq_refl) as [->| ->]; [done|]. done.
Qed.

Lemma parse_class_block_returns_name_witness :
  parse_class_block Scenario.fresh Sample.class_A = Return ("A", "", PyStr "")
  /\ "A" <> ""
  /\ (getChildCount Sample.class_A = 2%nat \/ getChildCount Sample.class_A = 3%nat
      \/ getChildCount Sample.class_A = 5%nat \/ getChildCount Sample.class_A = 7%nat)
  /\ (getChildCount Sample.class_A <> 2%nat ->
      getText <$> children Sample.class_A !! 1%nat = Some "A").
Proof.
  split; [reflexivity|].
  apply (parse_class_block_returns_name Scenario.fresh Sample.class_A "A" "" (PyStr "")).
  reflexivity.
Defined.

(** ** The parameter-list decoder *)

Lemma decode_parameter_children (p : ParserRuleContext) :
  decode_parameter p
  = match children p with
    | c0 :: c1 :: _ => Return (ParmType.mk (getText c1) (getText c0))
    | [_] => Raise AttributeError
    | [] => Raise (if isTerminal p then AttributeError else TypeError)
    end.
Proof.
  unfold decode_parameter, child_text, getChild.
  destruct (children p) as [|c0 [|c1 cs]]; [|done|done].
  by destruct (isTerminal p).
Qed.

Lemma params_loop c1 pre suf acc :
  children c1 = pre ++ suf ->
  for_range (fun i result =>
               if Nat.eqb (i mod 2) 0 then
                 let! p := child c1 i in
                 let! param_type := child_text p 0 in
                 let! param_name := child_text p 1 in
                 Return (result ++ [ParmType.mk param_name param_type])
               else Return result)
            (seq (List.length pre) (List.length suf)) acc
  = let! decoded := traverse decode_parameter (pick (Nat.even (List.length pre)) suf) in
    Return (acc ++ decoded).
Proof.
  revert pre acc. induction suf as [|c suf IH]; intros pre acc Hcs.
  - cbn. by rewrite app_nil_r.
  - assert (child c1 (List.length pre) = Return c) as Hc.
    { apply child_lookup. rewrite Hcs. by rewrite list_lookup_middle. }
    specialize (IH (pre ++ [c])). rewrite length_app in IH.
    cbn [List.length] in IH.
    rewrite Nat.add_1_r in IH. rewrite Nat.even_succ, <- Nat.negb_even in IH.
    cbn [List.length seq for_range pick]. rewrite mod2_even.
    destruct (Nat.even (List.length pre)); cbn [negb] in IH.
    + rewrite Hc. cbn [rbind traverse]. unfold decode_parameter at 1.
      destruct (child_text c 0) as [ty|]; [|done]. cbn [rbind].
      destruct (child_text c 1) as [nm|]; [|done]. cbn [rbind].
      rewrite IH by (by rewrite <- app_assoc).
      destruct (traverse decode_parameter (pick false suf)); [|done].
      cbn [rbind]. by rewrite <- app_assoc.
    + cbn [rbind]. by rewrite IH by (by rewrite <- app_assoc).
Qed.

Lemma parse_method_params_block_traverse (self : CollectListener) (ctx : ParserRuleContext) :
  parse_method_params_block self ctx
  = match children ctx with
    | [_; c1; _] => traverse decode_parameter (pick true (children c1))
    | _ => Return []
    end.
Proof.
  unfold parse_method_params_block. rewrite print_stage_Return. cbn [rbind].
  unfold getChildCount at 1.
  destruct (children ctx) as [|a [|c1 [|b [|x xs]]]] eqn:Hctx; try done.
  cbn [List.length Nat.eqb].
  rewrite (child_lookup ctx 1 c1) by (by rewrite Hctx). cbn [rbind].
  unfold getChildCount.
  destruct (children c1) as [|p [|q ps]] eqn:Hcs.
  - done.
  - cbn [List.length Nat.eqb].
    rewrite (child_lookup c1 0 p) by (by rewrite Hcs).
    cbn [rbind pick traverse]. unfold decode_parameter.
    destruct (child_text p 0); [|done]. cbn [rbind].
    by destruct (child_text p 1).
  - replace (Nat.eqb (List.length (p :: q :: ps)) 1) with false by done.
    replace (Nat.ltb 1 (List.length (p :: q :: ps))) with true by done.
    rewrite <- Hcs.
    pose proof (params_loop c1 [] (children c1) [] eq_refl) as H.
    cbn [List.length Nat.even app] in H. rewrite H.
    by destruct (traverse decode_parameter (pick true (children c1))).
Qed.

(** X7.  [parse_method_params_block] returns the empty list unless the
    node has exactly three children; then it decodes the children of the
    middle child at the positions 0, 2, 4, ... in order and raises at the
    first of them that does not decode.  A parameter node with two or
    more children decodes into the parameter with the text of its first
    child as type and of its second as name; one with a single child and
    a terminal node raise [AttributeError]; a rule context without
    children raises [TypeError].  When the decoder returns, there is one
    parameter per two children of the middle child, rounded up. *)
Theorem parse_method_params_block_spec (self : CollectListener) (ctx : ParserRuleContext) :
  parse_method_params_block self ctx
  = match children ctx with
    | [_; c1; _] => traverse decode_parameter (pick true (children c1))
    | _ => Return []
    end
  /\ (forall p,
        decode_parameter p
        = match children p with
          | c0 :: c1 :: _ => Return (ParmType.mk (getText c1) (getText c0))
          | [_] => Raise AttributeError
          | [] => Raise (if isTerminal p then AttributeError else TypeError)
          end)
  /\ match parse_method_params_block self ctx with
     | Return params =>
         List.length params
         = match children ctx with
           | [_; c1; _] => ((getChildCount c1 + 1) / 2)%nat
           | _ => 0%nat
           end
     | Raise _ => True
     end.
Proof.
  split; [apply parse_method_params_block_traverse|].
  split; [apply decode_parameter_children|].
  rewrite parse_method_params_block_traverse.
  destruct (children ctx) as [|a [|c1 [|b [|x xs]]]]; try done.
  unfold getChildCount. destruct (pick_length (children c1)) as [<- _].
  generalize (pick true (children c1)) as l.
  induction l as [|p l IH]; cbn [traverse]; [done|].
  destruct (decode_parameter p); [|done]. cbn [rbind].
  destruct (traverse decode_parameter l) as [ys|]; [|done].
  cbn [rbind List.length]. by f_equal.
Qed.

Example parse_method_params_block_two :
  parse_method_params_block Scenario.fresh Scenario.params_two
  = Return [ParmType.mk "x" "int"; ParmType.mk "y" "String"].
Proof. vm_compute; reflexivity. Qed.

Example parse_method_params_block_childless :
  parse_method_params_block Scenario.fresh
    (Sample.node "()" [Sample.token "("; Sample.node "" [Scenario.childless] None;
                       Sample.token ")"] None)
  = Raise TypeError.
Proof. vm_compute; reflexivity. Qed.

(** ** The scope tracker *)

(** X8.  After any stream of processed notifications the depth is not
    negative, and the depths at which the scope tracker holds a class are
    exactly 1 up to the current depth. *)
Theorem scope_depth_invariant (stream : list notification) (self : CollectListener) :
  walk stream CollectListener_init = (self, Return tt) ->
  0 <= _deep self
  /\ forall d, is_Some (_deep_class self !! d) <-> 1 <= d <= _deep self.
Proof. intros H. apply reachable_scope. by exists stream. Qed.

Lemma scope_depth_invariant_witness :
  walk Sample.shadowed_stream CollectListener_init = (Sample.shadowed, Return tt)
  /\ 0 <= _deep Sample.shadowed
  /\ forall d, is_Some (_deep_class Sample.shadowed !! d) <-> 1 <= d <= _deep Sample.shadowed.
Proof.
  split; [vm_compute; reflexivity|].
  apply (scope_depth_invariant Sample.shadowed_stream Sample.shadowed).
  vm_compute; reflexivity.
Defined.

(** X9.  An exit of a class declaration that no entry matches raises
    [KeyError] and leaves the listener as it was: at depth 0 there is no
    class to leave, so the depth does not become negative. *)
Theorem exitClassDeclaration_unmatched
    (self : CollectListener) (ctx c1 : ParserRuleContext) :
  reachable self ->
  _deep self = 0 ->
  getChild ctx 1 = Return (Some c1) ->
  exitClassDeclaration ctx self = (self, Raise KeyError).
Proof.
  intros Hreach Hd Hc1. destruct (reachable_scope self Hreach) as [_ Hdom].
  unfold exitClassDeclaration, mbind, eval, deep_class_at_deep.
  rewrite (child_text_Some _ _ _ Hc1). cbn [rbind print_stage logger_debug].
  destruct (_deep_class self !! _deep self) eqn:Hopen; [|done].
  assert (1 <= _deep self) by (apply (Hdom (_deep self)); eauto). lia.
Qed.

Lemma exitClassDeclaration_unmatched_witness :
  reachable Scenario.fresh
  /\ _deep Scenario.fresh = 0
  /\ getChild Sample.class_A 1 = Return (Some (Sample.token "A"))
  /\ exitClassDeclaration Sample.class_A Scenario.fresh = (Scenario.fresh, Raise KeyError).
Proof.
  assert (reachable Scenario.fresh) as Hreach by (exists []; reflexivity).
  split; [exact Hreach|]. split; [reflexivity|]. split; [reflexivity|].
  apply (exitClassDeclaration_unmatched Scenario.fresh Sample.class_A (Sample.token "A") Hreach);
    reflexivity.
Defined.

(** X10.  Entering a class declaration and leaving it again restores the
    scope tracker: the depth and the classes held per depth are as before,
    while the class stays registered in the model under its name. *)
Theorem enter_exit_class_restores_scope
    (self : CollectListener) (ctx : ParserRuleContext)
    (name extends : string) (implements : str_or_list) :
  reachable self ->
  parse_class_block self ctx = Return (name, extends, implements) ->
  exists self',
    walk [EnterClassDeclaration ctx; ExitClassDeclaration ctx] self = (self', Return tt)
    /\ _deep self' = _deep self
    /\ _deep_class self' = _deep_class self
    /\ _current_method self' = _current_method self
    /\ dict_get name (JavaFileAst.classes (_ast self')) = Some (next_class self)
    /\ class_objs self' (next_class self) = JavaClass.init name extends implements.
Proof.
  intros Hreach Hp. destruct (reachable_scope self Hreach) as [_ Hdom].
  assert (exists t, child_text ctx 1 = Return t) as [t Ht].
  { unfold parse_class_block in Hp. destruct (child_text ctx 1); [eauto | done]. }
  eexists. split.
  - cbn [walk notify]. unfold mbind at 1.
    rewrite (enterClassDeclaration_Return _ _ _ _ _ Hp).
    unfold mbind at 1. unfold exitClassDeclaration, mbind, eval, exec, deep_class_at_deep.
    rewrite Ht. cbn [rbind print_stage logger_debug].
    cbn [set_deep_class set_ast add_class set_deep _deep _deep_class].
    rewrite lookup_insert_eq. cbn [getitem]. reflexivity.
  - cbn. split_and!; try done.
    + lia.
    + rewrite delete_insert_eq. apply delete_id.
      destruct (_deep_class self !! (_deep self + 1)) eqn:E; [|done].
      assert (1 <= _deep self + 1 <= _deep self) by (apply (Hdom (_deep self + 1)); eauto). lia.
    + apply dict_get_set_eq.
    + by rewrite Nat.eqb_refl.
Qed.

Lemma enter_exit_class_restores_scope_witness :
  reachable Sample.in_class_A
  /\ parse_class_block Sample.in_class_A Sample.class_B = Return ("B", "", PyStr "")
  /\ exists self',
    walk [EnterClassDeclaration Sample.class_B; ExitClassDeclaration Sample.class_B]
         Sample.in_class_A = (self', Return tt)
    /\ _deep self' = _deep Sample.in_class_A
    /\ _deep_class self' = _deep_class Sample.in_class_A
    /\ _current_method self' = _current_method Sample.in_class_A
    /\ dict_get "B" (JavaFileAst.classes (_ast self')) = Some (next_class Sample.in_class_A)
    /\ class_objs self' (next_class Sample.in_class_A) = JavaClass.init "B" "" (PyStr "").
Proof.
  assert (reachable Sample.in_class_A) as Hreach.
  { exists [EnterClassDeclaration Sample.class_A]. vm_compute; reflexivity. }
  split; [exact Hreach|]. split; [vm_compute; reflexivity|].
  apply (enter_exit_class_restores_scope Sample.in_class_A Sample.class_B
           "B" "" (PyStr "") Hreach).
  vm_compute; reflexivity.
Defined.

(** ** Exceptions during the walk *)

Lemma classes_getitem_frame name self self' :
  JavaFileAst.classes (_ast self') = JavaFileAst.classes (_ast self) ->
  classes_getitem name self' = classes_getitem name self.
Proof. unfold classes_getitem. by intros ->. Qed.

Lemma enterMethodDeclaration_Raise ctx self self' e :
  consistent self ->
  enterMethodDeclaration ctx self = (self', Raise e) -> self' = self.
Proof.
  intros Hc H. unfold enterMethodDeclaration in H.
  unfold mbind at 1, eval at 1 in H.
  destruct (child_text ctx 1) as [method_name|]; [|by simplify_eq].
  unfold mbind at 1, eval at 1 in H. rewrite print_stage_Return in H.
  unfold mbind at 1, eval at 1, deep_class_at_deep in H.
  destruct (_deep_class self !! _deep self) as [r|] eqn:Hr;
    cbn [getitem] in H; [|by simplify_eq].
  unfold mbind at 1, eval at 1 in H.
  destruct (dict_contains method_name (JavaClass.methods (class_objs self r)));
    cbn [negb] in H; [done|].
  unfold mbind at 1, eval at 1 in H.
  destruct (child_text ctx 0) as [return_type|]; [|by simplify_eq].
  unfold mbind at 1, eval at 1 in H.
  match type of H with
  | context [rbind ?X ?k] => destruct (rbind X k) as [parameters|]; [|by simplify_eq]
  end.
  exfalso. destruct (classes_getitem_open self r Hc Hr) as (target & Ht & _).
  unfold mbind, eval, exec, alloc_method, classes_getitem in H.
  cbn [add_method update_class _ast class_objs getitem] in H.
  rewrite Ht in H. cbn [getitem] in H. rewrite Nat.eqb_refl in H.
  cbn [JavaClass.set_method JavaClass.methods] in H.
  rewrite dict_get_set_eq in H. done.
Qed.

Lemma notify_Raise n self self' e :
  consistent self -> notify n self = (self', Raise e) -> self' = self.
Proof.
  intros Hc H. destruct n as [ctx|ctx|ctx|ctx|ctx|ctx|ctx|ctx|ctx|ctx|ctx]; cbn [notify] in H.
  - by run_callback H.
  - by run_callback H.
  - by run_callback H.
  - destruct (parse_class_block self ctx) as [[[n e'] i]|e'] eqn:Hp.
    + by rewrite (enterClassDeclaration_Return _ _ _ _ _ Hp) in H.
    + rewrite (enterClassDeclaration_Raise _ _ _ Hp) in H. by simplify_eq.
  - by run_callback H.
  - by run_callback H.
  - eauto using enterMethodDeclaration_Raise.
  - by run_callback H.
  - by run_callback H.
  - unfold enterEnumDeclaration, mbind at 1, eval in H. rewrite print_stage_Return in H.
    destruct (parse_class_block self ctx) as [[[n e'] i]|e'] eqn:Hp.
    + by rewrite (enterClassDeclaration_Return _ _ _ _ _ Hp) in H.
    + rewrite (enterClassDeclaration_Raise _ _ _ Hp) in H. by simplify_eq.
  - unfold exitEnumDeclaration, mbind at 1, eval in H. rewrite print_stage_Return in H.
    by run_callback H.
Qed.

(** X11.  A callback that raises in a state reached by processed
    notifications has not modified the listener: every callback does its
    checks before its first mutation. *)
Theorem callback_raise_leaves_listener
    (n : notification) (self self' : CollectListener) (e : exn) :
  reachable self ->
  notify n self = (self', Raise e) ->
  self' = self.
Proof. intros Hreach. apply notify_Raise. by apply reachable_consistent. Qed.

Lemma callback_raise_leaves_listener_witness :
  reachable Sample.in_class_A
  /\ notify (EnterClassDeclaration Sample.class_generic) Sample.in_class_A
     = (Sample.in_class_A, Raise (Exception "Class name is not found"))
  /\ Sample.in_class_A = Sample.in_class_A.
Proof.
  assert (reachable Sample.in_class_A) as Hreach.
  { exists [EnterClassDeclaration Sample.class_A]. vm_compute; reflexivity. }
  split; [exact Hreach|]. split; [vm_compute; reflexivity|].
  apply (callback_raise_leaves_listener (EnterClassDeclaration Sample.class_generic)
           Sample.in_class_A Sample.in_class_A (Exception "Class name is not found") Hreach).
  vm_compute; reflexivity.
Defined.

(** X12.  When a walk that starts in a state reached by processed
    notifications raises, the listener is left exactly in the state after
    the notifications before the failing one: the stream splits into a
    processed prefix, the notification that raised without changing the
    listener, and a rest that was never delivered. *)
Theorem walk_raise_prefix
    (stream : list notification) (self self' : CollectListener) (e : exn) :
  reachable self ->
  walk stream self = (self', Raise e) ->
  exists pre n post,
    stream = pre ++ n :: post
    /\ walk pre self = (self', Return tt)
    /\ notify n self' = (self', Raise e).
Proof.
  intros Hreach. apply reachable_consistent in Hreach. revert self Hreach.
  induction stream as [|n stream IH]; intros self Hc H; [done|].
  cbn [walk] in H. unfold mbind in H.
  destruct (notify n self) as [self1 [[]|e1]] eqn:Hn.
  - destruct (IH self1) as (pre & m & post & -> & Hpre & Hm);
      [eauto using notify_consistent | done |].
    exists (n :: pre), m, post. split_and!; [done | | done].
    cbn [walk]. unfold mbind. by rewrite Hn.
  - simplify_eq. pose proof (notify_Raise _ _ _ _ Hc Hn) as ->.
    by exists [], n, stream.
Qed.

Lemma walk_raise_prefix_witness :
  reachable Scenario.fresh
  /\ walk Scenario.failing_stream Scenario.fresh
     = (Sample.in_class_A, Raise (Exception "Class name is not found"))
  /\ exists pre n post,
    Scenario.failing_stream = pre ++ n :: post
    /\ walk pre Scenario.fresh = (Sample.in_class_A, Return tt)
    /\ notify n Sample.in_class_A
       = (Sample.in_class_A, Raise (Exception "Class name is not found")).
Proof.
  assert (reachable Scenario.fresh) as Hreach by (exists []; reflexivity).
  split; [exact Hreach|]. split; [vm_compute; reflexivity|].
  apply (walk_raise_prefix Scenario.failing_stream Scenario.fresh Sample.in_class_A
           (Exception "Class name is not found") Hreach).
  vm_compute; reflexivity.
Defined.


(** ** Imports and method bodies *)

Lemma set_ast_id self :
  set_ast (JavaFileAst.mk (JavaFileAst.package_name (_ast self))
                          (JavaFileAst.imports (_ast self) ++ [])
                          (JavaFileAst.classes (_ast self))) self
  = self.
Proof. destruct self as [[] ? ? ? ? ? ? ? ?]. unfold set_ast. simpl. by rewrite app_nil_r. Qed.

(** X13.  A run of import declarations appends the texts of their qualified
    names to [imports] in the order of the declarations, duplicates
    included, and changes nothing else. *)
Theorem imports_in_order
    (ctxs names : list ParserRuleContext) (self : CollectListener) :
  Forall2 (fun ctx name => qualifiedName ctx = Some name) ctxs names ->
  walk (map EnterImportDeclaration ctxs) self
  = (set_ast (JavaFileAst.mk (JavaFileAst.package_name (_ast self))
                             (JavaFileAst.imports (_ast self) ++ map getText names)
                             (JavaFileAst.classes (_ast self))) self,
     Return tt).
Proof.
  intros H. revert self. induction H as [|ctx name ctxs names Hq _ IH]; intros self.
  - cbn [map walk]. by rewrite set_ast_id.
  - cbn [map walk notify]. unfold mbind at 1.
    unfold enterImportDeclaration, mbind, eval, exec.
    rewrite print_stage_Return, Hq. cbn [text_of getattr rbind].
    rewrite IH. cbn [set_ast _ast JavaFileAst.package_name JavaFileAst.imports
                     JavaFileAst.classes _deep_class _deep _current_method class_objs
                     next_class method_objs next_method logged].
    by rewrite <- app_assoc.
Qed.

Lemma imports_in_order_witness :
  Forall2 (fun ctx name => qualifiedName ctx = Some name)
          [Scenario.import_of "a.b"; Scenario.import_of "c"; Scenario.import_of "a.b"]
          [Scenario.qualified "a.b"; Scenario.qualified "c"; Scenario.qualified "a.b"]
  /\ walk (map EnterImportDeclaration
               [Scenario.import_of "a.b"; Scenario.import_of "c"; Scenario.import_of "a.b"])
          Scenario.fresh
     = (set_ast (JavaFileAst.mk "" ["a.b"; "c"; "a.b"] []) Scenario.fresh, Return tt).
Proof.
  assert (Forall2 (fun ctx name => qualifiedName ctx = Some name)
            [Scenario.import_of "a.b"; Scenario.import_of "c"; Scenario.import_of "a.b"]
            [Scenario.qualified "a.b"; Scenario.qualified "c"; Scenario.qualified "a.b"])
    as Hq by (repeat constructor).
  split; [exact Hq|].
  exact (imports_in_order _ _ Scenario.fresh Hq).
Defined.

(** X14.  A method declaration under a name that the current class does not
    have yet, the method calls of its body and its exit: the new method is
    registered under its name in the class that the model holds under the
    current class's name, it carries the return type, the lines, the depth
    and the decoded parameters of the declaration and the calls of the
    body in source order; the class receives none of these calls, and no
    method is current afterwards. *)
Theorem method_body_attribution
    (self : CollectListener) (ctx c0 c1 c2 : ParserRuleContext) (r : nat)
    (params : list ParmType.t) (calls firsts : list ParserRuleContext) :
  reachable self ->
  getChild ctx 0 = Return (Some c0) ->
  getChild ctx 1 = Return (Some c1) ->
  getChild ctx 2 = Return (Some c2) ->
  _deep_class self !! _deep self = Some r ->
  dict_contains (getText c1) (JavaClass.methods (class_objs self r)) = false ->
  parse_method_params_block self c2 = Return params ->
  Forall2 (fun call first => getChild call 0 = Return (Some first)) calls firsts ->
  exists self' target,
    walk (EnterMethodDeclaration ctx :: map EnterMethodCall calls
          ++ [ExitMethodDeclaration ctx]) self
    = (self', Return tt)
    /\ dict_get (JavaClass.name (class_objs self r)) (JavaFileAst.classes (_ast self'))
       = Some target
    /\ dict_get (getText c1) (JavaClass.methods (class_objs self' target))
       = Some (next_method self)
    /\ method_objs self' (next_method self)
       = JavaMethod.mk (getText c1) (start_line ctx) (stop_line ctx) (depth ctx)
                       params (getText c0) (zip_with statement_of calls firsts)
    /\ JavaClass.statements (class_objs self' target)
       = JavaClass.statements (class_objs self target)
    /\ _current_method self' = None.
Proof.
  intros Hreach Hc0 Hc1 Hc2 Hr Hnew Hp Hcalls.
  pose proof (reachable_consistent self Hreach) as Hc.
  destruct (classes_getitem_open self r Hc Hr) as (target & Ht & _).
  pose proof (enterMethodDeclaration_fresh self ctx c0 c1 c2 r target params
                Hc0 Hc1 Hc2 Hr Hnew Hp Ht) as Henter.
  set (self1 := set_current_method (Some (next_method self))
       (update_class target (JavaClass.set_method (getText c1) (next_method self))
          (add_method (JavaMethod.mk (getText c1) (start_line ctx) (stop_line ctx)
                                     (depth ctx) params (getText c0) [])
             self))) in *.
  destruct (walk_calls_in_method calls firsts self1 (next_method self) eq_refl Hcalls)
    as (self2 & Hw & Hobj & Hcls & Hast & Hcur & _).
  exists (set_current_method None self2), target. split_and!.
  - cbn [walk notify]. unfold mbind at 1. rewrite Henter.
    rewrite walk_sequence, Hw. cbn [walk notify]. unfold mbind.
    by rewrite (exitMethodDeclaration_Return _ _ _ Hc1).
  - cbn [set_current_method _ast]. by rewrite Hast.
  - cbn [set_current_method class_objs]. rewrite Hcls.
    subst self1. cbn [set_current_method update_class class_objs].
    rewrite Nat.eqb_refl. cbn [JavaClass.set_method JavaClass.methods].
    apply dict_get_set_eq.
  - cbn [set_current_method method_objs]. rewrite Hobj.
    subst self1. cbn [set_current_method update_class add_method method_objs].
    by rewrite Nat.eqb_refl.
  - cbn [set_current_method class_objs]. rewrite Hcls.
    subst self1. cbn [set_current_method update_class class_objs].
    by rewrite Nat.eqb_refl.
  - done.
Qed.

Lemma method_body_attribution_witness :
  reachable Sample.in_class_A
  /\ getChild Scenario.method_add 0 = Return (Some (Sample.token "int"))
  /\ getChild Scenario.method_add 1 = Return (Some (Sample.token "add"))
  /\ getChild Scenario.method_add 2 = Return (Some Scenario.params_two)
  /\ _deep_class Sample.in_class_A !! _deep Sample.in_class_A = Some 0%nat
  /\ dict_contains (getText (Sample.token "add"))
                   (JavaClass.methods (class_objs Sample.in_class_A 0%nat)) = false
  /\ parse_method_params_block Sample.in_class_A Scenario.params_two
     = Return [ParmType.mk "x" "int"; ParmType.mk "y" "String"]
  /\ Forall2 (fun call first => getChild call 0 = Return (Some first))
             [Sample.call_foo; Scenario.call_bar; Sample.call_foo]
             [Sample.token "foo"; Sample.token "bar"; Sample.token "foo"]
  /\ exists self' target,
    walk (EnterMethodDeclaration Scenario.method_add
          :: map EnterMethodCall [Sample.call_foo; Scenario.call_bar; Sample.call_foo]
          ++ [ExitMethodDeclaration Scenario.method_add]) Sample.in_class_A
    = (self', Return tt)
    /\ dict_get (JavaClass.name (class_objs Sample.in_class_A 0%nat))
                (JavaFileAst.classes (_ast self'))
       = Some target
    /\ dict_get (getText (Sample.token "add")) (JavaClass.methods (class_objs self' target))
       = Some (next_method Sample.in_class_A)
    /\ method_objs self' (next_method Sample.in_class_A)
       = JavaMethod.mk (getText (Sample.token "add")) (start_line Scenario.method_add)
           (stop_line Scenario.method_add) (depth Scenario.method_add)
           [ParmType.mk "x" "int"; ParmType.mk "y" "String"]
           (getText (Sample.token "int"))
           (zip_with statement_of
              [Sample.call_foo; Scenario.call_bar; Sample.call_foo]
              [Sample.token "foo"; Sample.token "bar"; Sample.token "foo"])
    /\ JavaClass.statements (class_objs self' target)
       = JavaClass.statements (class_objs Sample.in_class_A target)
    /\ _current_method self' = None.
Proof.
  assert (reachable Sample.in_class_A) as Hreach.
  { exists [EnterClassDeclaration Sample.class_A]. vm_compute; reflexivity. }
  assert (Forall2 (fun call first => getChild call 0 = Return (Some first))
             [Sample.call_foo; Scenario.call_bar; Sample.call_foo]
             [Sample.token "foo"; Sample.token "bar"; Sample.token "foo"]) as Hcalls
    by (repeat constructor).
  split; [exact Hreach|]. do 6 (split; [vm_compute; reflexivity|]).
  split; [exact Hcalls|].
  apply (method_body_attribution Sample.in_class_A Scenario.method_add
           (Sample.token "int") (Sample.token "add") Scenario.params_two 0%nat
           [ParmType.mk "x" "int"; ParmType.mk "y" "String"]
           [Sample.call_foo; Scenario.call_bar; Sample.call_foo]
           [Sample.token "foo"; Sample.token "bar"; Sample.token "foo"] Hreach);
    try (vm_compute; reflexivity).
  exact Hcalls.
Defined.


(** ** The pipeline and the batch *)

(** X15.  Without an output path ([None] or the empty string) [process]
    walks the stream and writes nothing, whatever the walk gives. *)
Theorem process_without_output_path (stream : list notification) (w : world) :
  files (fst (process stream None w)) = files w
  /\ files (fst (process stream (Some "") w)) = files w
  /\ snd (process stream None w) = snd (walk stream CollectListener_init)
  /\ snd (process stream (Some "") w) = snd (walk stream CollectListener_init).
Proof.
  unfold process. destruct (walk stream CollectListener_init) as [listener [[]|e]]; done.
Qed.

Lemma errors_of_app l1 l2 : errors_of (l1 ++ l2) = errors_of l1 ++ errors_of l2.
Proof. apply List.filter_app. Qed.

Lemma notify_errors n self :
  errors_of (logged (fst (notify n self))) = errors_of (logged self).
Proof.
  destruct (notify n self) as [self' r] eqn:H. cbn [fst].
  destruct n as [ctx|ctx|ctx|ctx|ctx|ctx|ctx|ctx|ctx|ctx|ctx]; cbn [notify] in H;
    try (unfold enterEnumDeclaration, exitEnumDeclaration, mbind at 1, eval at 1 in H;
         rewrite print_stage_Return in H);
    run_callback H; try done.
  cbn [emit logged]. rewrite errors_of_app. cbn. by rewrite app_nil_r.
Qed.

Lemma walk_errors stream self :
  errors_of (logged (fst (walk stream self))) = errors_of (logged self).
Proof.
  revert self. induction stream as [|n stream IH]; intros self; [done|].
  cbn [walk]. unfold mbind. pose proof (notify_errors n self) as Hn.
  destruct (notify n self) as [self1 [[]|e]]; cbn [fst] in *.
  - by rewrite IH.
  - done.
Qed.

Lemma process_outcome stream path w :
  path <> "" ->
  process stream (Some path) w
  = match walk stream CollectListener_init with
    | (listener, Return _) =>
        match write_text path (get_ast_dot listener) (files w) with
        | Return fs => (mkWorld fs (log w ++ logged listener), Return tt)
        | Raise e => (mkWorld (files w) (log w ++ logged listener), Raise e)
        end
    | (listener, Raise e) => (mkWorld (files w) (log w ++ logged listener), Raise e)
    end.
Proof.
  intros Hne. unfold process.
  destruct (walk stream CollectListener_init) as [listener [[]|e]]; [|done].
  apply String.eqb_neq in Hne. rewrite Hne. cbn [files log].
  by destruct (write_text _ _ _).
Qed.

Lemma dot_suffix_nonempty p : str (with_suffix p ".dot") <> "".
Proof. unfold str, with_suffix. cbn [stem suffix]. by destruct (stem p). Qed.

Lemma write_text_lookup path content fs fs' q :
  write_text path content fs = Return fs' ->
  fs' !! q = (if decide (path = q) then
                match fs !! path with
                | Some Special => Some Special
                | _ => Some (Regular content)
                end
              else fs !! q).
Proof.
  unfold write_text. intros H.
  destruct (decide (path = q)) as [<-|Hne].
  - destruct (fs !! path) as [[c| |b]|] eqn:E; simplify_eq;
      rewrite ?lookup_insert_eq; done.
  - destruct (fs !! path) as [[c| |b]|] eqn:E; simplify_eq;
      rewrite ?lookup_insert_ne by done; done.
Qed.

Lemma process_errors stream output_path w :
  errors_of (log (fst (process stream output_path w))) = errors_of (log w).
Proof.
  unfold process. pose proof (walk_errors stream CollectListener_init) as Hw.
  destruct (walk stream CollectListener_init) as [listener [[]|e]]; cbn [fst] in Hw.
  - assert (errors_of (log w ++ logged listener) = errors_of (log w)) as Hlog.
    { rewrite errors_of_app, Hw. cbn. by rewrite app_nil_r. }
    destruct output_path as [path|]; [|done].
    destruct (String.eqb path ""); [done|]. cbn [files log].
    by destruct (write_text _ _ _).
  - cbn [fst log]. rewrite errors_of_app, Hw. cbn. by rewrite app_nil_r.
Qed.

Lemma process_lookup stream path w q :
  path <> "" ->
  files (fst (process stream (Some path) w)) !! q = files w !! q
  \/ (path = q /\ exists content,
        files (fst (process stream (Some path) w)) !! q = Some (Regular content)
        /\ files w !! q <> Some Special
        /\ forall regular, files w !! q <> Some (Refused regular)).
Proof.
  intros Hne. rewrite process_outcome by done.
  destruct (walk stream CollectListener_init) as [listener [[]|e]]; [|by left].
  destruct (write_text path (get_ast_dot listener) (files w)) as [fs|e] eqn:Hw; [|by left].
  cbn [fst files]. rewrite (write_text_lookup _ _ _ _ q Hw).
  destruct (decide (path = q)) as [<-|]; [|by left].
  unfold write_text in Hw.
  destruct (files w !! path) as [[c| |b]|] eqn:E; simplify_eq; try (by left);
    right; (split; [done|]); eexists; split_and!; done.
Qed.

Lemma create_files src output_path percent w :
  files (fst (create src output_path percent w))
  = files (fst (process (src_stream src) (Some (str output_path)) w)).
Proof.
  unfold create.
  destruct (process (src_stream src) (Some (str output_path)) w) as [w1 [[]|e]]; [|done].
  by destruct (negb _).
Qed.

Lemma create_errors src output_path percent w :
  str output_path <> "" ->
  files w !! str output_path <> Some Special ->
  errors_of (log (fst (create src output_path percent w))) = errors_of (log w).
Proof.
  intros Hne Hspecial. unfold create.
  pose proof (process_errors (src_stream src) (Some (str output_path)) w) as Hlog.
  pose proof (process_lookup (src_stream src) (str output_path) w (str output_path) Hne)
    as Hfile.
  rewrite process_outcome in * by done.
  destruct (walk (src_stream src) CollectListener_init) as [listener [[]|e]]; [|done].
  destruct (write_text (str output_path) (get_ast_dot listener) (files w))
    as [fs|e] eqn:Hw; [|done].
  cbn [fst files log] in *. unfold is_file. cbn [files].
  unfold write_text in Hw.
  destruct (files w !! str output_path) as [[c| |b]|] eqn:E; simplify_eq;
    rewrite lookup_insert_eq; cbn [negb fst log];
    rewrite errors_of_app, Hlog; cbn; by rewrite app_nil_r.
Qed.

Lemma create_reports_failure src output_path percent w listener :
  str output_path <> "" ->
  walk (src_stream src) CollectListener_init = (listener, Return tt) ->
  files w !! str output_path = Some Special ->
  create src output_path percent w
  = (mkWorld (files w)
             (log w ++ logged listener
              ++ [(ERROR, "[" +:+ percent +:+ "] create java callgraph failed for "
                          +:+ str (src_path src))]),
     Return tt).
Proof.
  intros Hne Hwalk Hspecial. unfold create. rewrite process_outcome by done.
  rewrite Hwalk. unfold write_text. rewrite Hspecial.
  unfold is_file. cbn [files log]. rewrite Hspecial. cbn [negb].
  by rewrite <- app_assoc.
Qed.

Lemma not_special_step stream path w q :
  path <> "" ->
  files w !! q <> Some Special ->
  files (fst (process stream (Some path) w)) !! q <> Some Special.
Proof.
  intros Hne Hq.
  destruct (process_lookup stream path w q Hne) as [-> | (_ & c & -> & _)]; done.
Qed.

Lemma run_cancelled_errors tasks w :
  errors_of (log (run_cancelled tasks w)) = errors_of (log w).
Proof.
  revert w. induction tasks as [|t tasks IH]; intros w; [done|].
  cbn [run_cancelled]. rewrite IH. apply process_errors.
Qed.

Lemma gather_errors tasks w :
  Forall (fun t => str (task_output t) <> ""
                   /\ files w !! str (task_output t) <> Some Special) tasks ->
  errors_of (log (fst (gather tasks w))) = errors_of (log w).
Proof.
  revert w. induction tasks as [|t tasks IH]; intros w H; [done|].
  apply Forall_cons in H as [[Hne Hspecial] Hrest].
  cbn [gather].
  pose proof (create_errors (task_src t) (task_output t) (task_percent t) w Hne Hspecial)
    as Hlog.
  pose proof (create_files (task_src t) (task_output t) (task_percent t) w) as Hfiles.
  destruct (create (task_src t) (task_output t) (task_percent t) w) as [w1 [[]|e]];
    cbn [fst] in *.
  - rewrite IH; [done|]. eapply Forall_impl; [exact Hrest|].
    intros t' [Hne' Hspecial']. split; [done|]. rewrite Hfiles.
    by apply not_special_step.
  - by rewrite run_cancelled_errors.
Qed.

(** X16.  A batch in which no output path is something that is not a
    regular file and yet accepts the write, such as a link to
    [/dev/null], logs no record at level [ERROR], whatever the order of
    completion: a pipeline that raises does not reach the report, and one
    that returns has written a regular file.  For a file whose walk
    returns and whose output path is of that kind, [process] returns,
    [is_file] is false afterwards, and [create] logs the report of a
    failure. *)
Theorem main_logs_no_error (batch : list source_file) (completion : list nat) (w : world) :
  Forall (fun src => files w !! str (output_of src) <> Some Special) batch ->
  errors_of (log (fst (main batch completion w))) = errors_of (log w)
  /\ forall (src : source_file) (percent : string) (listener : CollectListener)
            (w' : world),
       walk (src_stream src) CollectListener_init = (listener, Return tt) ->
       files w' !! str (output_of src) = Some Special ->
       create src (output_of src) percent w'
       = (mkWorld (files w')
                  (log w' ++ logged listener
                   ++ [(ERROR, "[" +:+ percent +:+ "] create java callgraph failed for "
                               +:+ str (src_path src))]),
          Return tt).
Proof.
  intros Hbatch. split.
  - unfold main. apply gather_errors.
    apply Forall_forall. intros t Ht.
    apply list_elem_of_omap in Ht as (i & _ & Hi).
    apply list_lookup_imap_Some in Hi as (src & Hsrc & ->).
    cbn [task_output]. split; [apply dot_suffix_nonempty|].
    apply list_elem_of_lookup_2 in Hsrc.
    exact (proj1 (Forall_forall _ _) Hbatch _ Hsrc).
  - intros src percent listener w' Hwalk Hspecial.
    by apply create_reports_failure; [apply dot_suffix_nonempty | |].
Qed.

Lemma main_logs_no_error_witness :
  Forall (fun src => files Sample.empty_world !! str (output_of src) <> Some Special)
         [Sample.bad_file; Sample.good_file]
  /\ errors_of (log (fst (main [Sample.bad_file; Sample.good_file] [1; 0]%nat
                               Sample.empty_world)))
     = errors_of (log Sample.empty_world)
  /\ create Sample.good_file (output_of Sample.good_file) "1/1" Scenario.special_world
     = (mkWorld (files Scenario.special_world)
                [(ERROR, "[1/1] create java callgraph failed for src/Good.java")],
        Return tt).
Proof.
  assert (Forall (fun src => files Sample.empty_world !! str (output_of src)
                             <> Some Special)
                 [Sample.bad_file; Sample.good_file]) as Hbatch.
  { repeat constructor; vm_compute; discriminate. }
  split; [exact Hbatch|].
  destruct (main_logs_no_error [Sample.bad_file; Sample.good_file] [1; 0]%nat
              Sample.empty_world Hbatch) as [Hlog Hfail].
  split; [exact Hlog|].
  exact (Hfail Sample.good_file "1/1"
           (fst (walk (src_stream Sample.good_file) CollectListener_init))
           Scenario.special_world eq_refl eq_refl).
Defined.

Lemma omap_lookup_seq {A} (pre l : list A) :
  omap (fun i => (pre ++ l) !! i) (seq (List.length pre) (List.length l)) = l.
Proof.
  revert pre. induction l as [|x l IH]; intros pre; [done|].
  simpl. rewrite list_lookup_middle by done.
  f_equal. specialize (IH (pre ++ [x])).
  rewrite length_app, Nat.add_1_r, <- app_assoc in IH. exact IH.
Qed.

Lemma create_keeps_files src output_path percent w path :
  str output_path <> "" ->
  is_Some (files w !! path) ->
  is_Some (files (fst (create src output_path percent w)) !! path).
Proof.
  intros Hne Hin. rewrite create_files.
  destruct (process_lookup (src_stream src) (str output_path) w path Hne)
    as [-> | (_ & c & -> & _)]; eauto.
Qed.

Lemma create_writable src output_path percent w path :
  str output_path <> "" ->
  writable w path -> writable (fst (create src output_path percent w)) path.
Proof.
  intros Hne Hw. unfold writable in *. rewrite create_files.
  destruct (process_lookup (src_stream src) (str output_path) w path Hne)
    as [-> | (_ & c & -> & _)]; done.
Qed.

Lemma create_keeps_regular src output_path percent w (p : Path) :
  str output_path <> "" ->
  is_file p w = true -> is_file p (fst (create src output_path percent w)) = true.
Proof.
  intros Hne Hw. unfold is_file in *. rewrite create_files.
  destruct (process_lookup (src_stream src) (str output_path) w (str p) Hne)
    as [-> | (_ & c & -> & _)]; done.
Qed.

Lemma create_succeeds src output_path percent w :
  str output_path <> "" ->
  snd (walk (src_stream src) CollectListener_init) = Return tt ->
  writable w (str output_path) ->
  snd (create src output_path percent w) = Return tt
  /\ is_file output_path (fst (create src output_path percent w)) = true.
Proof.
  intros Hne Hwalk Hw. unfold create, writable in *. rewrite process_outcome by done.
  destruct (walk (src_stream src) CollectListener_init) as [listener [[]|e]];
    cbn [snd] in Hwalk; [|done].
  unfold write_text.
  destruct (files w !! str output_path) as [[c| |b]|] eqn:E; try done;
    unfold is_file; cbn [files]; rewrite lookup_insert_eq; cbn [negb fst snd files];
    by rewrite lookup_insert_eq.
Qed.

Lemma gather_creates_all (tasks : list task) w :
  Forall (fun t => str (task_output t) <> ""
                   /\ snd (walk (src_stream (task_src t)) CollectListener_init) = Return tt
                   /\ writable w (str (task_output t))) tasks ->
  snd (gather tasks w) = Return tt
  /\ (forall path, is_Some (files w !! path) ->
                   is_Some (files (fst (gather tasks w)) !! path))
  /\ (forall p, is_file p w = true -> is_file p (fst (gather tasks w)) = true)
  /\ Forall (fun t => is_file (task_output t) (fst (gather tasks w)) = true) tasks.
Proof.
  revert w. induction tasks as [|t tasks IH]; intros w H; [done|].
  apply Forall_cons in H as [(Hne & Hwalk & Hw) Hrest].
  cbn [gather].
  destruct (create_succeeds (task_src t) (task_output t) (task_percent t) w Hne Hwalk Hw)
    as [Hret Hfile].
  pose proof (create_keeps_files (task_src t) (task_output t) (task_percent t) w) as Hkeep.
  pose proof (create_keeps_regular (task_src t) (task_output t) (task_percent t) w)
    as Hreg.
  pose proof (create_writable (task_src t) (task_output t) (task_percent t) w) as Hwr.
  destruct (create (task_src t) (task_output t) (task_percent t) w) as [w1 [[]|e]];
    cbn [fst snd] in *; [|done].
  destruct (IH w1) as (IHr & IHk & IHf & IHn).
  { eapply Forall_impl; [exact Hrest|]. intros t' (? & ? & ?). auto. }
  split_and!; [done | auto | auto |].
  constructor; [auto | done].
Qed.

(** X17.  When the walk of every file of the batch returns, every output
    path (the path of the file with the suffix [.dot]) is free or a
    regular file that takes the write, and the pipelines complete in the
    order of the batch, [main] returns, every file of the batch has its
    output file, and no file that existed before is removed. *)
Theorem main_all_succeed (batch : list source_file) (w : world) :
  Forall (fun src => snd (walk (src_stream src) CollectListener_init) = Return tt) batch ->
  Forall (fun src => writable w (str (output_of src))) batch ->
  snd (main batch (seq 0 (List.length batch)) w) = Return tt
  /\ Forall (fun src =>
               is_file (output_of src)
                       (fst (main batch (seq 0 (List.length batch)) w)) = true) batch
  /\ (forall path, is_Some (files w !! path) ->
        is_Some (files (fst (main batch (seq 0 (List.length batch)) w)) !! path)).
Proof.
  intros Hall Hwritable. unfold main.
  set (mk := fun (index : nat) (src : source_file) =>
               mkTask src (with_suffix (src_path src) ".dot")
                      (pretty (index + 1)%nat +:+ "/" +:+ pretty (List.length batch))).
  set (tasks := imap mk batch).
  assert (omap (fun i => tasks !! i) (seq 0 (List.length batch)) = tasks) as ->.
  { rewrite <- (length_imap mk batch). apply (omap_lookup_seq [] tasks). }
  destruct (gather_creates_all tasks w) as (Hr & Hk & _ & Hn).
  { apply Forall_forall. intros t Ht.
    apply list_elem_of_lookup_1 in Ht as [i Hi].
    apply list_lookup_imap_Some in Hi as (src & Hsrc & ->).
    apply list_elem_of_lookup_2 in Hsrc.
    cbn [mk task_output task_src]. split_and!.
    - apply dot_suffix_nonempty.
    - exact (proj1 (Forall_forall _ _) Hall _ Hsrc).
    - exact (proj1 (Forall_forall _ _) Hwritable _ Hsrc). }
  split_and!; [done | | done].
  apply Forall_forall. intros src Hsrc.
  apply list_elem_of_lookup_1 in Hsrc as [i Hi].
  assert (tasks !! i = Some (mk i src)) as Ht.
  { apply list_lookup_imap_Some. eauto. }
  apply list_elem_of_lookup_2 in Ht.
  exact (proj1 (Forall_forall _ _) Hn _ Ht).
Qed.

Lemma main_all_succeed_witness :
  Forall (fun src => snd (walk (src_stream src) CollectListener_init) = Return tt)
         [Sample.good_file]
  /\ Forall (fun src => writable Sample.empty_world (str (output_of src)))
            [Sample.good_file]
  /\ snd (main [Sample.good_file] (seq 0 (List.length [Sample.good_file]))
               Sample.empty_world) = Return tt
  /\ Forall (fun src =>
               is_file (output_of src)
                       (fst (main [Sample.good_file]
                                  (seq 0 (List.length [Sample.good_file]))
                                  Sample.empty_world)) = true) [Sample.good_file]
  /\ (forall path, is_Some (files Sample.empty_world !! path) ->
        is_Some (files (fst (main [Sample.good_file]
                                  (seq 0 (List.length [Sample.good_file]))
                                  Sample.empty_world)) !! path)).
Proof.
  assert (Forall (fun src => snd (walk (src_stream src) CollectListener_init) = Return tt)
                 [Sample.good_file]) as Hall.
  { constructor; [vm_compute; reflexivity | constructor]. }
  assert (Forall (fun src => writable Sample.empty_world (str (output_of src)))
                 [Sample.good_file]) as Hwritable.
  { constructor; [vm_compute; exact I | constructor]. }
  split; [exact Hall|]. split; [exact Hwritable|].
  exact (main_all_succeed [Sample.good_file] Sample.empty_world Hall Hwritable).
Defined.

Example main_reports_failure :
  main [Sample.good_file] [0%nat] Scenario.special_world
  = (mkWorld (files Scenario.special_world)
             [(ERROR, "[1/1] create java callgraph failed for src/Good.java")],
     Return tt).
Proof. vm_compute; reflexivity. Qed.

(** ** From the notifications to the graph *)

Lemma parse_method_params_block_listener self self' ctx :
  parse_method_params_block self ctx = parse_method_params_block self' ctx.
Proof. by rewrite !parse_method_params_block_traverse. Qed.

(** X18.  A file with one class (a three-child header) that declares one
    method whose body makes the calls [calls]: the walk returns with the
    scope closed, and the rendering is the opening line, the node of the
    class, the node of the method, the edge from the class to the method,
    one edge from the method to the first child's text of each call, in
    source order and with repetitions, and the closing brace. *)
Theorem single_method_rendering
    (cls k nm body mth c0 c1 c2 : ParserRuleContext) (params : list ParmType.t)
    (calls firsts : list ParserRuleContext) :
  children cls = [k; nm; body] ->
  getText nm <> "" ->
  getChild mth 0 = Return (Some c0) ->
  getChild mth 1 = Return (Some c1) ->
  getChild mth 2 = Return (Some c2) ->
  parse_method_params_block CollectListener_init c2 = Return params ->
  Forall2 (fun call first => getChild call 0 = Return (Some first)) calls firsts ->
  exists listener,
    walk (EnterClassDeclaration cls :: EnterMethodDeclaration mth
          :: map EnterMethodCall calls
          ++ [ExitMethodDeclaration mth; ExitClassDeclaration cls])
         CollectListener_init
    = (listener, Return tt)
    /\ _deep listener = 0
    /\ _current_method listener = None
    /\ get_ast_dot listener
       = join_lines
           (["digraph " +:+ node_stmt "callGraph" +:+ " {";
             node_stmt (getText nm);
             node_stmt (getText c1);
             edge_stmt (getText nm) (getText c1)]
            ++ map (fun first => edge_stmt (getText c1) (getText first)) firsts
            ++ ["}"]).
Proof.
  intros Hcs Hne Hc0 Hc1 Hc2 Hp Hcalls.
  pose proof (parse_class_block_3 CollectListener_init cls k nm body Hcs Hne) as Hcls.
  pose proof (enterClassDeclaration_Return _ _ _ _ _ Hcls) as Henter.
  set (self1 := set_deep_class _ _) in Henter.
  assert (_deep_class self1 !! _deep self1 = Some 0%nat) as Hopen.
  { subst self1. cbn. apply lookup_insert_eq. }
  assert (dict_get (JavaClass.name (class_objs self1 0%nat))
                   (JavaFileAst.classes (_ast self1)) = Some 0%nat) as Htarget.
  { subst self1. cbn. by rewrite String.eqb_refl. }
  rewrite (parse_method_params_block_listener _ self1) in Hp.
  pose proof (enterMethodDeclaration_fresh self1 mth c0 c1 c2 0%nat 0%nat params
                Hc0 Hc1 Hc2 Hopen eq_refl Hp Htarget) as Hmethod.
  set (self2 := set_current_method _ _) in Hmethod.
  destruct (walk_calls_in_method calls firsts self2 0%nat eq_refl Hcalls)
    as (self3 & Hw & Hobj & Hcobjs & Hast & Hcur & Hd & Hdc & _).
  assert (getChild cls 1 = Return (Some nm)) as Hnm by (apply getChild_Some; by rewrite Hcs).
  eexists. split.
  { cbn [walk notify]. unfold mbind at 1. rewrite Henter.
    unfold mbind at 1. rewrite Hmethod.
    rewrite walk_sequence, Hw. cbn [walk notify]. unfold mbind at 1.
    rewrite (exitMethodDeclaration_Return _ _ _ Hc1).
    unfold mbind at 1.
    unfold exitClassDeclaration, mbind, eval, exec, deep_class_at_deep.
    rewrite (child_text_Some _ _ _ Hnm). cbn [rbind print_stage logger_debug].
    cbn [set_current_method _deep _deep_class]. rewrite Hd, Hdc.
    change (_deep_class self2) with (_deep_class self1).
    change (_deep self2) with (_deep self1). rewrite Hopen.
    cbn [getitem]. reflexivity. }
  cbn [set_deep set_deep_class set_current_method _deep _current_method].
  split_and!; [rewrite Hd; subst self2 self1; cbn; lia | done |].
  unfold get_ast_dot, dot.
  cbn [set_deep set_deep_class set_current_method class_objs method_objs _ast].
  rewrite dot_digraph_graph_statements. f_equal.
  unfold graph_statements. rewrite Hast, Hcobjs.
  subst self2 self1. cbn [set_current_method update_class add_method set_deep_class
    set_ast add_class set_deep set_class _ast class_objs JavaFileAst.classes
    CollectListener_init JavaFileAst.init dict_set flat_map class_block fst snd
    Nat.eqb JavaClass.set_method JavaClass.init JavaClass.methods JavaClass.statements
    JavaClass.name next_method next_class method_block map app] in *.
  rewrite Hobj.
  cbn [JavaMethod.statements app set_current_method update_class add_method
       method_objs next_method set_deep_class set_ast add_class set_deep
       CollectListener_init Nat.eqb].
  assert (map (fun stmt => edge_stmt (getText c1) (Statement.value stmt))
              (zip_with statement_of calls firsts)
          = map (fun first => edge_stmt (getText c1) (getText first)) firsts) as ->.
  { clear -Hcalls.
    induction Hcalls as [|call first calls firsts _ _ IH]; cbn [zip_with map]; [done|].
    by rewrite IH. }
  by rewrite !app_nil_r.
Qed.

Lemma single_method_rendering_witness :
  children Sample.class_A = [Sample.token "class"; Sample.token "A"; Sample.token "{}"]
  /\ getText (Sample.token "A") <> ""
  /\ getChild Scenario.method_add 0 = Return (Some (Sample.token "int"))
  /\ getChild Scenario.method_add 1 = Return (Some (Sample.token "add"))
  /\ getChild Scenario.method_add 2 = Return (Some Scenario.params_two)
  /\ parse_method_params_block CollectListener_init Scenario.params_two
     = Return [ParmType.mk "x" "int"; ParmType.mk "y" "String"]
  /\ Forall2 (fun call first => getChild call 0 = Return (Some first))
             [Sample.call_foo; Scenario.call_bar; Sample.call_foo]
             [Sample.token "foo"; Sample.token "bar"; Sample.token "foo"]
  /\ exists listener,
    walk (EnterClassDeclaration Sample.class_A :: EnterMethodDeclaration Scenario.method_add
          :: map EnterMethodCall [Sample.call_foo; Scenario.call_bar; Sample.call_foo]
          ++ [ExitMethodDeclaration Scenario.method_add;
              ExitClassDeclaration Sample.class_A])
         CollectListener_init
    = (listener, Return tt)
    /\ _deep listener = 0
    /\ _current_method listener = None
    /\ get_ast_dot listener
       = join_lines
           (["digraph " +:+ node_stmt "callGraph" +:+ " {";
             node_stmt "A"; node_stmt "add"; edge_stmt "A" "add"]
            ++ map (fun first => edge_stmt "add" (getText first))
                   [Sample.token "foo"; Sample.token "bar"; Sample.token "foo"]
            ++ ["}"]).
Proof.
  assert (Forall2 (fun call first => getChild call 0 = Return (Some first))
             [Sample.call_foo; Scenario.call_bar; Sample.call_foo]
             [Sample.token "foo"; Sample.token "bar"; Sample.token "foo"]) as Hcalls
    by (repeat constructor).
  split; [reflexivity|]. split; [discriminate|].
  do 4 (split; [vm_compute; reflexivity|]). split; [exact Hcalls|].
  exact (single_method_rendering Sample.class_A (Sample.token "class") (Sample.token "A")
           (Sample.token "{}") Scenario.method_add (Sample.token "int")
           (Sample.token "add") Scenario.params_two
           [ParmType.mk "x" "int"; ParmType.mk "y" "String"]
           [Sample.call_foo; Scenario.call_bar; Sample.call_foo]
           [Sample.token "foo"; Sample.token "bar"; Sample.token "foo"]
           eq_refl ltac:(discriminate) eq_refl eq_refl eq_refl eq_refl Hcalls).
Defined.

(** ** The body of a skipped declaration *)

(** X19.  A method declaration whose name the current class already has,
    met outside any method, and the calls of its body: the declaration is
    skipped with a warning, and every call of the body is appended, in
    source order, to the direct statements of the class that the model
    holds under the current class's name; no method object is created or
    changed. *)
Theorem skipped_method_body_attribution
    (self : CollectListener) (mth c1 : ParserRuleContext) (r : nat)
    (calls firsts : list ParserRuleContext) :
  reachable self ->
  _current_method self = None ->
  getChild mth 1 = Return (Some c1) ->
  _deep_class self !! _deep self = Some r ->
  dict_contains (getText c1) (JavaClass.methods (class_objs self r)) = true ->
  Forall2 (fun call first => getChild call 0 = Return (Some first)) calls firsts ->
  exists self' target,
    walk (EnterMethodDeclaration mth :: map EnterMethodCall calls
          ++ [ExitMethodDeclaration mth]) self
    = (self', Return tt)
    /\ dict_get (JavaClass.name (class_objs self r)) (JavaFileAst.classes (_ast self))
       = Some target
    /\ JavaClass.statements (class_objs self' target)
       = JavaClass.statements (class_objs self target)
         ++ zip_with statement_of calls firsts
    /\ JavaClass.methods (class_objs self' target)
       = JavaClass.methods (class_objs self target)
    /\ method_objs self' = method_objs self
    /\ next_method self' = next_method self
    /\ _current_method self' = None
    /\ logged self'
       = logged self
         ++ [(WARNING, getText c1 +:+ " is a overloading, ignore it in this version.")].
Proof.
  intros Hreach Hm Hc1 Hr Hin Hcalls.
  pose proof (reachable_consistent self Hreach) as Hc.
  destruct (classes_getitem_open self r Hc Hr) as (target & Ht & _).
  set (msg := getText c1 +:+ " is a overloading, ignore it in this version.").
  pose proof (enterMethodDeclaration_skip self mth c1 r Hc1 Hr Hin) as Hrun.
  fold msg in Hrun.
  destruct (walk_calls_in_class calls firsts (emit WARNING msg self) r target
              Hm Hr Ht Hcalls)
    as (self1 & Hw & Hst & Hme & Hobj & Hnm & Hast & Hcur & Hlog).
  exists (set_current_method None self1), target. split_and!; try done.
  cbn [walk notify]. unfold mbind at 1. rewrite Hrun.
  rewrite walk_sequence, Hw. cbn [walk notify]. unfold mbind.
  by rewrite (exitMethodDeclaration_Return _ _ _ Hc1).
Qed.

Lemma skipped_method_body_attribution_witness :
  reachable Sample.after_method
  /\ _current_method Sample.after_method = None
  /\ getChild Sample.method_m_int 1 = Return (Some (Sample.token "m"))
  /\ _deep_class Sample.after_method !! _deep Sample.after_method = Some 0%nat
  /\ dict_contains (getText (Sample.token "m"))
                   (JavaClass.methods (class_objs Sample.after_method 0%nat)) = true
  /\ Forall2 (fun call first => getChild call 0 = Return (Some first))
             [Sample.call_foo; Scenario.call_bar]
             [Sample.token "foo"; Sample.token "bar"]
  /\ exists self' target,
    walk (EnterMethodDeclaration Sample.method_m_int
          :: map EnterMethodCall [Sample.call_foo; Scenario.call_bar]
          ++ [ExitMethodDeclaration Sample.method_m_int]) Sample.after_method
    = (self', Return tt)
    /\ dict_get (JavaClass.name (class_objs Sample.after_method 0%nat))
                (JavaFileAst.classes (_ast Sample.after_method))
       = Some target
    /\ JavaClass.statements (class_objs self' target)
       = JavaClass.statements (class_objs Sample.after_method target)
         ++ zip_with statement_of [Sample.call_foo; Scenario.call_bar]
                                  [Sample.token "foo"; Sample.token "bar"]
    /\ JavaClass.methods (class_objs self' target)
       = JavaClass.methods (class_objs Sample.after_method target)
    /\ method_objs self' = method_objs Sample.after_method
    /\ next_method self' = next_method Sample.after_method
    /\ _current_method self' = None
    /\ logged self'
       = logged Sample.after_method
         ++ [(WARNING, getText (Sample.token "m")
                       +:+ " is a overloading, ignore it in this version.")].
Proof.
  assert (reachable Sample.after_method) as Hreach.
  { exists Sample.after_method_stream. vm_compute; reflexivity. }
  assert (Forall2 (fun call first => getChild call 0 = Return (Some first))
             [Sample.call_foo; Scenario.call_bar]
             [Sample.token "foo"; Sample.token "bar"]) as Hcalls
    by (repeat constructor).
  split; [exact Hreach|]. do 4 (split; [vm_compute; reflexivity|]).
  split; [exact Hcalls|].
  apply (skipped_method_body_attribution Sample.after_method Sample.method_m_int
           (Sample.token "m") 0%nat [Sample.call_foo; Scenario.call_bar]
           [Sample.token "foo"; Sample.token "bar"] Hreach);
    try (vm_compute; reflexivity).
  exact Hcalls.
Defined.
